(** * SBOMRegistry: a shallow embedding of [contracts/SBOMRegistry.sol]

    The contract keeps four mappings and an owner address.  Every public
    function of the contract is transcribed below as a program in a small
    state-and-revert monad; [pure] and [view] functions are given types
    that cannot write storage.  The theorems at the end of the file relate
    the specification of the registry to these definitions. *)

From Stdlib Require Import NArith List Lia Bool.
From Stdlib Require Import Strings.String Strings.Ascii Strings.Byte.
From stdpp Require Import base option list gmap strings.

Import ListNotations.
Local Open Scope N_scope.

(** ** Solidity value types *)

(** [bytes32], [address], [uint256] and [uint8] are unsigned integers; the
    contract only compares them, stores them, and (for [uint8 v]) adds a
    constant, so they are kept as [N] and the one addition is checked
    explicitly. *)
Abbreviation bytes32 := N (only parsing).
Abbreviation address := N (only parsing).
Abbreviation uint256 := N (only parsing).
Abbreviation uint8 := N (only parsing).
Abbreviation bytes := (list byte) (only parsing).

(** Solidity's default ("zero") value of a type: what an unwritten mapping
    slot reads as. *)
Class Zero (A : Type) := zero : A.
Global Instance N_zero : Zero N := 0.
Global Instance bool_zero : Zero bool := false.
Global Instance string_zero : Zero string := EmptyString.
Global Instance list_zero {A} : Zero (list A) := [].

(** [mapping(K => V)] read: total, with the zero value where nothing was
    written. *)
Definition mapping_get {V} `{Zero V} (m : gmap N V) (k : N) : V :=
  default zero (m !! k).
Notation "m @ k" := (mapping_get m k) (at level 20, format "m @ k").

(** ** Structs *)

Record SBOMRecord := mkSBOMRecord {
  hash : bytes32;
  vendor : address;
  timestamp : uint256;
  metadata : string;
  previousHash : bytes32;
  signature : bytes
}.

Record VendorInfo := mkVendorInfo {
  name : string;
  website : string;
  contactEmail : string;
  verified : bool;
  registeredAt : uint256
}.

Global Instance SBOMRecord_zero : Zero SBOMRecord :=
  mkSBOMRecord 0 0 0 EmptyString 0 [].
Global Instance VendorInfo_zero : Zero VendorInfo :=
  mkVendorInfo EmptyString EmptyString EmptyString false 0.

(** ** State variables *)

Record Storage := mkStorage {
  sbomRecords : gmap N SBOMRecord;
  versionHistory : gmap N (list N);
  rootHash : gmap N N;
  vendors : gmap N VendorInfo;
  registryOwner : address
}.

Definition set_sbomRecords (f : gmap N SBOMRecord -> gmap N SBOMRecord) (st : Storage) :=
  mkStorage (f (sbomRecords st)) (versionHistory st) (rootHash st) (vendors st) (registryOwner st).
Definition set_versionHistory (f : gmap N (list N) -> gmap N (list N)) (st : Storage) :=
  mkStorage (sbomRecords st) (f (versionHistory st)) (rootHash st) (vendors st) (registryOwner st).
Definition set_rootHash (f : gmap N N -> gmap N N) (st : Storage) :=
  mkStorage (sbomRecords st) (versionHistory st) (f (rootHash st)) (vendors st) (registryOwner st).
Definition set_vendors (f : gmap N VendorInfo -> gmap N VendorInfo) (st : Storage) :=
  mkStorage (sbomRecords st) (versionHistory st) (rootHash st) (f (vendors st)) (registryOwner st).
Definition set_registryOwner (a : address) (st : Storage) :=
  mkStorage (sbomRecords st) (versionHistory st) (rootHash st) (vendors st) a.

(** ** Events *)

Inductive Event :=
| SBOMRegistered (h : bytes32) (v : address) (ts : uint256) (md : string)
| SBOMUpdated (oldHash newHash : bytes32) (v : address) (ts : uint256)
| VendorRegistered (v : address) (nm : string) (ts : uint256)
| VendorRevoked (v : address) (ts : uint256).

(** ** Revert reasons

    One constructor per [require] message of the contract, plus the
    arithmetic panic of checked [uint8] addition. *)

Inductive RevertReason :=
| OnlyRegistryOwner
| InvalidVendorAddress
| VendorAlreadyRegistered
| NameCannotBeEmpty
| VendorNotVerified
| InvalidNewOwner
| SBOMAlreadyRegistered
| InvalidSignatureLength
| InvalidSignatureVersion
| SignerMismatch
| VendorNotVerifiedForSBOM
| OriginalSBOMNotFound
| OnlyOriginalVendor
| NewHashAlreadyRegistered
| PanicOverflow.

Definition revert_message (r : RevertReason) : string :=
  match r with
  | OnlyRegistryOwner => "Only registry owner can perform this action"
  | InvalidVendorAddress => "Invalid vendor address"
  | VendorAlreadyRegistered => "Vendor already registered"
  | NameCannotBeEmpty => "Name cannot be empty"
  | VendorNotVerified => "Vendor not verified"
  | InvalidNewOwner => "Invalid new owner address"
  | SBOMAlreadyRegistered => "SBOM already registered"
  | InvalidSignatureLength => "Invalid signature length"
  | InvalidSignatureVersion => "Invalid signature version"
  | SignerMismatch => "Invalid signature - signer does not match sender"
  | VendorNotVerifiedForSBOM => "Vendor not verified - please register as vendor first"
  | OriginalSBOMNotFound => "Original SBOM not found"
  | OnlyOriginalVendor => "Only original vendor can update"
  | NewHashAlreadyRegistered => "New hash already registered"
  | PanicOverflow => "panic 0x11"
  end.

(** The error kinds of the specification, in terms of the revert reasons. *)
Definition RecordAlreadyExists (r : RevertReason) : Prop :=
  r = SBOMAlreadyRegistered \/ r = NewHashAlreadyRegistered.
Definition RecordNotFound (r : RevertReason) : Prop := r = OriginalSBOMNotFound.
Definition NotOriginalPublisher (r : RevertReason) : Prop := r = OnlyOriginalVendor.
Definition SignatureMismatch (r : RevertReason) : Prop := r = SignerMismatch.
Definition PublisherNotVerified (r : RevertReason) : Prop := r = VendorNotVerifiedForSBOM.

(** ** Results of [pure] and [view] code *)

Inductive Res (A : Type) :=
| Ok (a : A)
| Err (r : RevertReason).
Arguments Ok {A} a.
Arguments Err {A} r.

Definition res_bind {A B} (m : Res A) (f : A -> Res B) : Res B :=
  match m with
  | Ok a => f a
  | Err r => Err r
  end.

Definition res_require (b : bool) (r : RevertReason) : Res unit :=
  if b then Ok tt else Err r.

(** A [view] function reads storage and may revert; it has no way to write. *)
Definition View (A : Type) := Storage -> Res A.

(** ** Bytes *)

(** Big-endian value of a byte string, as [mload] sees 32 of them. *)
Definition be_value (l : bytes) : N :=
  fold_left (fun acc b => acc * 256 + Byte.to_N b) l 0.

Definition byte_of_N (n : N) : byte :=
  match Byte.of_N n with
  | Some b => b
  | None => x00
  end.

(** The [n] low-order bytes of [x], most significant first. *)
Fixpoint be_bytes (n : nat) (x : N) : bytes :=
  match n with
  | O => []
  | S k => be_bytes k (x / 256) ++ [byte_of_N (x mod 256)]
  end.

(** [abi.encodePacked] of a [bytes32]. *)
Definition encode_bytes32 (h : bytes32) : bytes := be_bytes 32 h.

(** The literal ["\x19Ethereum Signed Message:\n32"]. *)
Definition eth_prefix : bytes :=
  x19 :: list_byte_of_string "Ethereum Signed Message:" ++ [x0a] ++ list_byte_of_string "32".

(** Checked [uint8] addition (Solidity 0.8 panics on overflow). *)
Definition add_uint8 (a b : uint8) : Res uint8 :=
  if a + b <? 256 then Ok (a + b) else Err PanicOverflow.

(** ** The transaction monad

    A state-mutating function runs against storage, may emit events, and
    may revert.  A run that reverts keeps the storage as it stood at the
    failing [require], so that "checks come before effects" is a property
    one can state; the rollback itself is applied by [transact] below. *)

Inductive Outcome (A : Type) :=
| Done (a : A) (st : Storage) (log : list Event)
| Reverted (r : RevertReason) (st : Storage).
Arguments Done {A} a st log.
Arguments Reverted {A} r st.

Definition M (A : Type) := Storage -> Outcome A.

Global Instance M_ret : MRet M := fun A a st => Done a st [].
Global Instance M_bind : MBind M := fun A B f m st =>
  match m st with
  | Done a st' log =>
      match f a st' with
      | Done b st'' log' => Done b st'' (log ++ log')
      | Reverted r st'' => Reverted r st''
      end
  | Reverted r st' => Reverted r st'
  end.

Definition require (b : bool) (r : RevertReason) : M unit :=
  fun st => if b then Done tt st [] else Reverted r st.
Definition sload {A} (f : Storage -> A) : M A := fun st => Done (f st) st [].
Definition sstore (f : Storage -> Storage) : M unit := fun st => Done tt (f st) [].
Definition emit (e : Event) : M unit := fun st => Done tt st [e].
Definition call_pure {A} (r : Res A) : M A :=
  fun st => match r with Ok a => Done a st [] | Err e => Reverted e st end.

(** [msg.sender] and [block.timestamp] of the transaction. *)
Record Env := mkEnv {
  msg_sender : address;
  block_timestamp : uint256
}.

(** ** The contract *)

(** The two EVM primitives the contract calls. *)
Class Primitives := {
  keccak256 : bytes -> bytes32;
  ecrecover : bytes32 -> uint8 -> bytes32 -> bytes32 -> address
}.

Section Registry.

Context `{Primitives}.

(** *** Signature recovery *)

(** The three fields the inline assembly loads from the signature. *)
Definition sig_r (_signature : bytes) : bytes32 := be_value (firstn 32 _signature).
Definition sig_s (_signature : bytes) : bytes32 := be_value (firstn 32 (skipn 32 _signature)).
Definition sig_v (_signature : bytes) : uint8 := Byte.to_N (nth 64 _signature x00).

Definition ethSignedHash (_hash : bytes32) : bytes32 :=
  keccak256 (eth_prefix ++ encode_bytes32 _hash).

Definition recoverSigner (_hash : bytes32) (_signature : bytes) : Res address :=
  res_bind (res_require (length _signature =? 65)%nat InvalidSignatureLength) (fun _ =>
  let r := sig_r _signature in
  let s := sig_s _signature in
  let v := sig_v _signature in
  res_bind (if v <? 27 then add_uint8 v 27 else Ok v) (fun v =>
  res_bind (res_require ((v =? 27) || (v =? 28)) InvalidSignatureVersion) (fun _ =>
  Ok (ecrecover (ethSignedHash _hash) v r s)))).

(** The recovery discriminant after normalisation. *)
Definition normalized_v (_signature : bytes) : uint8 :=
  let v := sig_v _signature in if v <? 27 then v + 27 else v.

(** *** Vendor registry *)

Definition onlyRegistryOwner (env : Env) : M unit :=
  owner ← sload registryOwner;
  require (msg_sender env =? owner) OnlyRegistryOwner.

Definition constructor (env : Env) : Storage :=
  mkStorage ∅ ∅ ∅ ∅ (msg_sender env).

Definition registerVendor (env : Env) (_vendor : address)
    (_name _website _contactEmail : string) : M unit :=
  onlyRegistryOwner env;;
  require (negb (_vendor =? 0)) InvalidVendorAddress;;
  info ← sload (fun st => vendors st @ _vendor);
  require (negb (verified info)) VendorAlreadyRegistered;;
  require (0 <? String.length _name)%nat NameCannotBeEmpty;;
  sstore (set_vendors
    <[_vendor := mkVendorInfo _name _website _contactEmail true (block_timestamp env)]>);;
  emit (VendorRegistered _vendor _name (block_timestamp env)).

Definition revokeVendor (env : Env) (_vendor : address) : M unit :=
  onlyRegistryOwner env;;
  info ← sload (fun st => vendors st @ _vendor);
  require (verified info) VendorNotVerified;;
  sstore (set_vendors (fun m =>
    let i := m @ _vendor in
    <[_vendor := mkVendorInfo (name i) (website i) (contactEmail i) false (registeredAt i)]> m));;
  emit (VendorRevoked _vendor (block_timestamp env)).

Definition isVerifiedVendor (_vendor : address) : View bool :=
  fun st => Ok (verified (vendors st @ _vendor)).

Definition getVendorInfo (_vendor : address) : View VendorInfo :=
  fun st => Ok (vendors st @ _vendor).

Definition transferOwnership (env : Env) (_newOwner : address) : M unit :=
  onlyRegistryOwner env;;
  require (negb (_newOwner =? 0)) InvalidNewOwner;;
  sstore (set_registryOwner _newOwner).

(** *** SBOM registration *)

Definition registerSBOM (env : Env) (_hash : bytes32) (_metadata : string)
    (_signature : bytes) : M unit :=
  old ← sload (fun st => sbomRecords st @ _hash);
  require (timestamp old =? 0) SBOMAlreadyRegistered;;
  require (length _signature =? 65)%nat InvalidSignatureLength;;
  signer ← call_pure (recoverSigner _hash _signature);
  require (signer =? msg_sender env) SignerMismatch;;
  info ← sload (fun st => vendors st @ msg_sender env);
  require (verified info) VendorNotVerifiedForSBOM;;
  sstore (set_sbomRecords
    <[_hash := mkSBOMRecord _hash (msg_sender env) (block_timestamp env)
                 _metadata 0 _signature]>);;
  sstore (set_rootHash <[_hash := _hash]>);;
  sstore (set_versionHistory (fun m => <[_hash := m @ _hash ++ [_hash]]> m));;
  emit (SBOMRegistered _hash (msg_sender env) (block_timestamp env) _metadata).

Definition updateSBOM (env : Env) (_oldHash _newHash : bytes32) (_metadata : string)
    (_signature : bytes) : M unit :=
  old ← sload (fun st => sbomRecords st @ _oldHash);
  require (negb (timestamp old =? 0)) OriginalSBOMNotFound;;
  require (vendor old =? msg_sender env) OnlyOriginalVendor;;
  new ← sload (fun st => sbomRecords st @ _newHash);
  require (timestamp new =? 0) NewHashAlreadyRegistered;;
  require (length _signature =? 65)%nat InvalidSignatureLength;;
  signer ← call_pure (recoverSigner _newHash _signature);
  require (signer =? msg_sender env) SignerMismatch;;
  root ← sload (fun st => rootHash st @ _oldHash);
  sstore (set_sbomRecords
    <[_newHash := mkSBOMRecord _newHash (msg_sender env) (block_timestamp env)
                    _metadata _oldHash _signature]>);;
  sstore (set_rootHash <[_newHash := root]>);;
  sstore (set_versionHistory (fun m => <[root := m @ root ++ [_newHash]]> m));;
  emit (SBOMUpdated _oldHash _newHash (msg_sender env) (block_timestamp env)).

(** *** Verification ([view] functions) *)

Definition verifySignature (_hash : bytes32) : View (bool * address) :=
  fun st =>
    let record := sbomRecords st @ _hash in
    if timestamp record =? 0 then Ok (false, 0)
    else
      res_bind (recoverSigner _hash (signature record)) (fun signer =>
      let isValid := signer =? vendor record in
      Ok (isValid, signer)).

Definition verifySBOM (_hash : bytes32) : View (bool * SBOMRecord) :=
  fun st =>
    let record := sbomRecords st @ _hash in
    let exists_ := negb (timestamp record =? 0) in
    Ok (exists_, record).

Definition verifyCompleteSBOM (_hash : bytes32) : View (bool * bool * bool * string) :=
  fun st =>
    let record := sbomRecords st @ _hash in
    let exists_ := negb (timestamp record =? 0) in
    if negb exists_ then Ok (false, false, false, EmptyString)
    else
      res_bind (verifySignature _hash st) (fun '(signatureValid, _) =>
      let vendorVerified := verified (vendors st @ vendor record) in
      let vendorName := name (vendors st @ vendor record) in
      Ok (exists_, signatureValid, vendorVerified, vendorName)).

(** *** Version history ([view] functions) *)

Definition getVersionHistory (_hash : bytes32) : View (list bytes32) :=
  fun st =>
    let root := rootHash st @ _hash in
    Ok (versionHistory st @ root).

Definition getVersionCount (_hash : bytes32) : View uint256 :=
  fun st =>
    let root := rootHash st @ _hash in
    Ok (N.of_nat (length (versionHistory st @ root))).

Definition getRootHash (_hash : bytes32) : View bytes32 :=
  fun st => Ok (rootHash st @ _hash).

(** ** Transactions *)

(** The state-changing entry points of the contract. *)
Inductive Call :=
| RegisterVendor (_vendor : address) (_name _website _contactEmail : string)
| RevokeVendor (_vendor : address)
| TransferOwnership (_newOwner : address)
| RegisterSBOM (_hash : bytes32) (_metadata : string) (_signature : bytes)
| UpdateSBOM (_oldHash _newHash : bytes32) (_metadata : string) (_signature : bytes).

Definition dispatch (env : Env) (c : Call) : M unit :=
  match c with
  | RegisterVendor v n w e => registerVendor env v n w e
  | RevokeVendor v => revokeVendor env v
  | TransferOwnership o => transferOwnership env o
  | RegisterSBOM h md sg => registerSBOM env h md sg
  | UpdateSBOM o n md sg => updateSBOM env o n md sg
  end.

(** A transaction either commits the storage its call produced or, on
    revert, leaves the storage it started from. *)
Definition transact (env : Env) (c : Call) (st : Storage) : Storage :=
  match dispatch env c st with
  | Done _ st' _ => st'
  | Reverted _ _ => st
  end.

(** A record exists when its timestamp is set: the test every function of
    the contract uses. *)
Definition registered (st : Storage) (h : bytes32) : Prop :=
  timestamp (sbomRecords st @ h) <> 0.

(** Storage reachable from deployment.  [block.timestamp] is the Unix time
    of the enclosing block, which is positive on a running chain. *)
Inductive reachable : Storage -> Prop :=
| reach_deploy env : reachable (constructor env)
| reach_call env c st :
    reachable st -> 0 < block_timestamp env -> reachable (transact env c st).

(** ** What a committed call writes *)

(** Storage after a successful [registerSBOM]. *)
Definition register_commit (env : Env) (_hash : bytes32) (_metadata : string)
    (_signature : bytes) (st : Storage) : Storage :=
  mkStorage
    (<[_hash := mkSBOMRecord _hash (msg_sender env) (block_timestamp env)
                  _metadata 0 _signature]> (sbomRecords st))
    (<[_hash := versionHistory st @ _hash ++ [_hash]]> (versionHistory st))
    (<[_hash := _hash]> (rootHash st))
    (vendors st)
    (registryOwner st).

(** Storage after a successful [updateSBOM]. *)
Definition update_commit (env : Env) (_oldHash _newHash : bytes32) (_metadata : string)
    (_signature : bytes) (st : Storage) : Storage :=
  let root := rootHash st @ _oldHash in
  mkStorage
    (<[_newHash := mkSBOMRecord _newHash (msg_sender env) (block_timestamp env)
                     _metadata _oldHash _signature]> (sbomRecords st))
    (<[root := versionHistory st @ root ++ [_newHash]]> (versionHistory st))
    (<[_newHash := root]> (rootHash st))
    (vendors st)
    (registryOwner st).

(** The conditions under which the two SBOM calls commit. *)
Definition register_ok (env : Env) (_hash : bytes32) (_signature : bytes)
    (st : Storage) : Prop :=
  ~ registered st _hash /\
  length _signature = 65%nat /\
  recoverSigner _hash _signature = Ok (msg_sender env) /\
  verified (vendors st @ msg_sender env) = true.

Definition update_ok (env : Env) (_oldHash _newHash : bytes32) (_signature : bytes)
    (st : Storage) : Prop :=
  registered st _oldHash /\
  vendor (sbomRecords st @ _oldHash) = msg_sender env /\
  ~ registered st _newHash /\
  length _signature = 65%nat /\
  recoverSigner _newHash _signature = Ok (msg_sender env).

(** What holds of every reachable storage. *)
Record Inv (st : Storage) : Prop := mkInv {
  inv_sig : forall h, registered st h ->
    hash (sbomRecords st @ h) = h /\
    length (signature (sbomRecords st @ h)) = 65%nat /\
    recoverSigner h (signature (sbomRecords st @ h)) = Ok (vendor (sbomRecords st @ h));
  inv_fresh : forall h, ~ registered st h ->
    versionHistory st @ h = [] /\ rootHash st @ h = 0 /\ sbomRecords st @ h = zero;
  inv_root : forall h, registered st h ->
    registered st (rootHash st @ h) /\
    rootHash st @ (rootHash st @ h) = rootHash st @ h;
  inv_link : forall h, registered st h ->
    (previousHash (sbomRecords st @ h) = 0 /\ rootHash st @ h = h) \/
    (registered st (previousHash (sbomRecords st @ h)) /\
     rootHash st @ h = rootHash st @ (previousHash (sbomRecords st @ h)) /\
     rootHash st @ h <> h)
}.

(** A trace of transactions, each in a block with a positive timestamp. *)
Inductive steps : Storage -> Storage -> Prop :=
| steps_refl st : steps st st
| steps_call env c st st' :
    steps st st' -> 0 < block_timestamp env -> steps st (transact env c st').

(** The hash a successful call creates a record for, if any. *)
Definition targets (c : Call) (h : bytes32) : Prop :=
  match c with
  | RegisterSBOM _hash _ _ => _hash = h
  | UpdateSBOM _ _newHash _ _ => _newHash = h
  | _ => False
  end.

(** Uniqueness as the specification words it: once [h] has a record,
    every registration of [h] and every update whose new hash is [h] is
    rejected as "already exists", and the record of [h] stays as it is. *)
Definition uniqueness_as_stated : Prop :=
  forall st h, reachable st -> registered st h ->
    (forall env md sg, exists r,
       registerSBOM env h md sg st = Reverted r st /\ RecordAlreadyExists r) /\
    (forall env old md sg, exists r,
       updateSBOM env old h md sg st = Reverted r st /\ RecordAlreadyExists r) /\
    (forall st', steps st st' -> sbomRecords st' @ h = sbomRecords st @ h).

End Registry.


(** ** A model of the two primitives, for running the contract on examples

    The digest of a packed message is the payload after the 28-byte prefix,
    and a signature [(r, s, v)] over digest [d] by signer [a] is
    [(a, d, 27)]: recovery returns [r] when [s] is the digest and the null
    address otherwise. *)

Definition toy_keccak256 (m : bytes) : bytes32 := be_value (skipn 28 m).
Definition toy_ecrecover (d : bytes32) (v : uint8) (r s : bytes32) : address :=
  if s =? d then r else 0.
Definition toy_sign (signer : address) (h : bytes32) : bytes :=
  be_bytes 32 signer ++ be_bytes 32 h ++ [x1b].

Definition toy : Primitives := Build_Primitives toy_keccak256 toy_ecrecover.

Abbreviation run_call := (@transact toy).

(** Accounts and hashes of the running example. *)
Definition admin_env : Env := mkEnv 100 1000.
Definition acme : address := 7.
Definition acme_env : Env := mkEnv acme 1001.
Definition mallory : address := 9.
Definition mallory_env : Env := mkEnv mallory 1002.

Definition st0 : Storage := constructor admin_env.
Definition st1 : Storage :=
  run_call admin_env (RegisterVendor acme "Acme" "https://acme.com" "security@acme.com") st0.
Definition st2 : Storage :=
  run_call acme_env (RegisterSBOM 11 "v1.0" (toy_sign acme 11)) st1.
Definition st3 : Storage :=
  run_call acme_env (UpdateSBOM 11 12 "v2.0" (toy_sign acme 12)) st2.
Definition st4 : Storage :=
  run_call admin_env (RevokeVendor acme) st3.

(** A second update from the first version, after it already has a successor. *)
Definition st3_fork : Storage :=
  run_call acme_env (UpdateSBOM 11 13 "v2.0-hotfix" (toy_sign acme 13)) st3.

(** The all-zero hash registered by a verified vendor. *)
Definition st_zero : Storage :=
  run_call acme_env (RegisterSBOM 0 "v0" (toy_sign acme 0)) st1.

(** An update from the all-zero hash to version 5. *)
Definition st_zero_next : Storage :=
  run_call acme_env (UpdateSBOM 0 5 "v1" (toy_sign acme 5)) st_zero.

(** ** Further invariants of reachable storage *)

(** An address is known to the vendor table once it has been registered,
    whether or not it is verified now: [registerVendor] demands a name. *)
Definition known (st : Storage) (a : address) : Prop :=
  name (vendors st @ a) <> EmptyString.

Record VendorInv (st : Storage) : Prop := mkVendorInv {
  vi_verified : forall a, verified (vendors st @ a) = true -> known st a;
  vi_known : forall a, known st a -> a <> 0 /\ registeredAt (vendors st @ a) <> 0;
  vi_unknown : forall a, ~ known st a -> vendors st @ a = zero;
  vi_record : forall h, registered st h -> known st (vendor (sbomRecords st @ h))
}.

(** The version index: each root's list holds exactly the hashes of its
    chain, without repetition, the root first, and every later version
    after the version it was updated from. *)
Record ChainInv (st : Storage) : Prop := mkChainInv {
  ci_member : forall h, registered st h ->
    h ∈ versionHistory st @ (rootHash st @ h);
  ci_sound : forall r x, x ∈ versionHistory st @ r ->
    registered st x /\ rootHash st @ x = r;
  ci_nodup : forall r, NoDup (versionHistory st @ r);
  ci_head : forall h, registered st h ->
    head (versionHistory st @ (rootHash st @ h)) = Some (rootHash st @ h);
  ci_owner : forall h, registered st h ->
    vendor (sbomRecords st @ h) = vendor (sbomRecords st @ (rootHash st @ h));
  ci_prev : forall h, registered st h -> rootHash st @ h <> h ->
    exists i j, (i < j)%nat /\
      (versionHistory st @ (rootHash st @ h)) !! i =
        Some (previousHash (sbomRecords st @ h)) /\
      (versionHistory st @ (rootHash st @ h)) !! j = Some h
}.

(** Storage after the three committed calls of the vendor registry. *)
Definition registerVendor_commit (env : Env) (_vendor : address)
    (_name _website _contactEmail : string) (st : Storage) : Storage :=
  set_vendors
    <[_vendor := mkVendorInfo _name _website _contactEmail true (block_timestamp env)]> st.

Definition revokeVendor_commit (_vendor : address) (st : Storage) : Storage :=
  set_vendors
    <[_vendor := mkVendorInfo (name (vendors st @ _vendor)) (website (vendors st @ _vendor))
                   (contactEmail (vendors st @ _vendor)) false
                   (registeredAt (vendors st @ _vendor))]> st.

(** The conditions under which they commit. *)
Definition registerVendor_ok (env : Env) (_vendor : address) (_name : string)
    (st : Storage) : Prop :=
  msg_sender env = registryOwner st /\ _vendor <> 0 /\
  verified (vendors st @ _vendor) = false /\ _name <> EmptyString.

Definition revokeVendor_ok (env : Env) (_vendor : address) (st : Storage) : Prop :=
  msg_sender env = registryOwner st /\ verified (vendors st @ _vendor) = true.

Definition transferOwnership_ok (env : Env) (_newOwner : address) (st : Storage) : Prop :=
  msg_sender env = registryOwner st /\ _newOwner <> 0.

(** Further accounts and storages of the running example. *)
Definition admin2 : address := 200.
Definition admin2_env : Env := mkEnv admin2 1003.
Definition admin_late_env : Env := mkEnv 100 1004.

(** The vendor registered again after its revocation, under a new name. *)
Definition st4_again : Storage :=
  run_call admin_late_env (RegisterVendor acme "Acme Ltd" "https://acme.example" "sec@acme.example")
    st4.

(** Ownership handed from account 100 to account 200. *)
Definition st4_handover : Storage :=
  run_call admin_env (TransferOwnership admin2) st4.

(** ** Traces and the event log *)

(** The events a call emits when it commits. *)
Definition emitted (env : Env) (c : Call) : list Event :=
  match c with
  | RegisterVendor v n _ _ => [VendorRegistered v n (block_timestamp env)]
  | RevokeVendor v => [VendorRevoked v (block_timestamp env)]
  | TransferOwnership _ => []
  | RegisterSBOM h md _ => [SBOMRegistered h (msg_sender env) (block_timestamp env) md]
  | UpdateSBOM old new _ _ => [SBOMUpdated old new (msg_sender env) (block_timestamp env)]
  end.

(** A sequence of transactions and the log it leaves: a reverted
    transaction contributes neither a change nor an event. *)
Fixpoint run_trace `{Primitives} (txs : list (Env * Call)) (st : Storage)
    : Storage * list Event :=
  match txs with
  | [] => (st, [])
  | (env, c) :: rest =>
      match dispatch env c st with
      | Done _ st' log =>
          let '(st'', log') := run_trace rest st' in (st'', log ++ log')
      | Reverted _ _ => run_trace rest st
      end
  end.

(** What a reader of the log alone can keep: root pointers, histories and
    verified flags. *)
Record LogView := mkLogView {
  lv_rootHash : gmap N N;
  lv_versionHistory : gmap N (list N);
  lv_verified : gmap N bool
}.

Definition observe (lv : LogView) (e : Event) : LogView :=
  match e with
  | SBOMRegistered h _ _ _ =>
      mkLogView (<[h := h]> (lv_rootHash lv))
        (<[h := lv_versionHistory lv @ h ++ [h]]> (lv_versionHistory lv))
        (lv_verified lv)
  | SBOMUpdated old new _ _ =>
      let root := lv_rootHash lv @ old in
      mkLogView (<[new := root]> (lv_rootHash lv))
        (<[root := lv_versionHistory lv @ root ++ [new]]> (lv_versionHistory lv))
        (lv_verified lv)
  | VendorRegistered v _ _ =>
      mkLogView (lv_rootHash lv) (lv_versionHistory lv) (<[v := true]> (lv_verified lv))
  | VendorRevoked v _ =>
      mkLogView (lv_rootHash lv) (lv_versionHistory lv) (<[v := false]> (lv_verified lv))
  end.

Definition replay (log : list Event) : LogView :=
  fold_left observe log (mkLogView ∅ ∅ ∅).

(** The log view agrees with a storage. *)
Definition agrees (lv : LogView) (st : Storage) : Prop :=
  lv_rootHash lv = rootHash st /\
  lv_versionHistory lv = versionHistory st /\
  forall a, lv_verified lv @ a = verified (vendors st @ a).

From Stdlib Require Import DecimalString.

(** * The command-line client

    The JavaScript of [cli/]: the display helpers, the hashing and the
    metadata of SBOM files, signing, and the [verify], [history],
    [register] and [update] commands.  What the commands take from
    libraries and the runtime ([ethers], [JSON], [Date], the file system)
    is a parameter or is written out from its documented behaviour.

    A JavaScript string is modelled by a string of one-byte characters.
    The strings the client measures, cuts or compares (hashes, signatures,
    error messages, paths) are taken to be ASCII, where the two notions of
    length agree; the marks of the display messages are not ASCII and are
    only ever concatenated.

    A command runs against a world of files, the registry and the lines
    printed so far.  The registry of the world is the contract at the
    configured address, and this client is the only one that sends to it
    while a command runs. *)

Module Cli.

(** ** JavaScript strings *)

Definition startsWith (s p : string) : bool := String.prefix p s.

(** An index argument of [slice], clamped as [String.prototype.slice] does. *)
Definition clamp (len i : Z) : Z :=
  if (i <? 0)%Z then Z.max (len + i) 0 else Z.min i len.

(** [s.slice(start, stop)]; [None] is an omitted [stop]. *)
Definition slice (s : string) (start : Z) (stop : option Z) : string :=
  let len := Z.of_nat (String.length s) in
  let from := clamp len start in
  let to := match stop with Some e => clamp len e | None => len end in
  String.substring (Z.to_nat from) (Z.to_nat (to - from)) s.

(** [s.includes(needle)]. *)
Fixpoint includes (s needle : string) : bool :=
  String.prefix needle s ||
  match s with
  | EmptyString => false
  | String _ t => includes t needle
  end.

(** A non-negative integer in a template literal. *)
Definition decimal (n : nat) : string := NilEmpty.string_of_uint (Nat.to_uint n).

(** ** [ethers]: hex strings *)

Definition hex_digit (n : N) : ascii :=
  match n with
  | 0 => "0" | 1 => "1" | 2 => "2" | 3 => "3" | 4 => "4" | 5 => "5" | 6 => "6"
  | 7 => "7" | 8 => "8" | 9 => "9" | 10 => "a" | 11 => "b" | 12 => "c"
  | 13 => "d" | 14 => "e" | _ => "f"
  end%char.

Definition hex_of_byte (b : byte) : string :=
  String (hex_digit (Byte.to_N b / 16)) (String (hex_digit (Byte.to_N b mod 16)) EmptyString).

Fixpoint hex_of_bytes (l : bytes) : string :=
  match l with
  | [] => EmptyString
  | b :: t => hex_of_byte b +:+ hex_of_bytes t
  end.

(** [ethers.hexlify]: lower-case hex after ["0x"]. *)
Definition hexlify (l : bytes) : string := "0x" +:+ hex_of_bytes l.

Definition digit_value (c : ascii) : option N :=
  let n := N_of_ascii c in
  if (48 <=? n) && (n <=? 57) then Some (n - 48)
  else if (97 <=? n) && (n <=? 102) then Some (n - 87)
  else if (65 <=? n) && (n <=? 70) then Some (n - 55)
  else None.

Fixpoint bytes_of_hex (s : string) : option bytes :=
  match s with
  | EmptyString => Some []
  | String a (String b t) =>
      match digit_value a, digit_value b, bytes_of_hex t with
      | Some hi, Some lo, Some rest => Some (byte_of_N (16 * hi + lo) :: rest)
      | _, _, _ => None
      end
  | String _ EmptyString => None
  end.

(** [ethers.getBytes] of a string: [None] where it throws. *)
Definition getBytes (s : string) : option bytes :=
  if startsWith s "0x" then bytes_of_hex (String.substring 2 (String.length s - 2) s)
  else None.

(** A [bytes32] as [ethers] returns it, and as it accepts one for a call. *)
Definition hexlify32 (h : bytes32) : string := hexlify (encode_bytes32 h).

Definition toBytes32 (s : string) : option bytes32 :=
  match getBytes s with
  | Some l => if (length l =? 32)%nat then Some (be_value l) else None
  | None => None
  end.

(** ** Parsed JSON *)

#[warnings="-register-all"]
Inductive json (number : Type) :=
| JNull
| JBool (b : bool)
| JNumber (x : number)
| JString (s : string)
| JArray (l : list (json number))
| JObject (members : list (string * json number)).
Arguments JNull {number}.
Arguments JBool {number} b.
Arguments JNumber {number} x.
Arguments JString {number} s.
Arguments JArray {number} l.
Arguments JObject {number} members.

(** What the chain reports of a transaction it has mined: the time of its
    block, its hash, the number of its block and the gas it used. *)
Record Mined := mkMined {
  mined_timestamp : uint256;
  mined_hash : string;
  mined_blockNumber : N;
  mined_gasUsed : N
}.

(** What the client takes from the runtime and from [ethers]: the number
    type and the parser and printer of JSON, the encodings and the error
    messages of [ethers] and [fs], the place of the configuration file, the
    clock reading of the run, and the block a transaction of a sender is
    mined in. *)
Class Externals := {
  number : Type;
  number_is_zero : number -> bool;
  JSON_parse : string -> option (json number);
  JSON_parse_error : string -> string;
  toUtf8Bytes : string -> bytes;
  toLocaleString : uint256 -> string;
  getAddress : address -> string;
  call_exception : RevertReason -> string;
  invalid_argument : string -> string;
  no_such_file : string -> string;
  configPath : string;
  Date_now : number;
  JSON_stringify : json number -> string;
  mine : address -> Call -> Storage -> Mined
}.

(** ** Errors, console and the command monad *)

Inductive JsError :=
| Error (message : string)
| TypeError (message : string)
| SyntaxError (message : string).

Definition message (e : JsError) : string :=
  match e with
  | Error m | TypeError m | SyntaxError m => m
  end.

Inductive Style := green | red | yellow | blue | gray | white | bold | bold_cyan.

(** A piece of an argument of [console.log]: plain text, or text wrapped by
    a [chalk] style. *)
Inductive Piece :=
| Text (s : string)
| Chalk (c : Style) (s : string).

(** One call of [console.log]: its arguments, each a run of pieces. *)
Definition LogCall := list (list Piece).

Definition style_eqb (c c' : Style) : bool :=
  match c, c' with
  | green, green | red, red | yellow, yellow | blue, blue | gray, gray
  | white, white | bold, bold | bold_cyan, bold_cyan => true
  | _, _ => false
  end.

(** A call that prints one piece in the colour [c]: the form of the
    messages of [success], [error], [warning] and [info]. *)
Definition has_shade (c : Style) (line : LogCall) : bool :=
  match line with
  | [[Chalk c' _]] => style_eqb c c'
  | _ => false
  end.

(** The files the client sees, the registry it talks to, and what it has
    printed. *)
Record World := mkWorld {
  files : gmap string string;
  chain : Storage;
  console : list LogCall
}.

Inductive Result (A : Type) :=
| Returned (a : A)
| Thrown (e : JsError).
Arguments Returned {A} a.
Arguments Thrown {A} e.

Definition Cmd (A : Type) := World -> Result A * World.

Global Instance Cmd_ret : MRet Cmd := fun A a w => (Returned a, w).
Global Instance Cmd_bind : MBind Cmd := fun A B f m w =>
  match m w with
  | (Returned a, w') => f a w'
  | (Thrown e, w') => (Thrown e, w')
  end.

(** The world after some more lines were printed. *)
Definition printed (w : World) (lines : list LogCall) : World :=
  mkWorld (files w) (chain w) (console w ++ lines).

Definition throw {A} (e : JsError) : Cmd A := fun w => (Thrown e, w).

Definition try_catch {A} (body : Cmd A) (handler : JsError -> Cmd A) : Cmd A :=
  fun w =>
    match body w with
    | (Returned a, w') => (Returned a, w')
    | (Thrown e, w') => handler e w'
    end.

(** A run that returns [a] after printing [lines], and one that throws
    [e] after printing [lines]; neither touches the files or the chain. *)
Definition runs {A} (c : Cmd A) (w : World) (a : A) (lines : list LogCall) : Prop :=
  c w = (Returned a, printed w lines).

Definition throws {A} (c : Cmd A) (w : World) (e : JsError) (lines : list LogCall) : Prop :=
  c w = (Thrown e, printed w lines).

(** A run that returns [a] after printing [lines] and leaves the registry
    as [st']. *)
Definition commits {A} (c : Cmd A) (w : World) (a : A) (st' : Storage)
    (lines : list LogCall) : Prop :=
  c w = (Returned a, mkWorld (files w) st' (console w ++ lines)).

Definition console_log (args : LogCall) : Cmd unit :=
  fun w => (Returned tt, mkWorld (files w) (chain w) (console w ++ [args])).

Definition existsSync (path : string) : Cmd bool :=
  fun w => (Returned (bool_decide (is_Some (files w !! path))), w).

Section Client.

Context `{Primitives} `{Externals}.

Definition readFileSync (path : string) : Cmd string :=
  fun w =>
    match files w !! path with
    | Some content => (Returned content, w)
    | None => (Thrown (Error (no_such_file path)), w)
    end.

(** A [view] call through [ethers]: the value, or the call exception. *)
Definition call_view {A} (v : View A) : Cmd A :=
  fun w =>
    match v (chain w) with
    | Ok a => (Returned a, w)
    | Err r => (Thrown (Error (call_exception r)), w)
    end.

(** A [bytes32] argument of a contract call. *)
Definition as_bytes32 (s : string) : Cmd bytes32 :=
  match toBytes32 s with
  | Some h => mret h
  | None => throw (TypeError (invalid_argument s))
  end.

(** *** JSON values as JavaScript sees them *)

Definition truthy (v : option (json number)) : bool :=
  match v with
  | None => false
  | Some JNull => false
  | Some (JBool b) => b
  | Some (JNumber x) => negb (number_is_zero x)
  | Some (JString s) => negb (String.eqb s EmptyString)
  | Some (JArray _) => true
  | Some (JObject _) => true
  end.

Fixpoint lookup_member (k : string) (members : list (string * json number))
    : option (json number) :=
  match members with
  | [] => None
  | (k', v) :: rest => if String.eqb k k' then Some v else lookup_member k rest
  end.

(** [v.k] for one of the property names the client reads ([undefined] is
    [None]); reading a property of [null] throws. *)
Definition get_property (v : json number) (k : string) : Cmd (option (json number)) :=
  match v with
  | JNull => throw (TypeError ("Cannot read properties of null (reading '" +:+ k +:+ "')"))
  | JObject members => mret (lookup_member k members)
  | _ => mret None
  end.

(** *** [utils/display.js] *)

(** The marks the four message helpers put in front. *)
Definition success_mark : string := "✅ ".
Definition error_mark : string := "❌ ".
Definition warning_mark : string := "⚠️  ".
Definition info_mark : string := "ℹ️  ".

Definition success (msg : string) : Cmd unit :=
  console_log [[Chalk green (success_mark +:+ msg)]].

Definition error (msg : string) : Cmd unit :=
  console_log [[Chalk red (error_mark +:+ msg)]].

Definition warning (msg : string) : Cmd unit :=
  console_log [[Chalk yellow (warning_mark +:+ msg)]].

Definition info (msg : string) : Cmd unit :=
  console_log [[Chalk blue (info_mark +:+ msg)]].

Definition rule : string := "━━━━━━━━━━━━━━━━━━━━━━━━━━━━━━━━━━".

Definition newline : string := String (ascii_of_nat 10) EmptyString.

(** The double-quote character of the two verdict templates. *)
Definition quote : string := String (ascii_of_nat 34) EmptyString.

Definition header (title : string) : Cmd unit :=
  console_log [[Text newline; Chalk bold_cyan rule]];;
  console_log [[Chalk bold_cyan title]];;
  console_log [[Chalk bold_cyan rule; Text newline]].

Definition keyValue (key value : string) : Cmd unit :=
  console_log [[Chalk gray (key +:+ ":")]; [Chalk white value]].

(** The object [verifyCommand] displays and returns. *)
Record Verification := mkVerification {
  v_exists : bool;
  v_signatureValid : bool;
  v_vendorVerified : bool;
  v_vendorName : string
}.

Definition displayVerification (results : Verification) : Cmd unit :=
  header "VERIFICATION RESULTS";;
  if negb (v_exists results) then
    error "SBOM NOT FOUND on blockchain";;
    info "This SBOM has never been registered"
  else
    keyValue "SBOM Exists" "✅ Yes";;
    keyValue "Signature Valid" (if v_signatureValid results then "✅ Yes" else "❌ No");;
    keyValue "Vendor Verified" (if v_vendorVerified results then "✅ Yes" else "❌ No");;
    keyValue "Vendor Name" (v_vendorName results);;
    console_log [];;
    if v_signatureValid results && v_vendorVerified results then
      success ("TRUSTED: This SBOM is verified and from trusted vendor " +:+ quote
               +:+ v_vendorName results +:+ quote)
    else if v_signatureValid results && negb (v_vendorVerified results) then
      warning ("CAUTION: Signature is valid but vendor " +:+ quote
               +:+ v_vendorName results +:+ quote +:+ " is no longer verified")
    else
      error "DO NOT TRUST: Invalid signature or unverified vendor".

(** What the commands keep of a record. *)
Record RecordView := mkRecordView {
  r_vendor : string;
  r_timestamp : uint256;
  r_metadata : string;
  r_previousHash : string
}.

Definition recordView (rec : SBOMRecord) : RecordView :=
  mkRecordView (getAddress (vendor rec)) (timestamp rec) (metadata rec)
    (hexlify32 (previousHash rec)).

Fixpoint displayHistory_from (index : nat) (history : list string)
    (records : gmap string RecordView) : Cmd unit :=
  match history with
  | [] => mret tt
  | h :: rest =>
      console_log [[Chalk bold ("Version " +:+ decimal (index + 1) +:+ ":")]];;
      keyValue "  Hash" h;;
      match records !! h with
      | Some record =>
          keyValue "  Metadata" (r_metadata record);;
          keyValue "  Timestamp" (toLocaleString (r_timestamp record));;
          keyValue "  Vendor" (r_vendor record)
      | None => mret tt
      end;;
      console_log [];;
      displayHistory_from (S index) rest records
  end.

Definition displayHistory (history : list string) (records : gmap string RecordView)
    : Cmd unit :=
  header "VERSION HISTORY";;
  console_log [[Chalk gray ("Found " +:+ decimal (length history) +:+ " version(s):"
                            +:+ newline)]];;
  displayHistory_from 0 history records.

(** [truncateHash(hash, length = 10)], on whole numbers. *)
Definition truncateHash (h : string) (len : Z) : string :=
  if (Z.of_nat (String.length h) <=? len)%Z then h
  else slice h 0 (Some len) +:+ "..." +:+ slice h (-6) None.

Definition truncateHash_default (h : string) : string := truncateHash h 10.

(** The four verdict lines of [displayVerification]. *)
Definition line_not_found : LogCall :=
  [[Chalk red (error_mark +:+ "SBOM NOT FOUND on blockchain")]].
Definition line_trusted (vendorName : string) : LogCall :=
  [[Chalk green (success_mark +:+ "TRUSTED: This SBOM is verified and from trusted vendor "
                 +:+ quote +:+ vendorName +:+ quote)]].
Definition line_caution (vendorName : string) : LogCall :=
  [[Chalk yellow (warning_mark +:+ "CAUTION: Signature is valid but vendor "
                  +:+ quote +:+ vendorName +:+ quote +:+ " is no longer verified")]].
Definition line_do_not_trust : LogCall :=
  [[Chalk red (error_mark +:+ "DO NOT TRUST: Invalid signature or unverified vendor")]].

(** *** [utils/contract.js] *)

Definition loadConfig : Cmd (json number) :=
  present ← existsSync configPath;
  if negb present then
    throw (Error ("Configuration file not found: " +:+ configPath +:+ newline
                  +:+ "Please run 'sbom-cli config' first."))
  else
    content ← readFileSync configPath;
    match JSON_parse content with
    | None => throw (SyntaxError (JSON_parse_error content))
    | Some config =>
        address ← get_property config "contractAddress";
        if negb (truthy address) then
          throw (Error "Contract address not configured. Please run deployment first.")
        else
          url ← get_property config "rpcUrl";
          if negb (truthy url) then throw (Error "RPC URL not configured.")
          else mret config
    end.

(** What [loadConfig] comes to, by the configuration file ([None]: there
    is none). *)
Definition loadConfig_outcome (file : option string) : Result (json number) :=
  match file with
  | None =>
      Thrown (Error ("Configuration file not found: " +:+ configPath +:+ newline
                     +:+ "Please run 'sbom-cli config' first."))
  | Some content =>
      match JSON_parse content with
      | None => Thrown (SyntaxError (JSON_parse_error content))
      | Some JNull =>
          Thrown (TypeError ("Cannot read properties of null (reading '"
                             +:+ "contractAddress" +:+ "')"))
      | Some (JObject members) =>
          if negb (truthy (lookup_member "contractAddress" members)) then
            Thrown (Error "Contract address not configured. Please run deployment first.")
          else if negb (truthy (lookup_member "rpcUrl" members)) then
            Thrown (Error "RPC URL not configured.")
          else Returned (JObject members)
      | Some _ =>
          Thrown (Error "Contract address not configured. Please run deployment first.")
      end
  end.

(** The read-only contract handle: made from the loaded configuration.
    The registry of the world is the contract at the configured address. *)
Definition getContractReadOnly : Cmd unit :=
  loadConfig;; mret tt.

(** *** [utils/hash.js] *)

Definition hashSBOMSimple (filePath : string) : Cmd string :=
  present ← existsSync filePath;
  if negb present then throw (Error ("File not found: " +:+ filePath))
  else
    fileContent ← readFileSync filePath;
    mret (hexlify32 (keccak256 (toUtf8Bytes fileContent))).

Definition hashSBOM := hashSBOMSimple.

(** *** [commands/verify.js] *)

Definition ZeroHash : string :=
  "0x0000000000000000000000000000000000000000000000000000000000000000".

(** What [verifyCommand] returns. *)
Record VerifyResult := mkVerifyResult {
  vr_results : Verification;
  vr_hash : string
}.

Definition verifyCommand (sbomFilePath : string) : Cmd VerifyResult :=
  try_catch
    (header "VERIFYING SBOM";;
     info ("Reading SBOM file: " +:+ sbomFilePath);;
     h ← hashSBOM sbomFilePath;
     keyValue "SBOM Hash" h;;
     console_log [];;
     info "Querying blockchain...";;
     getContractReadOnly;;
     arg ← as_bytes32 h;
     '(exists_, signatureValid, vendorVerified, vendorName) ←
        call_view (verifyCompleteSBOM arg);
     record ←
       (if exists_ : bool then
          arg' ← as_bytes32 h;
          '(_, recordData) ← call_view (verifySBOM arg');
          mret (Some (recordView recordData))
        else mret None);
     console_log [];;
     displayVerification (mkVerification exists_ signatureValid vendorVerified vendorName);;
     match record with
     | Some record =>
         (if exists_ : bool then
            console_log [];;
            header "SBOM DETAILS";;
            keyValue "Vendor Address" (r_vendor record);;
            keyValue "Registered At" (toLocaleString (r_timestamp record));;
            keyValue "Metadata" (r_metadata record);;
            if negb (String.eqb (r_previousHash record) ZeroHash) then
              keyValue "Previous Version" (r_previousHash record)
            else mret tt
          else mret tt)
     | None => mret tt
     end;;
     console_log [];;
     mret (mkVerifyResult
             (mkVerification exists_ signatureValid vendorVerified vendorName) h))
    (fun err =>
       console_log [];;
       error ("Verification failed: " +:+ message err);;
       throw err).

(** *** [commands/history.js] *)

(** What [historyCommand] returns: [found: false], or the history. *)
Inductive HistoryResult :=
| NotFound
| Found (history : list string) (rootHash : string) (versionCount : nat).

Fixpoint collect_records (history : list string) (records : gmap string RecordView)
    : Cmd (gmap string RecordView) :=
  match history with
  | [] => mret records
  | versionHash :: rest =>
      arg ← as_bytes32 versionHash;
      '(_, record) ← call_view (verifySBOM arg);
      collect_records rest (<[versionHash := recordView record]> records)
  end.

Definition historyCommand (hashOrFile : string) : Cmd HistoryResult :=
  try_catch
    (header "SBOM VERSION HISTORY";;
     h ← (if startsWith hashOrFile "0x" then
            info ("Using hash: " +:+ hashOrFile);;
            mret hashOrFile
          else
            info ("Reading SBOM file: " +:+ hashOrFile);;
            h ← hashSBOM hashOrFile;
            info ("Computed hash: " +:+ h);;
            mret h);
     console_log [];;
     info "Querying blockchain for version history...";;
     getContractReadOnly;;
     arg ← as_bytes32 h;
     '(exists_, _) ← call_view (verifySBOM arg);
     if negb exists_ then
       console_log [];;
       error "SBOM not found on blockchain";;
       info "This SBOM has never been registered";;
       mret NotFound
     else
       arg1 ← as_bytes32 h;
       versions ← call_view (getVersionHistory arg1);
       let history := map hexlify32 versions in
       arg2 ← as_bytes32 h;
       root ← call_view (getRootHash arg2);
       let rootHash := hexlify32 root in
       records ← collect_records history ∅;
       console_log [];;
       displayHistory history records;;
       console_log [];;
       info ("Root Hash (v1): " +:+ rootHash);;
       info ("Current version: " +:+ decimal (length history) +:+ " of "
             +:+ decimal (length history));;
       console_log [];;
       mret (Found history rootHash (length history)))
    (fun err =>
       console_log [];;
       error ("Failed to retrieve history: " +:+ message err);;
       throw err).

(** *** [utils/hash.js]: metadata *)

(** [v || d] for a string [d]. *)
Definition or_default (v : option (json number)) (d : string) : json number :=
  match v with
  | Some x => if truthy v then x else JString d
  | None => JString d
  end.

Definition metadata_object (name version : json number) (format : string)
    : json number :=
  JObject [("name", name); ("version", version); ("timestamp", JNumber Date_now);
           ("format", JString format)].

Definition extractMetadata (filePath : string) : Cmd (json number) :=
  try_catch
    (fileContent ← readFileSync filePath;
     match JSON_parse fileContent with
     | None => throw (SyntaxError (JSON_parse_error fileContent))
     | Some sbom =>
         name ← get_property sbom "name";
         version ← get_property sbom "version";
         spdxVersion ← get_property sbom "spdxVersion";
         format ← (if truthy spdxVersion then mret "SPDX"
                   else
                     bomFormat ← get_property sbom "bomFormat";
                     mret (if truthy bomFormat then "CycloneDX" else "Unknown"));
         mret (metadata_object (or_default name "Unknown") (or_default version "1.0.0")
                 format)
     end)
    (fun _ => mret (metadata_object (JString "Unknown") (JString "1.0.0") "Unknown")).

(** *** [utils/sign.js] *)

(** A wallet: its address and what [signMessage] gives for a message. *)
Record Wallet := mkWallet {
  wallet_address : address;
  signMessage : bytes -> string
}.

(** What [signMessage] of [ethers] gives for a message of 32 bytes: the 65
    bytes [r], [s], [v] of a signature of the message under the
    signed-message prefix, with [v] 27 or 28, printed in hex.  From these
    [ecrecover] gives the wallet's address. *)
Definition personal_signature (wallet : Wallet) (message : bytes) : Prop :=
  exists r s v,
    r < 2 ^ 256 /\ s < 2 ^ 256 /\ (v = 27 \/ v = 28) /\
    signMessage wallet message =
      hexlify (encode_bytes32 r ++ encode_bytes32 s ++ [byte_of_N v]) /\
    ecrecover (keccak256 (eth_prefix ++ message)) v r s = wallet_address wallet.

Definition signHash (h : string) (wallet : Wallet) : Cmd string :=
  if negb (startsWith h "0x") || negb (String.length h =? 66)%nat then
    throw (Error "Invalid hash format")
  else
    match getBytes h with
    | Some message => mret (signMessage wallet message)
    | None => throw (TypeError (invalid_argument h))
    end.

(** *** Transactions *)

(** The contract handle of a wallet: made from the loaded configuration. *)
Definition getContract (wallet : Wallet) : Cmd unit :=
  loadConfig;; mret tt.

(** A [bytes] argument of a contract call. *)
Definition as_bytes (s : string) : Cmd bytes :=
  match getBytes s with
  | Some b => mret b
  | None => throw (TypeError (invalid_argument s))
  end.

Record Receipt := mkReceipt {
  receipt_hash : string;
  receipt_blockNumber : N;
  receipt_gasUsed : N;
  receipt_status : N
}.

(** A submitted transaction: the call, its sender and what the chain
    reports of it. *)
Record Tx := mkTx {
  tx_call : Call;
  tx_from : address;
  tx_mined : Mined
}.

Definition tx_env (tx : Tx) : Env :=
  mkEnv (tx_from tx) (mined_timestamp (tx_mined tx)).

Definition tx_hash (tx : Tx) : string := mined_hash (tx_mined tx).

(** Calling a state-changing function through [ethers]: a call that would
    revert is refused with the call exception, and nothing is sent. *)
Definition submit (wallet : Wallet) (c : Call) : Cmd Tx :=
  fun w =>
    let tx := mkTx c (wallet_address wallet) (mine (wallet_address wallet) c (chain w)) in
    match dispatch (tx_env tx) c (chain w) with
    | Done _ _ _ => (Returned tx, w)
    | Reverted r _ => (Thrown (Error (call_exception r)), w)
    end.

(** [tx.wait()]: the transaction is mined, and its receipt comes back with
    status 1; a transaction that reverts throws. *)
Definition wait (tx : Tx) : Cmd Receipt :=
  fun w =>
    match dispatch (tx_env tx) (tx_call tx) (chain w) with
    | Done _ st' _ =>
        (Returned (mkReceipt (tx_hash tx) (mined_blockNumber (tx_mined tx))
                     (mined_gasUsed (tx_mined tx)) 1),
         mkWorld (files w) st' (console w))
    | Reverted r _ => (Thrown (Error (call_exception r)), w)
    end.

Definition displayReceipt (receipt : Receipt) : Cmd unit :=
  console_log [];;
  keyValue "Transaction Hash" (receipt_hash receipt);;
  keyValue "Block Number" (decimal (N.to_nat (receipt_blockNumber receipt)));;
  keyValue "Gas Used" (decimal (N.to_nat (receipt_gasUsed receipt)));;
  keyValue "Status" (if (receipt_status receipt =? 1)%N then success_mark +:+ "Success"
                     else error_mark +:+ "Failed").

(** *** [commands/register.js] *)

Record RegisterResult := mkRegisterResult {
  rr_hash : string;
  rr_txHash : string;
  rr_blockNumber : N
}.

Definition registerCommand (sbomFilePath : string) (wallet : Wallet)
    : Cmd RegisterResult :=
  try_catch
    (header "REGISTERING SBOM";;
     info ("Reading SBOM file: " +:+ sbomFilePath);;
     h ← hashSBOM sbomFilePath;
     keyValue "SBOM Hash" h;;
     metadata ← extractMetadata sbomFilePath;
     let metadataString := JSON_stringify metadata in
     keyValue "Metadata" metadataString;;
     info "Signing with vendor wallet...";;
     signature ← signHash h wallet;
     keyValue "Signature" (slice signature 0 (Some 20%Z) +:+ "...");;
     keyValue "Vendor Address" (getAddress (wallet_address wallet));;
     console_log [];;
     info "Submitting transaction to blockchain...";;
     getContract wallet;;
     _hash ← as_bytes32 h;
     _signature ← as_bytes signature;
     tx ← submit wallet (RegisterSBOM _hash metadataString _signature);
     info ("Transaction submitted: " +:+ tx_hash tx);;
     info "Waiting for confirmation...";;
     receipt ← wait tx;
     console_log [];;
     success "SBOM SUCCESSFULLY REGISTERED!";;
     displayReceipt receipt;;
     console_log [];;
     info "You can now verify this SBOM using:";;
     console_log [[Text ("   sbom-cli verify " +:+ sbomFilePath)]];;
     console_log [];;
     mret (mkRegisterResult h (receipt_hash receipt) (receipt_blockNumber receipt)))
    (fun err =>
       console_log [];;
       error ("Registration failed: " +:+ message err);;
       (if includes (message err) "Vendor not verified" then
          console_log [];;
          info "Your wallet address is not registered as a verified vendor.";;
          info "Please contact the registry owner to get verified.";;
          info ("Your address: " +:+ getAddress (wallet_address wallet))
        else mret tt);;
       throw err).

(** *** [commands/update.js] *)

Inductive UpdateResult :=
| NotUpdated
| Updated (oldHash newHash txHash : string) (versionCount : nat).

Definition updateCommand (oldFilePath newFilePath : string) (wallet : Wallet)
    : Cmd UpdateResult :=
  try_catch
    (header "UPDATING SBOM VERSION";;
     info ("Reading old SBOM: " +:+ oldFilePath);;
     oldHash ← hashSBOM oldFilePath;
     keyValue "Old Hash" oldHash;;
     info ("Reading new SBOM: " +:+ newFilePath);;
     newHash ← hashSBOM newFilePath;
     keyValue "New Hash" newHash;;
     if String.eqb oldHash newHash then
       warning "Files are identical (same hash). No update needed.";;
       mret NotUpdated
     else
       console_log [];;
       info "Verifying old SBOM exists...";;
       getContractReadOnly;;
       arg ← as_bytes32 oldHash;
       '(exists_, _) ← call_view (verifySBOM arg);
       if negb exists_ then
         error "Old SBOM not found on blockchain!";;
         info "Please register it first using: sbom-cli register";;
         throw (Error "Old SBOM not registered")
       else
         success "Old SBOM found on blockchain";;
         metadata ← extractMetadata newFilePath;
         let metadataString := JSON_stringify metadata in
         keyValue "New Metadata" metadataString;;
         info "Signing new version with vendor wallet...";;
         signature ← signHash newHash wallet;
         keyValue "Signature" (slice signature 0 (Some 20%Z) +:+ "...");;
         console_log [];;
         info "Submitting update transaction to blockchain...";;
         getContract wallet;;
         _oldHash ← as_bytes32 oldHash;
         _newHash ← as_bytes32 newHash;
         _signature ← as_bytes signature;
         tx ← submit wallet (UpdateSBOM _oldHash _newHash metadataString _signature);
         info ("Transaction submitted: " +:+ tx_hash tx);;
         info "Waiting for confirmation...";;
         receipt ← wait tx;
         console_log [];;
         success "SBOM VERSION UPDATED SUCCESSFULLY!";;
         displayReceipt receipt;;
         console_log [];;
         arg' ← as_bytes32 newHash;
         versions ← call_view (getVersionHistory arg');
         let history := map hexlify32 versions in
         info ("This SBOM now has " +:+ decimal (length history)
               +:+ " version(s) in its history");;
         console_log [];;
         info "You can view version history using:";;
         console_log [[Text ("   sbom-cli history " +:+ newHash)]];;
         console_log [];;
         mret (Updated oldHash newHash (receipt_hash receipt) (length history)))
    (fun err =>
       console_log [];;
       error ("Update failed: " +:+ message err);;
       (if includes (message err) "Only original vendor" then
          console_log [];;
          info "Only the original vendor can update this SBOM.";;
          info ("Your address: " +:+ getAddress (wallet_address wallet))
        else mret tt);;
       throw err).

End Client.

End Cli.


(** ** A sample client *)

(** A runtime for the examples: it parses one configuration text, prints
    times in decimal and addresses as 20 bytes of hex. *)
Definition toy_config : Cli.json N :=
  Cli.JObject
    [("contractAddress", Cli.JString "0x5FbDB2315678afecb367f032d93F642f64180aa3");
     ("rpcUrl", Cli.JString "http://127.0.0.1:8545");
     ("network", Cli.JString "localhost")].

Definition toy_config_text : string :=
  "{" +:+ Cli.quote +:+ "contractAddress" +:+ Cli.quote +:+ ": " +:+ Cli.quote
  +:+ "0x5FbDB2315678afecb367f032d93F642f64180aa3" +:+ Cli.quote +:+ ", "
  +:+ Cli.quote +:+ "rpcUrl" +:+ Cli.quote +:+ ": " +:+ Cli.quote
  +:+ "http://127.0.0.1:8545" +:+ Cli.quote +:+ ", "
  +:+ Cli.quote +:+ "network" +:+ Cli.quote +:+ ": " +:+ Cli.quote
  +:+ "localhost" +:+ Cli.quote +:+ "}".

Definition toy_externals : Cli.Externals := {|
  Cli.number := N;
  Cli.number_is_zero := N.eqb 0;
  Cli.JSON_parse := fun s =>
    if String.eqb s toy_config_text then Some toy_config else None;
  Cli.JSON_parse_error := fun _ => "Unexpected token in JSON";
  Cli.toUtf8Bytes := list_byte_of_string;
  Cli.toLocaleString := fun t => Cli.decimal (N.to_nat t);
  Cli.getAddress := fun a => Cli.hexlify (be_bytes 20 a);
  Cli.call_exception := revert_message;
  Cli.invalid_argument := fun s => "invalid BytesLike value: " +:+ s;
  Cli.no_such_file := fun p => "ENOENT: no such file or directory, open '" +:+ p +:+ "'";
  Cli.configPath := "/opt/sbom-cli/config.json";
  Cli.Date_now := 1700000000000;
  Cli.JSON_stringify := fun v =>
    match v with
    | Cli.JObject (("name", Cli.JString n) :: ("version", Cli.JString v) :: _) =>
        n +:+ " " +:+ v
    | _ => "{}"
    end;
  Cli.mine := fun sender c st =>
    Cli.mkMined 2000 "0xfeed" 5 90000
|}.

(** A file the toy hash maps to 11, the first version of the scenario. *)
Definition toy_sbom : string :=
  "CycloneDX 1.5 acme-app 1.0.0" +:+ String (ascii_of_nat 11) EmptyString.

(** The configured client with that file, talking to the registry after
    the vendor's revocation. *)
Definition toy_world : Cli.World :=
  Cli.mkWorld
    (<["/opt/sbom-cli/config.json" := toy_config_text]>
       (<["app.cdx.json" := toy_sbom]> ∅))
    st4 [].

(** The same client before it was configured. *)
Definition toy_world_unconfigured : Cli.World :=
  Cli.mkWorld (<["app.cdx.json" := toy_sbom]> ∅) st4 [].

(** The vendor's wallet, signing as the toy primitives recover. *)
Definition toy_wallet : Cli.Wallet :=
  Cli.mkWallet acme (fun message => Cli.hexlify (toy_sign acme (be_value message))).

(** A wallet of an account the registry does not know. *)
Definition mallory_wallet : Cli.Wallet :=
  Cli.mkWallet mallory (fun message => Cli.hexlify (toy_sign mallory (be_value message))).

(** A later version of the file, which the toy hash maps to 13. *)
Definition toy_sbom_next : string :=
  "CycloneDX 1.5 acme-app 1.1.0" +:+ String (ascii_of_nat 13) EmptyString.

(** The configured client with both files, before anything was registered,
    and after the scenario. *)
Definition toy_files : gmap string string :=
  <["/opt/sbom-cli/config.json" := toy_config_text]>
    (<["app.cdx.json" := toy_sbom]> (<["app-next.cdx.json" := toy_sbom_next]> ∅)).

Definition toy_world_fresh : Cli.World := Cli.mkWorld toy_files st1 [].
Definition toy_world_late : Cli.World := Cli.mkWorld toy_files st4 [].
(** * Basic facts *)

Lemma mapping_get_insert_eq {V} `{Zero V} (m : gmap N V) (k : N) (v : V) :
  <[k := v]> m @ k = v.
Proof. unfold mapping_get. by rewrite lookup_insert_eq. Qed.

Lemma mapping_get_insert_ne {V} `{Zero V} (m : gmap N V) (k k' : N) (v : V) :
  k <> k' -> <[k := v]> m @ k' = m @ k'.
Proof. intros Hne. unfold mapping_get. by rewrite lookup_insert_ne. Qed.

Lemma mapping_get_empty {V} `{Zero V} (k : N) : (∅ : gmap N V) @ k = zero.
Proof. unfold mapping_get. by rewrite lookup_empty. Qed.

(** Read a slot of the storage a commit produced. *)
Ltac slots :=
  simpl;
  repeat (first
    [ rewrite mapping_get_insert_eq
    | rewrite mapping_get_insert_ne by congruence
    | match goal with
      | Hne : ?a <> ?b |- _ =>
          rewrite (mapping_get_insert_ne _ a b) by exact Hne
      | Hne : ?a <> ?b |- _ =>
          rewrite (mapping_get_insert_ne _ b a) by (apply not_eq_sym; exact Hne)
      end ]; simpl).

Lemma eth_prefix_length : length eth_prefix = 28%nat.
Proof. reflexivity. Qed.

Lemma be_bytes_length (n : nat) (x : N) : length (be_bytes n x) = n.
Proof.
  revert x. induction n as [|n IH]; intros x; simpl; [reflexivity|].
  rewrite length_app, IH. simpl. lia.
Qed.

Lemma be_value_snoc (l : list byte) (b : byte) :
  be_value (l ++ [b]) = be_value l * 256 + Byte.to_N b.
Proof. unfold be_value. now rewrite fold_left_app. Qed.

Lemma to_N_byte_of_N (n : N) : n < 256 -> Byte.to_N (byte_of_N n) = n.
Proof.
  intros Hn. unfold byte_of_N.
  destruct (Byte.of_N n) as [b|] eqn:E.
  - now apply Byte.to_of_N.
  - apply Byte.of_N_None_iff in E. lia.
Qed.

Lemma byte_of_N_to_N (b : byte) : byte_of_N (Byte.to_N b) = b.
Proof. unfold byte_of_N. now rewrite Byte.of_to_N. Qed.

Lemma be_value_be_bytes (n : nat) : forall x,
  be_value (be_bytes n x) = x mod 256 ^ N.of_nat n.
Proof.
  induction n as [|n IH]; intros x.
  - simpl. now rewrite N.mod_1_r.
  - cbn [be_bytes]. rewrite be_value_snoc, IH.
    rewrite to_N_byte_of_N by (apply N.mod_lt; discriminate).
    rewrite Nnat.Nat2N.inj_succ, N.pow_succ_r'.
    rewrite (N.Div0.mod_mul_r x 256 (256 ^ N.of_nat n)). lia.
Qed.

Lemma be_value_bound (l : list byte) : be_value l < 256 ^ N.of_nat (length l).
Proof.
  induction l as [|b l IH] using rev_ind.
  - simpl. reflexivity.
  - rewrite be_value_snoc, length_app. simpl.
    replace (length l + 1)%nat with (S (length l)) by lia.
    rewrite Nnat.Nat2N.inj_succ, N.pow_succ_r'.
    pose proof (Byte.to_N_bounded b). lia.
Qed.

Lemma be_bytes_be_value (l : list byte) : be_bytes (length l) (be_value l) = l.
Proof.
  induction l as [|b l IH] using rev_ind.
  - reflexivity.
  - rewrite be_value_snoc, length_app. simpl.
    replace (length l + 1)%nat with (S (length l)) by lia.
    cbn [be_bytes].
    pose proof (Byte.to_N_bounded b) as Hb.
    replace ((be_value l * 256 + Byte.to_N b) / 256) with (be_value l)
      by (apply N.div_unique with (r := Byte.to_N b); lia).
    replace ((be_value l * 256 + Byte.to_N b) mod 256) with (Byte.to_N b)
      by (apply N.mod_unique with (q := be_value l); lia).
    now rewrite IH, byte_of_N_to_N.
Qed.

(** A signature of 65 bytes is its first 32 bytes, its next 32 bytes and
    its last byte. *)
Lemma signature_split (sg : bytes) :
  length sg = 65%nat ->
  sg = take 32 sg ++ take 32 (drop 32 sg) ++ [nth 64 sg x00].
Proof.
  intros Hlen.
  rewrite <- (take_drop 32 sg) at 1. f_equal.
  rewrite <- (take_drop 32 (drop 32 sg)) at 1. f_equal.
  rewrite drop_drop. change (32 + 32)%nat with 64%nat.
  assert (Hd : length (drop 64 sg) = 1%nat) by (rewrite length_drop; lia).
  destruct (drop 64 sg) as [|b [|b' t]] eqn:Ed; simpl in Hd; try lia.
  f_equal. rewrite <- (take_drop 64 sg) at 1. rewrite Ed.
  rewrite app_nth2 by (rewrite length_take; lia).
  rewrite length_take. replace (64 - (64 `min` length sg))%nat with 0%nat by lia.
  reflexivity.
Qed.

Lemma add_uint8_small (v : uint8) : v < 27 -> add_uint8 v 27 = Ok (v + 27).
Proof.
  intros Hv. unfold add_uint8.
  destruct (N.ltb_spec (v + 27) 256); [reflexivity | lia].
Qed.


(** * The scenarios of the specification, run on the model *)

(** Scenario 1: after the first registration the record exists, is its own
    root, and its history is itself. *)
Example scenario_register :
  verifySBOM 11 st2 =
    Ok (true, mkSBOMRecord 11 acme 1001 "v1.0" 0 (toy_sign acme 11)) /\
  getRootHash 11 st2 = Ok 11 /\
  getVersionHistory 11 st2 = Ok [11].
Proof. repeat split; vm_compute; reflexivity. Qed.

(** Scenario 2: after the update both versions are on the chain of the
    first. *)
Example scenario_update :
  getVersionHistory 11 st3 = Ok [11; 12] /\
  getVersionCount 11 st3 = Ok 2 /\
  getRootHash 12 st3 = Ok 11 /\
  previousHash (sbomRecords st3 @ 12) = 11.
Proof. repeat split; vm_compute; reflexivity. Qed.

(** Scenario 3: a second registration of the same hash is rejected. *)
Example scenario_register_twice :
  @registerSBOM toy acme_env 11 "v1.0" (toy_sign acme 11) st3 =
  Reverted SBOMAlreadyRegistered st3.
Proof. vm_compute. reflexivity. Qed.

(** Scenario 4: an account that was never made a vendor cannot register. *)
Example scenario_unverified_register :
  @registerSBOM toy mallory_env 21 "v1.0" (toy_sign mallory 21) st3 =
  Reverted VendorNotVerifiedForSBOM st3.
Proof. vm_compute. reflexivity. Qed.

(** Scenario 5: nor can it extend a chain it does not own. *)
Example scenario_foreign_update :
  @updateSBOM toy mallory_env 11 13 "v3.0" (toy_sign mallory 13) st3 =
  Reverted OnlyOriginalVendor st3.
Proof. vm_compute. reflexivity. Qed.

(** Scenario 6: after the revocation the record still verifies, under a
    vendor that no longer is verified. *)
Example scenario_revoked :
  @verifyCompleteSBOM toy 11 st4 = Ok (true, true, false, "Acme"%string).
Proof. vm_compute. reflexivity. Qed.

(** A signature with a wrong length, and one with a version byte outside
    27 and 28, are rejected before recovery. *)
Example scenario_bad_signatures :
  @recoverSigner toy 11 [x00; x01] = Err InvalidSignatureLength /\
  @recoverSigner toy 11 (be_bytes 32 acme ++ be_bytes 32 11 ++ [x1d]) =
    Err InvalidSignatureVersion /\
  @recoverSigner toy 11 (be_bytes 32 acme ++ be_bytes 32 11 ++ [x01]) = Ok acme.
Proof. repeat split; vm_compute; reflexivity. Qed.

(** * The calls as decision trees *)

Section Runs.

Context `{Primitives}.

Ltac run_monad :=
  unfold mbind, M_bind, onlyRegistryOwner, sload, require, call_pure, sstore, emit;
  unfold mbind, M_bind, sload, require.

Lemma registerSBOM_run env h md sg st :
  registerSBOM env h md sg st =
  if negb (timestamp (sbomRecords st @ h) =? 0) then Reverted SBOMAlreadyRegistered st
  else if negb (length sg =? 65)%nat then Reverted InvalidSignatureLength st
  else match recoverSigner h sg with
       | Err r => Reverted r st
       | Ok signer =>
           if negb (signer =? msg_sender env) then Reverted SignerMismatch st
           else if negb (verified (vendors st @ msg_sender env))
                then Reverted VendorNotVerifiedForSBOM st
                else Done tt (register_commit env h md sg st)
                       [SBOMRegistered h (msg_sender env) (block_timestamp env) md]
       end.
Proof.
  unfold registerSBOM. run_monad.
  destruct (timestamp (sbomRecords st @ h) =? 0); simpl; [|reflexivity].
  destruct (length sg =? 65)%nat; simpl; [|reflexivity].
  destruct (recoverSigner h sg) as [signer|r]; simpl; [|reflexivity].
  destruct (signer =? msg_sender env); simpl; [|reflexivity].
  destruct (verified (vendors st @ msg_sender env)); simpl; reflexivity.
Qed.

Lemma updateSBOM_run env old new md sg st :
  updateSBOM env old new md sg st =
  if timestamp (sbomRecords st @ old) =? 0 then Reverted OriginalSBOMNotFound st
  else if negb (vendor (sbomRecords st @ old) =? msg_sender env)
       then Reverted OnlyOriginalVendor st
  else if negb (timestamp (sbomRecords st @ new) =? 0)
       then Reverted NewHashAlreadyRegistered st
  else if negb (length sg =? 65)%nat then Reverted InvalidSignatureLength st
  else match recoverSigner new sg with
       | Err r => Reverted r st
       | Ok signer =>
           if negb (signer =? msg_sender env) then Reverted SignerMismatch st
           else Done tt (update_commit env old new md sg st)
                  [SBOMUpdated old new (msg_sender env) (block_timestamp env)]
       end.
Proof.
  unfold updateSBOM. run_monad.
  destruct (timestamp (sbomRecords st @ old) =? 0); simpl; [reflexivity|].
  destruct (vendor (sbomRecords st @ old) =? msg_sender env); simpl; [|reflexivity].
  destruct (timestamp (sbomRecords st @ new) =? 0); simpl; [|reflexivity].
  destruct (length sg =? 65)%nat; simpl; [|reflexivity].
  destruct (recoverSigner new sg) as [signer|r]; simpl; [|reflexivity].
  destruct (signer =? msg_sender env); simpl; reflexivity.
Qed.

Lemma registerVendor_run env v n w e st :
  registerVendor env v n w e st =
  if negb (msg_sender env =? registryOwner st) then Reverted OnlyRegistryOwner st
  else if v =? 0 then Reverted InvalidVendorAddress st
  else if verified (vendors st @ v) then Reverted VendorAlreadyRegistered st
  else if negb (0 <? String.length n)%nat then Reverted NameCannotBeEmpty st
  else Done tt (set_vendors <[v := mkVendorInfo n w e true (block_timestamp env)]> st)
         [VendorRegistered v n (block_timestamp env)].
Proof.
  unfold registerVendor. run_monad.
  destruct (msg_sender env =? registryOwner st); simpl; [|reflexivity].
  destruct (v =? 0); simpl; [reflexivity|].
  destruct (verified (vendors st @ v)); simpl; [reflexivity|].
  destruct (0 <? String.length n)%nat; simpl; reflexivity.
Qed.

Lemma revokeVendor_run env v st :
  revokeVendor env v st =
  if negb (msg_sender env =? registryOwner st) then Reverted OnlyRegistryOwner st
  else if negb (verified (vendors st @ v)) then Reverted VendorNotVerified st
  else Done tt
         (set_vendors
            <[v := mkVendorInfo (name (vendors st @ v)) (website (vendors st @ v))
                     (contactEmail (vendors st @ v)) false
                     (registeredAt (vendors st @ v))]> st)
         [VendorRevoked v (block_timestamp env)].
Proof.
  unfold revokeVendor. run_monad.
  destruct (msg_sender env =? registryOwner st); simpl; [|reflexivity].
  destruct (verified (vendors st @ v)); simpl; reflexivity.
Qed.

Lemma transferOwnership_run env o st :
  transferOwnership env o st =
  if negb (msg_sender env =? registryOwner st) then Reverted OnlyRegistryOwner st
  else if o =? 0 then Reverted InvalidNewOwner st
  else Done tt (set_registryOwner o st) [].
Proof.
  unfold transferOwnership. run_monad.
  destruct (msg_sender env =? registryOwner st); simpl; [|reflexivity].
  destruct (o =? 0); simpl; reflexivity.
Qed.

Lemma registerSBOM_done env h md sg st a st' log :
  registerSBOM env h md sg st = Done a st' log ->
  register_ok env h sg st /\ st' = register_commit env h md sg st /\
  log = [SBOMRegistered h (msg_sender env) (block_timestamp env) md].
Proof.
  rewrite registerSBOM_run.
  destruct (timestamp (sbomRecords st @ h) =? 0) eqn:Ets; simpl; [|discriminate].
  destruct (length sg =? 65)%nat eqn:Elen; simpl; [|discriminate].
  destruct (recoverSigner h sg) as [signer|r] eqn:Erec; [|discriminate].
  destruct (signer =? msg_sender env) eqn:Esig; simpl; [|discriminate].
  destruct (verified (vendors st @ msg_sender env)) eqn:Ever; simpl; [|discriminate].
  intros [= _ <- <-].
  apply N.eqb_eq in Ets, Esig. apply Nat.eqb_eq in Elen. subst signer.
  unfold register_ok, registered. repeat split; auto.
Qed.

Lemma registerSBOM_commits env h md sg st :
  register_ok env h sg st ->
  registerSBOM env h md sg st =
  Done tt (register_commit env h md sg st)
    [SBOMRegistered h (msg_sender env) (block_timestamp env) md].
Proof.
  intros (Hfresh & Hlen & Hrec & Hver). rewrite registerSBOM_run.
  unfold registered in Hfresh.
  destruct (N.eqb_spec (timestamp (sbomRecords st @ h)) 0); [simpl|contradiction].
  rewrite Hlen, Hrec, N.eqb_refl, Hver. reflexivity.
Qed.

Lemma registerSBOM_reverted env h md sg st r st' :
  registerSBOM env h md sg st = Reverted r st' -> st' = st.
Proof.
  rewrite registerSBOM_run.
  repeat match goal with
         | |- context [if ?b then _ else _] => destruct b; simpl
         | |- context [match ?x with Ok _ => _ | Err _ => _ end] => destruct x; simpl
         end; congruence.
Qed.

Lemma updateSBOM_done env old new md sg st a st' log :
  updateSBOM env old new md sg st = Done a st' log ->
  update_ok env old new sg st /\ st' = update_commit env old new md sg st /\
  log = [SBOMUpdated old new (msg_sender env) (block_timestamp env)].
Proof.
  rewrite updateSBOM_run.
  destruct (timestamp (sbomRecords st @ old) =? 0) eqn:Eold; simpl; [discriminate|].
  destruct (vendor (sbomRecords st @ old) =? msg_sender env) eqn:Eown; simpl; [|discriminate].
  destruct (timestamp (sbomRecords st @ new) =? 0) eqn:Enew; simpl; [|discriminate].
  destruct (length sg =? 65)%nat eqn:Elen; simpl; [|discriminate].
  destruct (recoverSigner new sg) as [signer|r] eqn:Erec; [|discriminate].
  destruct (signer =? msg_sender env) eqn:Esig; simpl; [|discriminate].
  intros [= _ <- <-].
  apply N.eqb_neq in Eold. apply N.eqb_eq in Eown, Enew, Esig.
  apply Nat.eqb_eq in Elen. subst signer.
  unfold update_ok, registered. repeat split; auto.
Qed.

Lemma updateSBOM_commits env old new md sg st :
  update_ok env old new sg st ->
  updateSBOM env old new md sg st =
  Done tt (update_commit env old new md sg st)
    [SBOMUpdated old new (msg_sender env) (block_timestamp env)].
Proof.
  intros (Hold & Hown & Hfresh & Hlen & Hrec). rewrite updateSBOM_run.
  unfold registered in Hold, Hfresh.
  destruct (N.eqb_spec (timestamp (sbomRecords st @ old)) 0); [contradiction|].
  destruct (N.eqb_spec (timestamp (sbomRecords st @ new)) 0); [simpl|contradiction].
  rewrite Hown, Hlen, Hrec, N.eqb_refl. reflexivity.
Qed.

Lemma updateSBOM_reverted env old new md sg st r st' :
  updateSBOM env old new md sg st = Reverted r st' -> st' = st.
Proof.
  rewrite updateSBOM_run.
  repeat match goal with
         | |- context [if ?b then _ else _] => destruct b; simpl
         | |- context [match ?x with Ok _ => _ | Err _ => _ end] => destruct x; simpl
         end; congruence.
Qed.

(** Every transaction either leaves the three SBOM mappings alone, or is a
    committed [registerSBOM], or is a committed [updateSBOM]. *)
Lemma transact_cases env c st :
  (sbomRecords (transact env c st) = sbomRecords st /\
   versionHistory (transact env c st) = versionHistory st /\
   rootHash (transact env c st) = rootHash st) \/
  (exists h md sg, c = RegisterSBOM h md sg /\ register_ok env h sg st /\
     transact env c st = register_commit env h md sg st) \/
  (exists old new md sg, c = UpdateSBOM old new md sg /\ update_ok env old new sg st /\
     transact env c st = update_commit env old new md sg st).
Proof.
  unfold transact. destruct c as [v n w e|v|o|h md sg|old new md sg]; simpl.
  - left. rewrite registerVendor_run.
    repeat match goal with
           | |- context [if ?b then _ else _] => destruct b; simpl
           end; auto.
  - left. rewrite revokeVendor_run.
    repeat match goal with
           | |- context [if ?b then _ else _] => destruct b; simpl
           end; auto.
  - left. rewrite transferOwnership_run.
    repeat match goal with
           | |- context [if ?b then _ else _] => destruct b; simpl
           end; auto.
  - destruct (registerSBOM env h md sg st) as [a st' log|r st'] eqn:Hrun; [|auto].
    apply registerSBOM_done in Hrun as (Hok & -> & _).
    right; left. exists h, md, sg. auto.
  - destruct (updateSBOM env old new md sg st) as [a st' log|r st'] eqn:Hrun; [|auto].
    apply updateSBOM_done in Hrun as (Hok & -> & _).
    right; right. exists old, new, md, sg. auto.
Qed.

End Runs.

(** * Stability of written slots and the storage invariant *)

Section Invariants.

Context `{Primitives}.

Lemma transact_keeps_record env c st h :
  registered st h ->
  sbomRecords (transact env c st) @ h = sbomRecords st @ h.
Proof.
  intros Hreg.
  destruct (transact_cases env c st)
    as [(-> & _ & _)|[(h' & md & sg & -> & Hok & ->)|(old & new & md & sg & -> & Hok & ->)]].
  - reflexivity.
  - destruct Hok as (Hfresh & _).
    assert (h' <> h) by (intros ->; contradiction). now slots.
  - destruct Hok as (_ & _ & Hfresh & _).
    assert (new <> h) by (intros ->; contradiction). now slots.
Qed.

Lemma transact_keeps_root env c st h :
  registered st h ->
  rootHash (transact env c st) @ h = rootHash st @ h.
Proof.
  intros Hreg.
  destruct (transact_cases env c st)
    as [(_ & _ & ->)|[(h' & md & sg & -> & Hok & ->)|(old & new & md & sg & -> & Hok & ->)]].
  - reflexivity.
  - destruct Hok as (Hfresh & _).
    assert (h' <> h) by (intros ->; contradiction). now slots.
  - destruct Hok as (_ & _ & Hfresh & _).
    assert (new <> h) by (intros ->; contradiction). now slots.
Qed.

Lemma transact_keeps_registered env c st h :
  registered st h -> registered (transact env c st) h.
Proof.
  intros Hreg. unfold registered. now rewrite transact_keeps_record.
Qed.

Lemma steps_keep st st' h :
  steps st st' -> registered st h ->
  registered st' h /\
  sbomRecords st' @ h = sbomRecords st @ h /\
  rootHash st' @ h = rootHash st @ h.
Proof.
  induction 1 as [st|env c st st' Hsteps IH Hts]; intros Hreg.
  - auto.
  - destruct (IH Hreg) as (Hreg' & Hrec & Hroot).
    split; [now apply transact_keeps_registered|].
    rewrite transact_keeps_record, transact_keeps_root by assumption. auto.
Qed.

Lemma steps_trans st1 st2 st3 : steps st1 st2 -> steps st2 st3 -> steps st1 st3.
Proof.
  intros H12 H23. induction H23 as [st|env c st st' Hsteps IH Hts].
  - assumption.
  - apply steps_call; auto.
Qed.

Lemma steps_reachable st st' : reachable st -> steps st st' -> reachable st'.
Proof.
  intros Hr Hs. induction Hs as [st|env c st st' Hsteps IH Hts].
  - assumption.
  - apply reach_call; auto.
Qed.

Lemma register_commit_registered env h md sg st :
  0 < block_timestamp env -> registered (register_commit env h md sg st) h.
Proof. intros Hts. unfold registered. slots. lia. Qed.

Lemma update_commit_registered env old new md sg st :
  0 < block_timestamp env -> registered (update_commit env old new md sg st) new.
Proof. intros Hts. unfold registered. slots. lia. Qed.

Lemma Inv_constructor env : Inv (constructor env).
Proof.
  split; unfold registered; simpl; intros h.
  - rewrite mapping_get_empty. intros []. reflexivity.
  - intros _. now rewrite !mapping_get_empty.
  - rewrite mapping_get_empty. intros []. reflexivity.
  - rewrite mapping_get_empty. intros []. reflexivity.
Qed.

Lemma Inv_register_commit env h md sg st :
  0 < block_timestamp env -> register_ok env h sg st -> Inv st ->
  Inv (register_commit env h md sg st).
Proof.
  intros Hts (Hfresh & Hlen & Hrec & _) [Isig Ifresh Iroot Ilink].
  assert (Hnew : forall h0, h0 <> h ->
            registered (register_commit env h md sg st) h0 <-> registered st h0).
  { intros h0 Hne. unfold registered. now slots. }
  split; intros h0 Hh0.
  - destruct (decide (h0 = h)) as [->|Hne].
    + slots. auto.
    + apply Hnew in Hh0; [|assumption]. slots. auto.
  - destruct (decide (h0 = h)) as [->|Hne].
    + exfalso. apply Hh0. now apply register_commit_registered.
    + rewrite Hnew in Hh0 by assumption. slots. auto.
  - destruct (decide (h0 = h)) as [->|Hne].
    + slots. split; [now apply register_commit_registered|reflexivity].
    + apply Hnew in Hh0; [|assumption].
      destruct (Iroot h0 Hh0) as (Hr & Hrr).
      assert (rootHash st @ h0 <> h) by (intros E; rewrite E in Hr; contradiction).
      slots. rewrite Hnew by assumption. auto.
  - destruct (decide (h0 = h)) as [->|Hne].
    + left. slots. auto.
    + apply Hnew in Hh0; [|assumption].
      destruct (Ilink h0 Hh0) as [(Hp & Hr)|(Hp & Hr & Hrne)].
      * left. slots. auto.
      * right.
        assert (previousHash (sbomRecords st @ h0) <> h)
          by (intros E; rewrite E in Hp; contradiction).
        slots. rewrite Hnew by assumption. auto.
Qed.

Lemma Inv_update_commit env old new md sg st :
  0 < block_timestamp env -> update_ok env old new sg st -> Inv st ->
  Inv (update_commit env old new md sg st).
Proof.
  intros Hts (Hold & Hown & Hfresh & Hlen & Hrec) [Isig Ifresh Iroot Ilink].
  destruct (Iroot old Hold) as (Hroot & Hrootroot).
  assert (Hrn : rootHash st @ old <> new) by (intros E; rewrite E in Hroot; contradiction).
  assert (Hnew : forall h0, h0 <> new ->
            registered (update_commit env old new md sg st) h0 <-> registered st h0).
  { intros h0 Hne. unfold registered. now slots. }
  split; intros h0 Hh0.
  - destruct (decide (h0 = new)) as [->|Hne].
    + slots. auto.
    + apply Hnew in Hh0; [|assumption]. slots. auto.
  - destruct (decide (h0 = new)) as [->|Hne].
    + exfalso. apply Hh0. now apply update_commit_registered.
    + rewrite Hnew in Hh0 by assumption.
      assert (rootHash st @ old <> h0) by (intros E; rewrite E in Hroot; contradiction).
      slots. auto.
  - destruct (decide (h0 = new)) as [->|Hne].
    + slots. rewrite Hnew by assumption. auto.
    + apply Hnew in Hh0; [|assumption].
      destruct (Iroot h0 Hh0) as (Hr & Hrr).
      assert (rootHash st @ h0 <> new) by (intros E; rewrite E in Hr; contradiction).
      slots. rewrite Hnew by assumption. auto.
  - assert (Hon : old <> new) by (intros E; rewrite E in Hold; contradiction).
    destruct (decide (h0 = new)) as [->|Hne].
    + right. slots. rewrite Hnew by assumption. auto.
    + apply Hnew in Hh0; [|assumption].
      destruct (Ilink h0 Hh0) as [(Hp & Hr)|(Hp & Hr & Hrne)].
      * left. slots. auto.
      * right.
        assert (previousHash (sbomRecords st @ h0) <> new)
          by (intros E; rewrite E in Hp; contradiction).
        slots. rewrite Hnew by assumption. auto.
Qed.

Lemma Inv_transact env c st :
  0 < block_timestamp env -> Inv st -> Inv (transact env c st).
Proof.
  intros Hts HI.
  destruct (transact_cases env c st)
    as [(E1 & E2 & E3)|[(h' & md & sg & -> & Hok & ->)|(old & new & md & sg & -> & Hok & ->)]].
  - destruct HI as [Isig Ifresh Iroot Ilink].
    split; unfold registered; rewrite ?E1, ?E2, ?E3; auto.
  - now apply Inv_register_commit.
  - now apply Inv_update_commit.
Qed.

Lemma reachable_Inv st : reachable st -> Inv st.
Proof.
  induction 1 as [env|env c st Hreach IH Hts].
  - apply Inv_constructor.
  - now apply Inv_transact.
Qed.

End Invariants.

(** * Signature recovery *)

Section Recovery.

Context `{Primitives}.

Lemma recoverSigner_run (_hash : bytes32) (sg : bytes) :
  recoverSigner _hash sg =
  if negb (length sg =? 65)%nat then Err InvalidSignatureLength
  else if negb ((normalized_v sg =? 27) || (normalized_v sg =? 28))
       then Err InvalidSignatureVersion
       else Ok (ecrecover (ethSignedHash _hash) (normalized_v sg) (sig_r sg) (sig_s sg)).
Proof.
  unfold recoverSigner, normalized_v, res_bind, res_require.
  destruct (length sg =? 65)%nat; simpl; [|reflexivity].
  destruct (N.ltb_spec (sig_v sg) 27) as [Hlt|Hge].
  - rewrite add_uint8_small by assumption.
    destruct ((sig_v sg + 27 =? 27) || (sig_v sg + 27 =? 28)); reflexivity.
  - destruct ((sig_v sg =? 27) || (sig_v sg =? 28)); reflexivity.
Qed.

Lemma version_ok_iff (v : uint8) :
  (v =? 27) || (v =? 28) = true <-> v = 27 \/ v = 28.
Proof. rewrite orb_true_iff, !N.eqb_eq. reflexivity. Qed.

(** C9. [recoverSigner] reverts with "Invalid signature length" exactly when
    the signature is not 65 bytes long.  Otherwise the last byte [v] is
    raised by 27 when it is below 27, and the call reverts with "Invalid
    signature version" exactly when the result is neither 27 nor 28.  When
    both checks pass it returns [ecrecover] of the keccak digest of the
    28-byte prefix ["\x19Ethereum Signed Message:\n32"] followed by the 32
    bytes of the hash.  Called from a transaction it leaves storage as it
    was and emits nothing.

    What is read from where is part of the statement: a signature of 65
    bytes is its first 32 bytes, read big-endian as [r], its next 32
    bytes, read big-endian as [s], and its final byte, which is [v]; the
    prefix is given byte by byte, and the 32 bytes after it are the hash
    big-endian. *)
Theorem recoverSigner_spec (_hash : bytes32) (sg : bytes) :
  (recoverSigner _hash sg = Err InvalidSignatureLength <-> length sg <> 65%nat) /\
  (normalized_v sg = if sig_v sg <? 27 then sig_v sg + 27 else sig_v sg) /\
  (recoverSigner _hash sg = Err InvalidSignatureVersion <->
     length sg = 65%nat /\ normalized_v sg <> 27 /\ normalized_v sg <> 28) /\
  (length sg = 65%nat -> normalized_v sg = 27 \/ normalized_v sg = 28 ->
     recoverSigner _hash sg =
       Ok (ecrecover (keccak256 (eth_prefix ++ encode_bytes32 _hash))
             (normalized_v sg) (sig_r sg) (sig_s sg))) /\
  (length eth_prefix = 28%nat /\ length (encode_bytes32 _hash) = 32%nat) /\
  (forall st,
     match recoverSigner _hash sg with
     | Ok a => call_pure (recoverSigner _hash sg) st = Done a st []
     | Err r => call_pure (recoverSigner _hash sg) st = Reverted r st
     end) /\
  (length sg = 65%nat ->
     sg = take 32 sg ++ take 32 (drop 32 sg) ++ [nth 64 sg x00] /\
     last sg = Some (nth 64 sg x00) /\
     sig_v sg = Byte.to_N (nth 64 sg x00) /\
     sig_r sg = be_value (take 32 sg) /\
     sig_s sg = be_value (take 32 (drop 32 sg))) /\
  (be_value [] = 0 /\
   (forall l b, be_value (l ++ [b]) = be_value l * 256 + Byte.to_N b) /\
   be_value (encode_bytes32 _hash) = _hash mod 2 ^ 256) /\
  eth_prefix =
    [x19; x45; x74; x68; x65; x72; x65; x75; x6d; x20; x53; x69; x67; x6e; x65; x64;
     x20; x4d; x65; x73; x73; x61; x67; x65; x3a; x0a; x33; x32].
Proof.
  rewrite recoverSigner_run.
  split; [|split; [reflexivity|split; [|split; [|split; [|split; [|split; [|split]]]]]]].
  - destruct (Nat.eqb_spec (length sg) 65) as [Hlen|Hlen]; simpl.
    + split; [|contradiction].
      destruct ((normalized_v sg =? 27) || (normalized_v sg =? 28)); discriminate.
    + split; auto.
  - destruct (Nat.eqb_spec (length sg) 65) as [Hlen|Hlen]; simpl.
    + destruct ((normalized_v sg =? 27) || (normalized_v sg =? 28)) eqn:Ev; simpl.
      * apply version_ok_iff in Ev. split; [discriminate|]. intros (_ & H27 & H28).
        destruct Ev; contradiction.
      * split; [intros _|reflexivity]. split; [assumption|].
        split; intros E; rewrite E in Ev; discriminate.
    + split; [discriminate|]. intros (Hl & _). contradiction.
  - intros Hlen Hv. apply version_ok_iff in Hv.
    rewrite Hlen, Hv. reflexivity.
  - split; [apply eth_prefix_length|apply be_bytes_length].
  - intros st. unfold call_pure.
    destruct (negb (length sg =? 65)%nat); [reflexivity|].
    destruct (negb ((normalized_v sg =? 27) || (normalized_v sg =? 28))); reflexivity.
  - intros Hlen. pose proof (signature_split sg Hlen) as Hsplit.
    split; [exact Hsplit|]. split; [|repeat split].
    rewrite Hsplit at 1. rewrite !app_assoc. apply last_snoc.
  - split; [reflexivity|]. split; [apply be_value_snoc|].
    unfold encode_bytes32. rewrite be_value_be_bytes. reflexivity.
  - reflexivity.
Qed.

End Recovery.

(** An instance of C9: a 65-byte signature whose last byte is 27 recovers
    through the prefixed digest, the same 64 bytes followed by 29 are
    turned away for their version, and 64 bytes are turned away for their
    length. *)
Lemma recoverSigner_spec_witness :
  length (toy_sign acme 11) = 65%nat /\
  (normalized_v (toy_sign acme 11) = 27 \/ normalized_v (toy_sign acme 11) = 28) /\
  @recoverSigner toy 11 (toy_sign acme 11) = Ok acme /\
  last (toy_sign acme 11) = Some x1b /\
  @recoverSigner toy 11 (be_bytes 32 acme ++ be_bytes 32 11 ++ [x1d]) =
    Err InvalidSignatureVersion /\
  @recoverSigner toy 11 (be_bytes 32 acme ++ be_bytes 32 11) = Err InvalidSignatureLength.
Proof.
  split; [reflexivity|]. split; [left; reflexivity|].
  destruct (@recoverSigner_spec toy 11 (toy_sign acme 11))
    as (_ & _ & _ & Hok & _ & _ & Hbytes & _).
  destruct (@recoverSigner_spec toy 11 (be_bytes 32 acme ++ be_bytes 32 11 ++ [x1d]))
    as (_ & _ & Hversion & _).
  destruct (@recoverSigner_spec toy 11 (be_bytes 32 acme ++ be_bytes 32 11))
    as (Hlength & _).
  split; [rewrite Hok; [reflexivity|reflexivity|left; reflexivity]|].
  split; [exact (proj1 (proj2 (Hbytes eq_refl)))|].
  split.
  - apply Hversion. split; [reflexivity|]. split; vm_compute; discriminate.
  - apply Hlength. vm_compute. discriminate.
Defined.

(** * Uniqueness of records *)

Section Uniqueness.

Context `{Primitives}.

Lemma dispatch_done_registers env c st a st' log h :
  0 < block_timestamp env -> targets c h ->
  dispatch env c st = Done a st' log -> registered st' h.
Proof.
  intros Hts Htg Hrun.
  destruct c as [v n w e|v|o|h' md sg|old new md sg]; simpl in Htg; try contradiction;
    subst; simpl in Hrun.
  - apply registerSBOM_done in Hrun as (_ & -> & _).
    now apply register_commit_registered.
  - apply updateSBOM_done in Hrun as (_ & -> & _).
    now apply update_commit_registered.
Qed.

Lemma registerSBOM_registered env h md sg st :
  registered st h ->
  registerSBOM env h md sg st = Reverted SBOMAlreadyRegistered st.
Proof.
  intros Hreg. rewrite registerSBOM_run. unfold registered in Hreg.
  destruct (N.eqb_spec (timestamp (sbomRecords st @ h)) 0); [contradiction|reflexivity].
Qed.

Lemma updateSBOM_registered env old h md sg st :
  registered st h ->
  updateSBOM env old h md sg st =
  Reverted (if timestamp (sbomRecords st @ old) =? 0 then OriginalSBOMNotFound
            else if vendor (sbomRecords st @ old) =? msg_sender env
                 then NewHashAlreadyRegistered else OnlyOriginalVendor) st.
Proof.
  intros Hreg. rewrite updateSBOM_run. unfold registered in Hreg.
  destruct (timestamp (sbomRecords st @ old) =? 0); [reflexivity|].
  destruct (vendor (sbomRecords st @ old) =? msg_sender env); simpl; [|reflexivity].
  destruct (N.eqb_spec (timestamp (sbomRecords st @ h)) 0); [contradiction|reflexivity].
Qed.

(** C1, amended.  A call that creates the record of [h] leaves [h]
    registered; from then on every [registerSBOM] of [h] reverts with "SBOM
    already registered", and every [updateSBOM] whose new hash is [h]
    reverts too: with "Original SBOM not found" when the old hash has no
    record, with "Only original vendor can update" when the sender does not
    own the old record, and with "New hash already registered" otherwise.
    No later transaction changes the record stored for [h]. *)
Theorem uniqueness_amended :
  (forall st0 env c st1 log h,
     0 < block_timestamp env -> targets c h ->
     dispatch env c st0 = Done tt st1 log -> registered st1 h) /\
  (forall st h, registered st h ->
     (forall env md sg,
        registerSBOM env h md sg st = Reverted SBOMAlreadyRegistered st) /\
     (forall env old md sg, exists r,
        updateSBOM env old h md sg st = Reverted r st /\
        (~ registered st old -> r = OriginalSBOMNotFound) /\
        (registered st old -> vendor (sbomRecords st @ old) <> msg_sender env ->
           r = OnlyOriginalVendor) /\
        (registered st old -> vendor (sbomRecords st @ old) = msg_sender env ->
           r = NewHashAlreadyRegistered)) /\
     (forall env c, targets c h -> transact env c st = st) /\
     (forall st', steps st st' ->
        registered st' h /\ sbomRecords st' @ h = sbomRecords st @ h)) /\
  (forall st0 env c st1 log h st2 env' c',
     0 < block_timestamp env -> targets c h ->
     dispatch env c st0 = Done tt st1 log -> steps st1 st2 -> targets c' h ->
     exists r, dispatch env' c' st2 = Reverted r st2).
Proof.
  split; [|split].
  - intros st0 env c st1 log h. apply dispatch_done_registers.
  - intros st h Hreg. split; [|split; [|split]].
    + intros env md sg. now apply registerSBOM_registered.
    + intros env old md sg. eexists. split; [now apply updateSBOM_registered|].
      unfold registered.
      destruct (N.eqb_spec (timestamp (sbomRecords st @ old)) 0) as [E|E].
      * repeat split; intros; first [reflexivity|contradiction].
      * destruct (N.eqb_spec (vendor (sbomRecords st @ old)) (msg_sender env));
          repeat split; intros; first [reflexivity|contradiction].
    + intros env c Htg. unfold transact.
      destruct c as [v n w e|v|o|h' md sg|old new md sg]; simpl in Htg;
        try contradiction; subst; simpl.
      * now rewrite registerSBOM_registered.
      * now rewrite updateSBOM_registered.
    + intros st' Hsteps. destruct (steps_keep st st' h Hsteps Hreg) as (? & ? & _). auto.
  - intros st0 env c st1 log h st2 env' c' Hts Htg Hrun Hsteps Htg'.
    pose proof (dispatch_done_registers _ _ _ _ _ _ _ Hts Htg Hrun) as Hreg1.
    destruct (steps_keep st1 st2 h Hsteps Hreg1) as (Hreg2 & _).
    destruct c' as [v n w e|v|o|h' md sg|old new md sg]; simpl in Htg';
      try contradiction; subst; simpl; eexists.
    + now apply registerSBOM_registered.
    + now apply updateSBOM_registered.
Qed.

End Uniqueness.

Lemma st1_reachable : @reachable toy st1.
Proof. apply reach_call; [apply reach_deploy|reflexivity]. Qed.

Lemma st2_reachable : @reachable toy st2.
Proof. apply reach_call; [apply st1_reachable|reflexivity]. Qed.

Lemma st3_reachable : @reachable toy st3.
Proof. apply reach_call; [apply st2_reachable|reflexivity]. Qed.

Lemma st4_reachable : @reachable toy st4.
Proof. apply reach_call; [apply st3_reachable|reflexivity]. Qed.

Lemma st_zero_reachable : @reachable toy st_zero.
Proof. apply reach_call; [apply st1_reachable|reflexivity]. Qed.

Lemma st2_registered_11 : registered st2 11.
Proof. unfold registered. vm_compute. discriminate. Qed.

(** An instance of C1 as amended: version 11 is registered in [st2], and
    registering it again is rejected. *)
Lemma uniqueness_amended_witness :
  registered st2 11 /\
  @registerSBOM toy acme_env 11 "v1.0" (toy_sign acme 11) st2 =
    Reverted SBOMAlreadyRegistered st2.
Proof.
  split; [apply st2_registered_11|].
  apply (proj1 (proj2 (@uniqueness_amended toy)) st2 11 st2_registered_11).
Defined.

(** C1 as stated fails: with version 11 registered, an update that names an
    unregistered old hash and targets 11 is rejected with "Original SBOM
    not found", not as an existing record. *)
Lemma uniqueness_as_stated_fails : ~ @uniqueness_as_stated toy.
Proof.
  intros Hc.
  destruct (Hc st2 11 st2_reachable st2_registered_11) as (_ & Hupd & _).
  destruct (Hupd acme_env 99 "v9"%string (toy_sign acme 11)) as (r & Hrun & Hr).
  assert (Hev : @updateSBOM toy acme_env 99 11 "v9" (toy_sign acme 11) st2 =
                Reverted OriginalSBOMNotFound st2) by (vm_compute; reflexivity).
  rewrite Hev in Hrun. injection Hrun as <-.
  destruct Hr; discriminate.
Qed.

(** * Registration *)

Section Registration.

Context `{Primitives}.

(** C2. From a reachable storage, [registerSBOM] checks, in this order:
    the hash has no record ("SBOM already registered"), the signature is 65
    bytes long and its version byte normalises to 27 or 28, the recovered
    signer is the sender, and the sender is a verified vendor.  When all
    pass it stores the record [{hash, sender, now, metadata, 0, signature}],
    sets [rootHash[hash] = hash] and makes [versionHistory[hash]] the
    one-element list [[hash]], touching no other slot.  When one fails the
    storage at the failing check, and after the transaction, is the storage
    the call started from. *)
Theorem registerSBOM_spec st env h md sg :
  reachable st ->
  (registered st h ->
     registerSBOM env h md sg st = Reverted SBOMAlreadyRegistered st) /\
  (~ registered st h -> length sg <> 65%nat ->
     registerSBOM env h md sg st = Reverted InvalidSignatureLength st) /\
  (~ registered st h -> length sg = 65%nat ->
     normalized_v sg <> 27 -> normalized_v sg <> 28 ->
     registerSBOM env h md sg st = Reverted InvalidSignatureVersion st) /\
  (forall signer, ~ registered st h -> recoverSigner h sg = Ok signer ->
     signer <> msg_sender env ->
     registerSBOM env h md sg st = Reverted SignerMismatch st) /\
  (~ registered st h -> recoverSigner h sg = Ok (msg_sender env) ->
     isVerifiedVendor (msg_sender env) st = Ok false ->
     registerSBOM env h md sg st = Reverted VendorNotVerifiedForSBOM st) /\
  (~ registered st h -> recoverSigner h sg = Ok (msg_sender env) ->
     isVerifiedVendor (msg_sender env) st = Ok true ->
     exists st',
       registerSBOM env h md sg st =
         Done tt st' [SBOMRegistered h (msg_sender env) (block_timestamp env) md] /\
       transact env (RegisterSBOM h md sg) st = st' /\
       sbomRecords st' @ h =
         mkSBOMRecord h (msg_sender env) (block_timestamp env) md 0 sg /\
       rootHash st' @ h = h /\
       versionHistory st' @ h = [h] /\
       (forall h0, h0 <> h ->
          sbomRecords st' @ h0 = sbomRecords st @ h0 /\
          rootHash st' @ h0 = rootHash st @ h0 /\
          versionHistory st' @ h0 = versionHistory st @ h0) /\
       vendors st' = vendors st /\
       registryOwner st' = registryOwner st) /\
  (forall r st', registerSBOM env h md sg st = Reverted r st' ->
     st' = st /\ transact env (RegisterSBOM h md sg) st = st /\
     (r = SBOMAlreadyRegistered \/ r = InvalidSignatureLength \/
      r = InvalidSignatureVersion \/ r = SignerMismatch \/
      r = VendorNotVerifiedForSBOM)).
Proof.
  intros Hreach.
  assert (Hfresh_ts : ~ registered st h -> (timestamp (sbomRecords st @ h) =? 0) = true).
  { unfold registered. intros Hn. apply N.eqb_eq.
    destruct (N.eq_dec (timestamp (sbomRecords st @ h)) 0); [assumption|contradiction]. }
  split; [|split; [|split; [|split; [|split; [|split]]]]].
  - apply registerSBOM_registered.
  - intros Hn Hlen. rewrite registerSBOM_run, Hfresh_ts by assumption. simpl.
    destruct (Nat.eqb_spec (length sg) 65); [contradiction|reflexivity].
  - intros Hn Hlen H27 H28. rewrite registerSBOM_run, Hfresh_ts by assumption. simpl.
    rewrite recoverSigner_run, Hlen. simpl.
    destruct (N.eqb_spec (normalized_v sg) 27); [contradiction|].
    destruct (N.eqb_spec (normalized_v sg) 28); [contradiction|reflexivity].
  - intros signer Hn Hrec Hne. rewrite registerSBOM_run, Hfresh_ts by assumption. simpl.
    assert (Hlen : length sg = 65%nat).
    { rewrite recoverSigner_run in Hrec.
      destruct (Nat.eqb_spec (length sg) 65); [assumption|discriminate]. }
    rewrite Hlen, Hrec. simpl.
    destruct (N.eqb_spec signer (msg_sender env)); [contradiction|reflexivity].
  - intros Hn Hrec [= Hver]. rewrite registerSBOM_run, Hfresh_ts by assumption. simpl.
    assert (Hlen : length sg = 65%nat).
    { rewrite recoverSigner_run in Hrec.
      destruct (Nat.eqb_spec (length sg) 65); [assumption|discriminate]. }
    rewrite Hlen, Hrec, N.eqb_refl, Hver. reflexivity.
  - intros Hn Hrec [= Hver].
    assert (Hlen : length sg = 65%nat).
    { rewrite recoverSigner_run in Hrec.
      destruct (Nat.eqb_spec (length sg) 65); [assumption|discriminate]. }
    assert (Hok : register_ok env h sg st) by (unfold register_ok; auto).
    exists (register_commit env h md sg st).
    split; [now apply registerSBOM_commits|].
    split; [unfold transact; simpl; now rewrite registerSBOM_commits|].
    destruct (inv_fresh st (reachable_Inv st Hreach) h Hn) as (Hhist & _).
    split; [now slots|]. split; [now slots|].
    split; [slots; now rewrite Hhist|].
    split; [|split; reflexivity].
    intros h0 Hne. now slots.
  - intros r st' Hrun.
    pose proof (registerSBOM_reverted _ _ _ _ _ _ _ Hrun) as ->.
    split; [reflexivity|]. split; [unfold transact; simpl; now rewrite Hrun|].
    rewrite registerSBOM_run, recoverSigner_run in Hrun.
    repeat match type of Hrun with
           | context [if ?b then _ else _] => destruct b; simpl in Hrun
           end; first [discriminate|injection Hrun as <-; auto 6].
Qed.

End Registration.

(** An instance of C2: the verified vendor registers version 11 from
    [st1]. *)
Lemma registerSBOM_spec_witness :
  @reachable toy st1 /\
  ~ registered st1 11 /\
  @recoverSigner toy 11 (toy_sign acme 11) = Ok (msg_sender acme_env) /\
  isVerifiedVendor (msg_sender acme_env) st1 = Ok true /\
  exists st',
    @registerSBOM toy acme_env 11 "v1.0" (toy_sign acme 11) st1 =
      Done tt st' [SBOMRegistered 11 acme 1001 "v1.0"] /\
    sbomRecords st' @ 11 = mkSBOMRecord 11 acme 1001 "v1.0" 0 (toy_sign acme 11) /\
    rootHash st' @ 11 = 11 /\
    versionHistory st' @ 11 = [11].
Proof.
  assert (Hn : ~ registered st1 11) by (unfold registered; vm_compute; congruence).
  assert (Hrec : @recoverSigner toy 11 (toy_sign acme 11) = Ok (msg_sender acme_env))
    by reflexivity.
  assert (Hver : isVerifiedVendor (msg_sender acme_env) st1 = Ok true) by reflexivity.
  split; [apply st1_reachable|]. split; [exact Hn|]. split; [exact Hrec|].
  split; [exact Hver|].
  destruct (@registerSBOM_spec toy st1 acme_env 11 "v1.0" (toy_sign acme 11) st1_reachable)
    as (_ & _ & _ & _ & _ & Hok & _).
  destruct (Hok Hn Hrec Hver) as (st' & Hrun & _ & Hr & Hroot & Hhist & _).
  exists st'. auto.
Defined.

(** * Version chains *)

Section Chains.

Context `{Primitives}.

(** C3. A successful [updateSBOM] of [old] to [new] from a reachable
    storage raises [getVersionCount] of the chain's root by one and appends
    [new] to the end of [getVersionHistory] of the root (the former history
    is kept as a prefix), where the root is [rootHash[old]]; the new record
    has [previousHash = old] and [rootHash[new]] is that root. *)
Theorem updateSBOM_extends_chain st env old new md sg st' log :
  reachable st ->
  updateSBOM env old new md sg st = Done tt st' log ->
  let root := rootHash st @ old in
  getRootHash old st = Ok root /\
  (exists n, getVersionCount root st = Ok n /\
             getVersionCount root st' = Ok (n + 1)) /\
  (exists l, getVersionHistory root st = Ok l /\
             getVersionHistory root st' = Ok (l ++ [new])) /\
  getVersionHistory old st' = getVersionHistory root st' /\
  getVersionHistory new st' = getVersionHistory root st' /\
  sbomRecords st' @ new =
    mkSBOMRecord new (msg_sender env) (block_timestamp env) md old sg /\
  previousHash (sbomRecords st' @ new) = old /\
  rootHash st' @ new = root /\
  getRootHash new st' = Ok root.
Proof.
  intros Hreach Hrun root. subst root.
  apply updateSBOM_done in Hrun as ((Hold & Hown & Hfresh & Hlen & Hrec) & -> & _).
  destruct (inv_root st (reachable_Inv st Hreach) old Hold) as (Hroot & Hrr).
  assert (Hrn : rootHash st @ old <> new) by (intros E; rewrite E in Hroot; contradiction).
  assert (Hon : old <> new) by (intros E; rewrite E in Hold; contradiction).
  unfold getRootHash, getVersionCount, getVersionHistory.
  split; [reflexivity|].
  split.
  { eexists. split; [reflexivity|]. slots. rewrite Hrr. slots.
    rewrite length_app. simpl. f_equal. lia. }
  split.
  { eexists. split; [reflexivity|]. slots. rewrite Hrr. now slots. }
  split; [slots; rewrite Hrr; now slots|].
  split; [slots; rewrite Hrr; now slots|].
  split; [now slots|]. split; [now slots|]. split; now slots.
Qed.

(** Root stability: the root of a registered hash never changes, no
    later transaction alters [rootHash[h]].  A record created by
    [registerSBOM] (which writes [previousHash = 0]) has [rootHash[h] = h]
    from then on, and a record created by [updateSBOM] has
    [rootHash[new] = rootHash[old]] from then on. *)
Theorem root_stable :
  (forall st h st', registered st h -> steps st st' ->
     rootHash st' @ h = rootHash st @ h /\ getRootHash h st' = getRootHash h st) /\
  (forall st env h md sg st1 log st',
     0 < block_timestamp env ->
     registerSBOM env h md sg st = Done tt st1 log -> steps st1 st' ->
     previousHash (sbomRecords st' @ h) = 0 /\ rootHash st' @ h = h) /\
  (forall st env old new md sg st1 log st',
     0 < block_timestamp env ->
     updateSBOM env old new md sg st = Done tt st1 log -> steps st1 st' ->
     previousHash (sbomRecords st' @ new) = old /\
     rootHash st' @ new = rootHash st' @ old /\
     rootHash st' @ old = rootHash st @ old).
Proof.
  split; [|split].
  - intros st h st' Hreg Hsteps.
    destruct (steps_keep st st' h Hsteps Hreg) as (_ & _ & Hroot).
    unfold getRootHash. now rewrite Hroot.
  - intros st env h md sg st1 log st' Hts Hrun Hsteps.
    apply registerSBOM_done in Hrun as (_ & -> & _).
    pose proof (register_commit_registered env h md sg st Hts) as Hreg.
    destruct (steps_keep _ st' h Hsteps Hreg) as (_ & -> & ->). now slots.
  - intros st env old new md sg st1 log st' Hts Hrun Hsteps.
    apply updateSBOM_done in Hrun as ((Hold & _ & Hfresh & _) & -> & _).
    assert (Hon : old <> new) by (intros E; rewrite E in Hold; contradiction).
    pose proof (update_commit_registered env old new md sg st Hts) as Hreg.
    assert (Hreg_old : registered (update_commit env old new md sg st) old).
    { unfold registered. now slots. }
    destruct (steps_keep _ st' new Hsteps Hreg) as (_ & -> & ->).
    destruct (steps_keep _ st' old Hsteps Hreg_old) as (_ & _ & ->).
    now slots.
Qed.

(** While the all-zero hash has no record, the records with
    [previousHash = 0] are exactly the chain roots. *)
Lemma zero_previous_is_root st h :
  reachable st -> ~ registered st 0 -> registered st h ->
  previousHash (sbomRecords st @ h) = 0 -> rootHash st @ h = h.
Proof.
  intros Hreach Hz Hreg Hprev.
  destruct (inv_link st (reachable_Inv st Hreach) h Hreg) as [(_ & Hr)|(Hp & _)].
  - assumption.
  - rewrite Hprev in Hp. contradiction.
Qed.

(** [updateSBOM] never reads the [vendors] mapping. *)
Lemma updateSBOM_vendors_irrelevant env old new md sg f st :
  updateSBOM env old new md sg (set_vendors f st) =
  match updateSBOM env old new md sg st with
  | Done a st' log => Done a (set_vendors f st') log
  | Reverted r st' => Reverted r (set_vendors f st')
  end.
Proof.
  rewrite !updateSBOM_run. simpl.
  repeat match goal with
         | |- context [if ?b then _ else _] => destruct b; simpl
         | |- context [match ?x with Ok _ => _ | Err _ => _ end] => destruct x; simpl
         end; reflexivity.
Qed.

(** C5. [updateSBOM] does not consult the sender's verified flag: when the
    old hash is registered to the sender, the new hash is free and the
    signature over the new hash is well formed and recovers to the sender,
    the update commits whatever [isVerifiedVendor] says, in particular when
    it says [false]; and its outcome is the same for every content of the
    [vendors] mapping. *)
Theorem updateSBOM_ignores_verified st env old new md sg b :
  registered st old ->
  vendor (sbomRecords st @ old) = msg_sender env ->
  ~ registered st new ->
  length sg = 65%nat ->
  recoverSigner new sg = Ok (msg_sender env) ->
  isVerifiedVendor (msg_sender env) st = Ok b ->
  updateSBOM env old new md sg st =
    Done tt (update_commit env old new md sg st)
      [SBOMUpdated old new (msg_sender env) (block_timestamp env)] /\
  transact env (UpdateSBOM old new md sg) st = update_commit env old new md sg st /\
  (forall f, updateSBOM env old new md sg (set_vendors f st) =
     Done tt (set_vendors f (update_commit env old new md sg st))
       [SBOMUpdated old new (msg_sender env) (block_timestamp env)]).
Proof.
  intros Hold Hown Hfresh Hlen Hrec _.
  assert (Hok : update_ok env old new sg st) by (unfold update_ok; auto).
  pose proof (updateSBOM_commits env old new md sg st Hok) as Hrun.
  split; [assumption|]. split.
  - unfold transact. simpl. now rewrite Hrun.
  - intros f. now rewrite updateSBOM_vendors_irrelevant, Hrun.
Qed.

(** C6. For a registered old hash, [updateSBOM] by anyone other than the
    vendor stored in the old record reverts with "Only original vendor can
    update", whatever the signature argument is: the ownership check runs
    before any check of the signature. *)
Theorem updateSBOM_owner_first st env old new md sg :
  registered st old ->
  vendor (sbomRecords st @ old) <> msg_sender env ->
  updateSBOM env old new md sg st = Reverted OnlyOriginalVendor st /\
  NotOriginalPublisher OnlyOriginalVendor /\
  transact env (UpdateSBOM old new md sg) st = st.
Proof.
  intros Hold Hown.
  assert (Hrun : updateSBOM env old new md sg st = Reverted OnlyOriginalVendor st).
  { rewrite updateSBOM_run. unfold registered in Hold.
    destruct (N.eqb_spec (timestamp (sbomRecords st @ old)) 0); [contradiction|].
    destruct (N.eqb_spec (vendor (sbomRecords st @ old)) (msg_sender env));
      [contradiction|reflexivity]. }
  split; [assumption|]. split; [reflexivity|].
  unfold transact. simpl. now rewrite Hrun.
Qed.

(** C10. [updateSBOM] does not ask that the old hash be the latest of its
    chain.  From a reachable storage, for any registered old hash owned by
    the sender, a fresh new hash and a valid signature, the update commits
    and appends the new hash at the end of [versionHistory] of the old
    hash's root; if some record already had the old hash as its
    [previousHash], that record and the new one then share it, while the
    root's history stays one list in commit order. *)
Theorem updateSBOM_from_any_version st env old new md sg :
  reachable st ->
  0 < block_timestamp env ->
  registered st old ->
  vendor (sbomRecords st @ old) = msg_sender env ->
  ~ registered st new ->
  length sg = 65%nat ->
  recoverSigner new sg = Ok (msg_sender env) ->
  exists st',
    updateSBOM env old new md sg st =
      Done tt st' [SBOMUpdated old new (msg_sender env) (block_timestamp env)] /\
    versionHistory st' @ (rootHash st @ old) =
      versionHistory st @ (rootHash st @ old) ++ [new] /\
    getVersionHistory (rootHash st @ old) st' =
      Ok (versionHistory st @ (rootHash st @ old) ++ [new]) /\
    getVersionHistory (rootHash st @ old) st =
      Ok (versionHistory st @ (rootHash st @ old)) /\
    previousHash (sbomRecords st' @ new) = old /\
    (forall succ, registered st succ ->
       previousHash (sbomRecords st @ succ) = old ->
       succ <> new /\ registered st' succ /\ registered st' new /\
       previousHash (sbomRecords st' @ succ) = old).
Proof.
  intros Hreach Hts Hold Hown Hfresh Hlen Hrec.
  assert (Hok : update_ok env old new sg st) by (unfold update_ok; auto).
  exists (update_commit env old new md sg st).
  split; [now apply updateSBOM_commits|].
  destruct (inv_root st (reachable_Inv st Hreach) old Hold) as (Hroot & Hrr).
  assert (Hrn : rootHash st @ old <> new) by (intros E; rewrite E in Hroot; contradiction).
  unfold getVersionHistory.
  split; [now slots|]. split; [slots; rewrite Hrr; now slots|].
  split; [now rewrite Hrr|]. split; [now slots|].
  intros succ Hsucc Hprev.
  assert (Hsn : succ <> new) by (intros E; rewrite E in Hsucc; contradiction).
  split; [assumption|].
  split; [unfold registered; now slots|].
  split; [now apply update_commit_registered|now slots].
Qed.

End Chains.

(** * Queries *)

Section Queries.

Context `{Primitives}.

Lemma verifySignature_registered st h :
  reachable st -> registered st h ->
  verifySignature h st = Ok (true, vendor (sbomRecords st @ h)).
Proof.
  intros Hreach Hreg.
  destruct (inv_sig st (reachable_Inv st Hreach) h Hreg) as (_ & _ & Hrec).
  unfold verifySignature. unfold registered in Hreg.
  destruct (N.eqb_spec (timestamp (sbomRecords st @ h)) 0); [contradiction|].
  rewrite Hrec. simpl. now rewrite N.eqb_refl.
Qed.

Lemma verifyCompleteSBOM_registered st h :
  reachable st -> registered st h ->
  verifyCompleteSBOM h st =
  Ok (true, true,
      verified (vendors st @ vendor (sbomRecords st @ h)),
      name (vendors st @ vendor (sbomRecords st @ h))).
Proof.
  intros Hreach Hreg. unfold verifyCompleteSBOM.
  rewrite verifySignature_registered by assumption.
  unfold registered in Hreg.
  destruct (N.eqb_spec (timestamp (sbomRecords st @ h)) 0); [contradiction|reflexivity].
Qed.

Lemma queries_of_unregistered st h :
  ~ registered st h ->
  verifySBOM h st = Ok (false, sbomRecords st @ h) /\
  verifySignature h st = Ok (false, 0) /\
  verifyCompleteSBOM h st = Ok (false, false, false, EmptyString).
Proof.
  intros Hn. unfold verifySBOM, verifySignature, verifyCompleteSBOM, registered in *.
  destruct (N.eqb_spec (timestamp (sbomRecords st @ h)) 0); [auto|contradiction].
Qed.

(** In a reachable storage no query reverts, whatever hash it is given. *)
Lemma queries_never_revert st h :
  reachable st ->
  (exists r, verifySBOM h st = Ok r) /\
  (exists r, verifySignature h st = Ok r) /\
  (exists r, verifyCompleteSBOM h st = Ok r) /\
  (exists r, getVersionHistory h st = Ok r) /\
  (exists r, getVersionCount h st = Ok r) /\
  (exists r, getRootHash h st = Ok r).
Proof.
  intros Hreach.
  split; [eexists; reflexivity|].
  assert (Hdec : registered st h \/ ~ registered st h).
  { unfold registered. destruct (N.eq_dec (timestamp (sbomRecords st @ h)) 0); auto. }
  destruct Hdec as [Hreg|Hn].
  - rewrite verifySignature_registered, verifyCompleteSBOM_registered by assumption.
    repeat split; eexists; reflexivity.
  - destruct (queries_of_unregistered st h Hn) as (_ & -> & ->).
    repeat split; eexists; reflexivity.
Qed.

(** While the all-zero hash has no record, the history queries of an
    unregistered hash are empty. *)
Lemma history_of_unregistered st h :
  reachable st -> ~ registered st 0 -> ~ registered st h ->
  getRootHash h st = Ok 0 /\
  getVersionHistory h st = Ok [] /\
  getVersionCount h st = Ok 0 /\
  sbomRecords st @ h = zero.
Proof.
  intros Hreach Hz Hn.
  destruct (inv_fresh st (reachable_Inv st Hreach) h Hn) as (_ & Hroot & Hrec).
  destruct (inv_fresh st (reachable_Inv st Hreach) 0 Hz) as (Hhist & _).
  unfold getRootHash, getVersionHistory, getVersionCount.
  rewrite Hroot, Hhist. auto.
Qed.

(** C8. Revoking a vendor leaves its records as they were: after a
    successful [revokeVendor] of [P], every hash registered by [P] before
    still verifies as existing and validly signed, and
    [verifyCompleteSBOM] still returns [P]'s name; only the
    vendor-verified component turns from [true] to [false]. *)
Theorem revoke_keeps_records st env P st' log h :
  reachable st ->
  revokeVendor env P st = Done tt st' log ->
  registered st h ->
  vendor (sbomRecords st @ h) = P ->
  verifyCompleteSBOM h st = Ok (true, true, true, name (vendors st @ P)) /\
  verifyCompleteSBOM h st' = Ok (true, true, false, name (vendors st @ P)) /\
  verifySBOM h st' = verifySBOM h st /\
  verifySignature h st' = Ok (true, P) /\
  getVersionHistory h st' = getVersionHistory h st /\
  isVerifiedVendor P st' = Ok false /\
  transact env (RevokeVendor P) st = st'.
Proof.
  intros Hreach Hrun Hreg Hvendor.
  assert (Htx : transact env (RevokeVendor P) st = st')
    by (unfold transact; simpl; now rewrite Hrun).
  rewrite revokeVendor_run in Hrun.
  destruct (msg_sender env =? registryOwner st); simpl in Hrun; [|discriminate].
  destruct (verified (vendors st @ P)) eqn:Hver; simpl in Hrun; [|discriminate].
  injection Hrun as <- _.
  pose proof (verifySignature_registered st h Hreach Hreg) as Hsig.
  pose proof (verifyCompleteSBOM_registered st h Hreach Hreg) as Hall.
  rewrite Hvendor in Hsig, Hall. rewrite Hver in Hall.
  split; [assumption|].
  unfold verifyCompleteSBOM, verifySBOM, getVersionHistory, isVerifiedVendor in *.
  unfold verifySignature in *. simpl.
  unfold registered in Hreg.
  destruct (N.eqb_spec (timestamp (sbomRecords st @ h)) 0); [contradiction|]. simpl in *.
  destruct (recoverSigner h (signature (sbomRecords st @ h))) as [signer|r];
    simpl in *; [|discriminate].
  injection Hsig as Hvalid Hsigner. rewrite Hvalid, Hsigner, Hvendor.
  slots. auto 10.
Qed.

End Queries.

(** * The running example *)

Lemma st3_registered_11 : registered st3 11.
Proof. unfold registered. vm_compute. discriminate. Qed.

Lemma st3_registered_12 : registered st3 12.
Proof. unfold registered. vm_compute. discriminate. Qed.

Lemma st2_steps_st4 : @steps toy st2 st4.
Proof.
  unfold st4, st3.
  apply steps_call; [apply steps_call; [apply steps_refl|reflexivity]|reflexivity].
Qed.

(** An instance of C3: the update of version 11 to 12 takes the chain of
    root 11 from one version to two. *)
Lemma updateSBOM_extends_chain_witness :
  @reachable toy st2 /\
  @updateSBOM toy acme_env 11 12 "v2.0" (toy_sign acme 12) st2 =
    Done tt st3 [SBOMUpdated 11 12 acme 1001] /\
  getVersionCount 11 st2 = Ok 1 /\
  getVersionCount 11 st3 = Ok 2 /\
  getVersionHistory 11 st3 = Ok [11; 12] /\
  previousHash (sbomRecords st3 @ 12) = 11 /\
  rootHash st3 @ 12 = 11.
Proof.
  assert (Hrun : @updateSBOM toy acme_env 11 12 "v2.0" (toy_sign acme 12) st2 =
                 Done tt st3 [SBOMUpdated 11 12 acme 1001]) by (vm_compute; reflexivity).
  split; [apply st2_reachable|]. split; [exact Hrun|].
  destruct (@updateSBOM_extends_chain toy _ _ _ _ _ _ _ _ st2_reachable Hrun)
    as (_ & (n & Hn & Hn') & (l & Hl & Hl') & _ & _ & _ & Hprev & Hroot & _).
  assert (n = 1) as -> by (vm_compute in Hn; congruence).
  assert (l = [11]) as -> by (vm_compute in Hl; congruence).
  split; [exact Hn|]. split; [exact Hn'|]. split; [exact Hl'|].
  split; [exact Hprev|exact Hroot].
Defined.

(** The scenario: the root of version 11 is the same two transactions
    later; version 11, created by registration, is its own root; version
    12, created by update, has the root of version 11. *)
Lemma root_stable_witness :
  (registered st2 11 /\ @steps toy st2 st4 /\ rootHash st4 @ 11 = rootHash st2 @ 11) /\
  (previousHash (sbomRecords st4 @ 11) = 0 /\ rootHash st4 @ 11 = 11) /\
  (previousHash (sbomRecords st4 @ 12) = 11 /\ rootHash st4 @ 12 = rootHash st4 @ 11).
Proof.
  destruct (@root_stable toy) as (Hstable & Hreg & Hupd).
  split; [|split].
  - split; [apply st2_registered_11|]. split; [apply st2_steps_st4|].
    apply (Hstable st2 11 st4 st2_registered_11 st2_steps_st4).
  - apply (Hreg st1 acme_env 11 "v1.0"%string (toy_sign acme 11) st2
             [SBOMRegistered 11 acme 1001 "v1.0"] st4).
    + reflexivity.
    + vm_compute. reflexivity.
    + apply st2_steps_st4.
  - destruct (Hupd st2 acme_env 11 12 "v2.0"%string (toy_sign acme 12) st3
                [SBOMUpdated 11 12 acme 1001] st4) as (Hp & Hr & _).
    + reflexivity.
    + vm_compute. reflexivity.
    + unfold st4. apply steps_call; [apply steps_refl|reflexivity].
    + auto.
Defined.

(** An instance of C5: after its revocation in [st4] the vendor, no longer
    verified, still extends its chain from version 12 to version 14. *)
Lemma updateSBOM_ignores_verified_witness :
  isVerifiedVendor (msg_sender acme_env) st4 = Ok false /\
  registered st4 12 /\
  vendor (sbomRecords st4 @ 12) = msg_sender acme_env /\
  ~ registered st4 14 /\
  length (toy_sign acme 14) = 65%nat /\
  @recoverSigner toy 14 (toy_sign acme 14) = Ok (msg_sender acme_env) /\
  @updateSBOM toy acme_env 12 14 "v3.0" (toy_sign acme 14) st4 =
    Done tt (update_commit acme_env 12 14 "v3.0" (toy_sign acme 14) st4)
      [SBOMUpdated 12 14 acme 1001].
Proof.
  assert (Hver : isVerifiedVendor (msg_sender acme_env) st4 = Ok false) by reflexivity.
  assert (Hold : registered st4 12) by (unfold registered; vm_compute; discriminate).
  assert (Hown : vendor (sbomRecords st4 @ 12) = msg_sender acme_env) by reflexivity.
  assert (Hfresh : ~ registered st4 14) by (unfold registered; vm_compute; congruence).
  assert (Hlen : length (toy_sign acme 14) = 65%nat) by reflexivity.
  assert (Hrec : @recoverSigner toy 14 (toy_sign acme 14) = Ok (msg_sender acme_env))
    by reflexivity.
  repeat (split; [assumption|]).
  exact (proj1 (@updateSBOM_ignores_verified toy st4 acme_env 12 14 "v3.0"
                  (toy_sign acme 14) false Hold Hown Hfresh Hlen Hrec Hver)).
Defined.

(** An instance of C6: another account presents a signature of its own
    over the new hash, valid in every respect, and is still turned away as
    not the original vendor. *)
Lemma updateSBOM_owner_first_witness :
  registered st2 11 /\
  vendor (sbomRecords st2 @ 11) <> msg_sender mallory_env /\
  length (toy_sign mallory 13) = 65%nat /\
  @recoverSigner toy 13 (toy_sign mallory 13) = Ok (msg_sender mallory_env) /\
  @updateSBOM toy mallory_env 11 13 "v6.6" (toy_sign mallory 13) st2 =
    Reverted OnlyOriginalVendor st2.
Proof.
  assert (Hown : vendor (sbomRecords st2 @ 11) <> msg_sender mallory_env)
    by (vm_compute; discriminate).
  split; [apply st2_registered_11|]. split; [exact Hown|].
  split; [reflexivity|]. split; [reflexivity|].
  exact (proj1 (@updateSBOM_owner_first toy st2 mallory_env 11 13 "v6.6"
                  (toy_sign mallory 13) st2_registered_11 Hown)).
Defined.

(** An instance of C10: version 11 already has the successor 12; updating
    11 again, to 13, commits, the history of root 11 becomes [11; 12; 13],
    and versions 12 and 13 both name 11 as their previous hash. *)
Lemma updateSBOM_from_any_version_witness :
  @reachable toy st3 /\
  registered st3 11 /\
  registered st3 12 /\ previousHash (sbomRecords st3 @ 12) = 11 /\
  ~ registered st3 13 /\
  @updateSBOM toy acme_env 11 13 "v2.0-hotfix" (toy_sign acme 13) st3 =
    Done tt st3_fork [SBOMUpdated 11 13 acme 1001] /\
  getVersionHistory 11 st3_fork = Ok [11; 12; 13] /\
  previousHash (sbomRecords st3_fork @ 12) = 11 /\
  previousHash (sbomRecords st3_fork @ 13) = 11.
Proof.
  assert (Hfresh : ~ registered st3 13) by (unfold registered; vm_compute; congruence).
  assert (Hprev : previousHash (sbomRecords st3 @ 12) = 11) by reflexivity.
  split; [apply st3_reachable|]. split; [apply st3_registered_11|].
  split; [apply st3_registered_12|]. split; [exact Hprev|]. split; [exact Hfresh|].
  destruct (@updateSBOM_from_any_version toy st3 acme_env 11 13 "v2.0-hotfix"
              (toy_sign acme 13) st3_reachable)
    as (st' & Hrun & _ & Hhist & _ & Hp13 & Hsucc); try reflexivity;
    try assumption; try apply st3_registered_11.
  assert (Hrun' : @updateSBOM toy acme_env 11 13 "v2.0-hotfix" (toy_sign acme 13) st3 =
                  Done tt st3_fork [SBOMUpdated 11 13 acme 1001])
    by (vm_compute; reflexivity).
  assert (st' = st3_fork) as -> by congruence.
  destruct (Hsucc 12 st3_registered_12 Hprev) as (_ & _ & _ & Hp12).
  split; [exact Hrun'|]. split; [exact Hhist|]. split; [exact Hp12|exact Hp13].
Defined.

(** An instance of C8: after the revocation in [st4], version 11 verifies
    as (exists, signature valid, vendor not verified, "Acme"). *)
Lemma revoke_keeps_records_witness :
  @reachable toy st3 /\
  revokeVendor admin_env acme st3 = Done tt st4 [VendorRevoked acme 1000] /\
  registered st3 11 /\
  vendor (sbomRecords st3 @ 11) = acme /\
  @verifyCompleteSBOM toy 11 st3 = Ok (true, true, true, "Acme"%string) /\
  @verifyCompleteSBOM toy 11 st4 = Ok (true, true, false, "Acme"%string).
Proof.
  assert (Hrun : revokeVendor admin_env acme st3 = Done tt st4 [VendorRevoked acme 1000])
    by (vm_compute; reflexivity).
  assert (Hv : vendor (sbomRecords st3 @ 11) = acme) by reflexivity.
  split; [apply st3_reachable|]. split; [exact Hrun|].
  split; [apply st3_registered_11|]. split; [exact Hv|].
  destruct (@revoke_keeps_records toy st3 admin_env acme st4 _ 11
              st3_reachable Hrun st3_registered_11 Hv) as (Hbefore & Hafter & _).
  split; [exact Hbefore|exact Hafter].
Defined.

(** C7 (what the code does).  Once a verified vendor has registered the
    all-zero hash, the history queries of a hash that has no record are not
    empty: [rootHash] of the unregistered hash reads as zero, and the
    queries return the chain of the zero hash. *)
Theorem history_of_unregistered_after_zero_hash :
  @reachable toy st_zero /\
  ~ registered st_zero 55 /\
  verifySBOM 55 st_zero = Ok (false, zero) /\
  @verifySignature toy 55 st_zero = Ok (false, 0) /\
  @verifyCompleteSBOM toy 55 st_zero = Ok (false, false, false, EmptyString) /\
  getRootHash 55 st_zero = Ok 0 /\
  getVersionHistory 55 st_zero = Ok [0] /\
  getVersionCount 55 st_zero = Ok 1.
Proof.
  split; [apply st_zero_reachable|].
  split; [unfold registered; vm_compute; congruence|].
  repeat split; vm_compute; reflexivity.
Qed.

Lemma st_zero_next_reachable : @reachable toy st_zero_next.
Proof. apply reach_call; [apply st_zero_reachable|reflexivity]. Qed.

(** C4 (what the code does).  The contract uses the all-zero hash both as
    a hash one may register and as the [previousHash] of a first version.
    Once a verified vendor has registered it and updated it to version 5,
    that update has committed, version 5 is a registered record whose
    [previousHash] is zero, and its root is the zero hash, not itself:
    a record with a null [previousHash] that is not its own root.  The
    root it was given is that of the hash it was made from, and stays. *)
Theorem null_previous_not_own_root :
  @reachable toy st_zero /\
  @updateSBOM toy acme_env 0 5 "v1" (toy_sign acme 5) st_zero =
    Done tt st_zero_next [SBOMUpdated 0 5 acme 1001] /\
  @reachable toy st_zero_next /\
  verifySBOM 5 st_zero_next =
    Ok (true, mkSBOMRecord 5 acme 1001 "v1" 0 (toy_sign acme 5)) /\
  previousHash (sbomRecords st_zero_next @ 5) = 0 /\
  getRootHash 5 st_zero_next = Ok 0 /\
  rootHash st_zero_next @ 5 <> 5 /\
  rootHash st_zero_next @ 5 = rootHash st_zero_next @ 0 /\
  getVersionHistory 5 st_zero_next = Ok [0; 5].
Proof.
  split; [apply st_zero_reachable|].
  split; [vm_compute; reflexivity|].
  split; [apply st_zero_next_reachable|].
  split; [vm_compute; reflexivity|].
  split; [vm_compute; reflexivity|].
  split; [vm_compute; reflexivity|].
  split; [vm_compute; discriminate|].
  split; vm_compute; reflexivity.
Qed.

(** * The vendor registry *)

Section VendorRegistry.

Context `{Primitives}.

Lemma name_nonempty (n : string) : (0 <? String.length n)%nat = true <-> n <> EmptyString.
Proof.
  destruct n as [|c n]; simpl.
  - split; [discriminate|congruence].
  - split; [discriminate|reflexivity].
Qed.

Lemma registerVendor_done env v n w e st a st' log :
  registerVendor env v n w e st = Done a st' log ->
  registerVendor_ok env v n st /\ st' = registerVendor_commit env v n w e st /\
  log = [VendorRegistered v n (block_timestamp env)].
Proof.
  rewrite registerVendor_run.
  destruct (N.eqb_spec (msg_sender env) (registryOwner st)); simpl; [|discriminate].
  destruct (N.eqb_spec v 0); simpl; [discriminate|].
  destruct (verified (vendors st @ v)) eqn:Hver; simpl; [discriminate|].
  destruct (0 <? String.length n)%nat eqn:Hn; simpl; [|discriminate].
  intros [= _ <- <-]. apply name_nonempty in Hn.
  unfold registerVendor_ok. auto.
Qed.

Lemma registerVendor_commits env v n w e st :
  registerVendor_ok env v n st ->
  registerVendor env v n w e st =
  Done tt (registerVendor_commit env v n w e st) [VendorRegistered v n (block_timestamp env)].
Proof.
  intros (Hown & Hv & Hver & Hn). rewrite registerVendor_run.
  rewrite Hown, N.eqb_refl, Hver. simpl.
  destruct (N.eqb_spec v 0); [contradiction|].
  apply name_nonempty in Hn. rewrite Hn. reflexivity.
Qed.

Lemma revokeVendor_done env v st a st' log :
  revokeVendor env v st = Done a st' log ->
  revokeVendor_ok env v st /\ st' = revokeVendor_commit v st /\
  log = [VendorRevoked v (block_timestamp env)].
Proof.
  rewrite revokeVendor_run.
  destruct (N.eqb_spec (msg_sender env) (registryOwner st)); simpl; [|discriminate].
  destruct (verified (vendors st @ v)) eqn:Hver; simpl; [|discriminate].
  intros [= _ <- <-]. unfold revokeVendor_ok. auto.
Qed.

Lemma revokeVendor_commits env v st :
  revokeVendor_ok env v st ->
  revokeVendor env v st =
  Done tt (revokeVendor_commit v st) [VendorRevoked v (block_timestamp env)].
Proof.
  intros (Hown & Hver). rewrite revokeVendor_run.
  rewrite Hown, N.eqb_refl, Hver. reflexivity.
Qed.

Lemma transferOwnership_done env o st a st' log :
  transferOwnership env o st = Done a st' log ->
  transferOwnership_ok env o st /\ st' = set_registryOwner o st /\ log = [].
Proof.
  rewrite transferOwnership_run.
  destruct (N.eqb_spec (msg_sender env) (registryOwner st)); simpl; [|discriminate].
  destruct (N.eqb_spec o 0); simpl; [discriminate|].
  intros [= _ <- <-]. unfold transferOwnership_ok. auto.
Qed.

Lemma transferOwnership_commits env o st :
  transferOwnership_ok env o st ->
  transferOwnership env o st = Done tt (set_registryOwner o st) [].
Proof.
  intros (Hown & Ho). rewrite transferOwnership_run.
  rewrite Hown, N.eqb_refl. simpl.
  destruct (N.eqb_spec o 0); [contradiction|reflexivity].
Qed.

(** Every transaction is a no-op or one of the five commits. *)
Lemma transact_effect env c st :
  transact env c st = st \/
  (exists v n w e, c = RegisterVendor v n w e /\ registerVendor_ok env v n st /\
     transact env c st = registerVendor_commit env v n w e st) \/
  (exists v, c = RevokeVendor v /\ revokeVendor_ok env v st /\
     transact env c st = revokeVendor_commit v st) \/
  (exists o, c = TransferOwnership o /\ transferOwnership_ok env o st /\
     transact env c st = set_registryOwner o st) \/
  (exists h md sg, c = RegisterSBOM h md sg /\ register_ok env h sg st /\
     transact env c st = register_commit env h md sg st) \/
  (exists old new md sg, c = UpdateSBOM old new md sg /\ update_ok env old new sg st /\
     transact env c st = update_commit env old new md sg st).
Proof.
  unfold transact. destruct c as [v n w e|v|o|h md sg|old new md sg]; simpl.
  - destruct (registerVendor env v n w e st) as [a st' log|r st'] eqn:Hrun; [|auto].
    apply registerVendor_done in Hrun as (Hok & -> & _).
    right; left. exists v, n, w, e. auto.
  - destruct (revokeVendor env v st) as [a st' log|r st'] eqn:Hrun; [|auto].
    apply revokeVendor_done in Hrun as (Hok & -> & _).
    right; right; left. exists v. auto.
  - destruct (transferOwnership env o st) as [a st' log|r st'] eqn:Hrun; [|auto].
    apply transferOwnership_done in Hrun as (Hok & -> & _).
    right; right; right; left. exists o. auto.
  - destruct (registerSBOM env h md sg st) as [a st' log|r st'] eqn:Hrun; [|auto].
    apply registerSBOM_done in Hrun as (Hok & -> & _).
    right; right; right; right; left. exists h, md, sg. auto.
  - destruct (updateSBOM env old new md sg st) as [a st' log|r st'] eqn:Hrun; [|auto].
    apply updateSBOM_done in Hrun as (Hok & -> & _).
    do 5 right. exists old, new, md, sg. auto.
Qed.

End VendorRegistry.

(** * The vendor table and the version index of reachable storage *)

Section MoreInvariants.

Context `{Primitives}.

Lemma VendorInv_constructor env : VendorInv (constructor env).
Proof.
  split; unfold known, registered; simpl; intros a; rewrite ?mapping_get_empty; simpl.
  - discriminate.
  - intros []. reflexivity.
  - reflexivity.
  - intros []. reflexivity.
Qed.

Lemma VendorInv_transact env c st :
  0 < block_timestamp env -> VendorInv st -> VendorInv (transact env c st).
Proof.
  intros Hts [Iver Iknown Iunknown Irecord].
  destruct (transact_effect env c st)
    as [->|[(v & n & w & e & -> & Hok & ->)|[(v & -> & Hok & ->)|[(o & -> & Hok & ->)|
        [(h & md & sg & -> & Hok & ->)|(old & new & md & sg & -> & Hok & ->)]]]]].
  - split; assumption.
  - destruct Hok as (_ & Hv & _ & Hn).
    assert (Hk : forall a, known st a -> known (registerVendor_commit env v n w e st) a).
    { intros a Ha. unfold known in *. destruct (decide (v = a)) as [->|Hne]; now slots. }
    split; unfold known in *.
    + intros a. destruct (decide (v = a)) as [->|Hne]; slots; auto.
    + intros a. destruct (decide (v = a)) as [->|Hne]; slots; [split; [assumption|lia]|auto].
    + intros a. destruct (decide (v = a)) as [->|Hne]; slots; [contradiction|auto].
    + intros h Hreg. apply Hk. apply Irecord. exact Hreg.
  - destruct Hok as (_ & Hver).
    pose proof (Iver v Hver) as Hkv.
    split; unfold known in *.
    + intros a. destruct (decide (v = a)) as [->|Hne]; slots; [discriminate|auto].
    + intros a. destruct (decide (v = a)) as [->|Hne]; slots; auto.
    + intros a. destruct (decide (v = a)) as [->|Hne]; slots; [contradiction|auto].
    + intros h Hreg. simpl in *.
      destruct (decide (v = vendor (sbomRecords st @ h))) as [E|Hne].
      * rewrite <- E. now slots.
      * slots. apply Irecord. exact Hreg.
  - split; assumption.
  - destruct Hok as (Hfresh & _ & _ & Hver).
    split; try assumption.
    intros h0. destruct (decide (h = h0)) as [->|Hne]; unfold registered, known; slots.
    + intros _. apply Iver. exact Hver.
    + apply Irecord.
  - destruct Hok as (Hold & Hown & Hfresh & _).
    split; try assumption.
    intros h0. destruct (decide (new = h0)) as [->|Hne]; unfold registered, known; slots.
    + intros _. rewrite <- Hown. apply Irecord. exact Hold.
    + apply Irecord.
Qed.

Lemma reachable_VendorInv st : reachable st -> VendorInv st.
Proof.
  induction 1 as [env|env c st Hreach IH Hts].
  - apply VendorInv_constructor.
  - now apply VendorInv_transact.
Qed.

Lemma ChainInv_constructor env : ChainInv (constructor env).
Proof.
  split; unfold registered; simpl; intros; rewrite ?mapping_get_empty in *; simpl in *.
  - contradiction.
  - match goal with Hx : _ ∈ _ |- _ => unfold zero, list_zero in Hx; inversion Hx end.
  - constructor.
  - contradiction.
  - contradiction.
  - contradiction.
Qed.

Lemma ChainInv_register_commit env h md sg st :
  0 < block_timestamp env -> register_ok env h sg st -> Inv st -> ChainInv st ->
  ChainInv (register_commit env h md sg st).
Proof.
  intros Hts (Hfresh & _) HI [Cmem Csound Cnodup Chead Cowner Cprev].
  destruct (inv_fresh st HI h Hfresh) as (Hempty & _).
  assert (Hnew : forall h0, h <> h0 ->
            registered (register_commit env h md sg st) h0 <-> registered st h0).
  { intros h0 Hne. unfold registered. now slots. }
  assert (Hroot : forall h0, registered st h0 -> h <> rootHash st @ h0).
  { intros h0 Hh0 E. destruct (inv_root st HI h0 Hh0) as (Hr & _).
    rewrite <- E in Hr. contradiction. }
  split.
  - intros h0 Hh0. destruct (decide (h = h0)) as [<-|Hne].
    + slots. rewrite Hempty. simpl. apply list_elem_of_singleton. reflexivity.
    + apply Hnew in Hh0; [|assumption]. pose proof (Hroot h0 Hh0). slots. auto.
  - intros r x. destruct (decide (h = r)) as [<-|Hne]; slots.
    + rewrite Hempty. simpl. intros ->%list_elem_of_singleton.
      split; [now apply register_commit_registered|now slots].
    + intros Hx. destruct (Csound r x Hx) as (Hrx & Hxr).
      assert (h <> x) by (intros ->; contradiction).
      split; [now apply Hnew|now slots].
  - intros r. destruct (decide (h = r)) as [<-|Hne]; slots; [|auto].
    rewrite Hempty. simpl. apply NoDup_singleton.
  - intros h0 Hh0. destruct (decide (h = h0)) as [<-|Hne].
    + slots. now rewrite Hempty.
    + apply Hnew in Hh0; [|assumption]. pose proof (Hroot h0 Hh0). slots. auto.
  - intros h0 Hh0. destruct (decide (h = h0)) as [<-|Hne].
    + now slots.
    + apply Hnew in Hh0; [|assumption]. pose proof (Hroot h0 Hh0). slots. auto.
  - intros h0 Hh0. destruct (decide (h = h0)) as [<-|Hne].
    + slots. congruence.
    + apply Hnew in Hh0; [|assumption]. pose proof (Hroot h0 Hh0). slots. auto.
Qed.

Lemma ChainInv_update_commit env old new md sg st :
  0 < block_timestamp env -> update_ok env old new sg st -> Inv st -> ChainInv st ->
  ChainInv (update_commit env old new md sg st).
Proof.
  intros Hts (Hold & Hown & Hfresh & _) HI [Cmem Csound Cnodup Chead Cowner Cprev].
  destruct (inv_root st HI old Hold) as (Hroot & Hrr).
  set (root := rootHash st @ old) in *.
  assert (Hrn : new <> root) by (intros E; rewrite <- E in Hroot; contradiction).
  assert (Hon : new <> old) by (intros E; rewrite <- E in Hold; contradiction).
  assert (Hnew : forall h0, new <> h0 ->
            registered (update_commit env old new md sg st) h0 <-> registered st h0).
  { intros h0 Hne. unfold registered. now slots. }
  assert (Hnr : forall h0, registered st h0 -> new <> rootHash st @ h0).
  { intros h0 Hh0 E. destruct (inv_root st HI h0 Hh0) as (Hr & _).
    rewrite <- E in Hr. contradiction. }
  assert (Hnotin : new ∉ versionHistory st @ root).
  { intros Hin. destruct (Csound root new Hin) as (Hr & _). contradiction. }
  assert (Hvh : forall r,
            versionHistory (update_commit env old new md sg st) @ r =
            if decide (root = r) then versionHistory st @ root ++ [new]
            else versionHistory st @ r).
  { intros r. simpl. fold root. destruct (decide (root = r)) as [<-|Hne]; now slots. }
  split.
  - intros h0 Hh0. rewrite Hvh. destruct (decide (new = h0)) as [<-|Hne].
    + slots. fold root. rewrite decide_True by reflexivity.
      apply elem_of_app. right. apply list_elem_of_singleton. reflexivity.
    + apply Hnew in Hh0; [|assumption]. slots.
      destruct (decide (root = rootHash st @ h0)) as [E|_]; [|auto].
      apply elem_of_app. left. rewrite E. auto.
  - intros r x. rewrite Hvh. destruct (decide (root = r)) as [<-|Hne].
    + intros [Hx| ->%list_elem_of_singleton]%elem_of_app.
      * destruct (Csound root x Hx) as (Hrx & Hxr).
        assert (new <> x) by (intros ->; contradiction).
        split; [now apply Hnew|now slots].
      * split; [now apply update_commit_registered|now slots].
    + intros Hx. destruct (Csound r x Hx) as (Hrx & Hxr).
      assert (new <> x) by (intros ->; contradiction).
      split; [now apply Hnew|now slots].
  - intros r. rewrite Hvh. destruct (decide (root = r)) as [<-|Hne]; [|auto].
    apply NoDup_app. split; [auto|]. split; [|apply NoDup_singleton].
    intros x Hx ->%list_elem_of_singleton. contradiction.
  - intros h0 Hh0. rewrite Hvh.
    assert (Hhead : head (versionHistory st @ root ++ [new]) = Some root).
    { pose proof (Chead old Hold) as Hh. fold root in Hh.
      apply head_Some in Hh as (l' & ->). reflexivity. }
    destruct (decide (new = h0)) as [<-|Hne].
    + slots. fold root. now rewrite decide_True by reflexivity.
    + apply Hnew in Hh0; [|assumption]. slots.
      destruct (decide (root = rootHash st @ h0)) as [E|_]; [now rewrite <- E|auto].
  - intros h0 Hh0. destruct (decide (new = h0)) as [<-|Hne].
    + slots. fold root. rewrite <- Hown. rewrite (Cowner old Hold). reflexivity.
    + apply Hnew in Hh0; [|assumption]. pose proof (Hnr h0 Hh0). slots. auto.
  - intros h0 Hh0. rewrite Hvh. destruct (decide (new = h0)) as [<-|Hne].
    + slots. fold root. intros _. rewrite decide_True by reflexivity.
      pose proof (Cmem old Hold) as Hin. fold root in Hin.
      apply list_elem_of_lookup_1 in Hin as (i & Hi).
      exists i, (length (versionHistory st @ root)).
      split; [now apply lookup_lt_Some in Hi|].
      split; [now apply lookup_app_l_Some|].
      rewrite list_lookup_middle; reflexivity.
    + apply Hnew in Hh0; [|assumption]. slots. intros Hne'.
      destruct (Cprev h0 Hh0 Hne') as (i & j & Hij & Hi & Hj).
      exists i, j. split; [assumption|].
      destruct (decide (root = rootHash st @ h0)) as [E|_]; [|auto].
      rewrite E. split; now apply lookup_app_l_Some.
Qed.

Lemma ChainInv_transact env c st :
  0 < block_timestamp env -> Inv st -> ChainInv st -> ChainInv (transact env c st).
Proof.
  intros Hts HI HC.
  destruct (transact_cases env c st)
    as [(E1 & E2 & E3)|[(h' & md & sg & -> & Hok & ->)|(old & new & md & sg & -> & Hok & ->)]].
  - destruct HC as [Cmem Csound Cnodup Chead Cowner Cprev].
    split; unfold registered; rewrite ?E1, ?E2, ?E3; auto.
  - now apply ChainInv_register_commit.
  - now apply ChainInv_update_commit.
Qed.

Lemma reachable_ChainInv st : reachable st -> ChainInv st.
Proof.
  induction 1 as [env|env c st Hreach IH Hts].
  - apply ChainInv_constructor.
  - apply ChainInv_transact; [assumption|now apply reachable_Inv|assumption].
Qed.

End MoreInvariants.

(** * Properties of the vendor registry *)

Section VendorProperties.

Context `{Primitives}.

(** X1. [registerVendor] checks, in this order, that the sender is the
    registry owner, that the vendor address is not zero, that the vendor is
    not verified at present, and that the name is not empty.  When all hold
    it writes the entry [{name, website, email, verified = true,
    registeredAt = now}] at the vendor's address and emits
    [VendorRegistered]; no other vendor entry, no SBOM mapping and not the
    owner is touched.  A revert leaves storage as it was. *)
Theorem registerVendor_spec st env v n w e :
  (msg_sender env <> registryOwner st ->
     registerVendor env v n w e st = Reverted OnlyRegistryOwner st) /\
  (msg_sender env = registryOwner st -> v = 0 ->
     registerVendor env v n w e st = Reverted InvalidVendorAddress st) /\
  (msg_sender env = registryOwner st -> v <> 0 ->
     isVerifiedVendor v st = Ok true ->
     registerVendor env v n w e st = Reverted VendorAlreadyRegistered st) /\
  (msg_sender env = registryOwner st -> v <> 0 ->
     isVerifiedVendor v st = Ok false -> n = EmptyString ->
     registerVendor env v n w e st = Reverted NameCannotBeEmpty st) /\
  (msg_sender env = registryOwner st -> v <> 0 ->
     isVerifiedVendor v st = Ok false -> n <> EmptyString ->
     exists st',
       registerVendor env v n w e st =
         Done tt st' [VendorRegistered v n (block_timestamp env)] /\
       transact env (RegisterVendor v n w e) st = st' /\
       getVendorInfo v st' = Ok (mkVendorInfo n w e true (block_timestamp env)) /\
       isVerifiedVendor v st' = Ok true /\
       (forall a, a <> v -> getVendorInfo a st' = getVendorInfo a st) /\
       sbomRecords st' = sbomRecords st /\
       versionHistory st' = versionHistory st /\
       rootHash st' = rootHash st /\
       registryOwner st' = registryOwner st) /\
  (forall r st', registerVendor env v n w e st = Reverted r st' -> st' = st).
Proof.
  rewrite registerVendor_run. unfold isVerifiedVendor, getVendorInfo.
  split; [|split; [|split; [|split; [|split]]]].
  - intros Hne. destruct (N.eqb_spec (msg_sender env) (registryOwner st));
      [contradiction|reflexivity].
  - intros -> ->. now rewrite N.eqb_refl.
  - intros -> Hv [= ->]. rewrite N.eqb_refl. simpl.
    destruct (N.eqb_spec v 0); [contradiction|reflexivity].
  - intros -> Hv [= ->] ->. rewrite N.eqb_refl. simpl.
    destruct (N.eqb_spec v 0); [contradiction|reflexivity].
  - intros Hown Hv [= Hver] Hn.
    exists (registerVendor_commit env v n w e st).
    assert (Hok : registerVendor_ok env v n st) by (unfold registerVendor_ok; auto).
    pose proof (registerVendor_commits env v n w e st Hok) as Hrun.
    rewrite registerVendor_run in Hrun.
    split; [exact Hrun|].
    split; [unfold transact; simpl; now rewrite registerVendor_commits|].
    split; [now slots|]. split; [now slots|].
    split; [intros a Ha; now slots|]. auto.
  - intros r st'.
    repeat match goal with
           | |- context [if ?b then _ else _] => destruct b; simpl
           end; congruence.
Qed.

(** X2. [revokeVendor] reverts for a sender that is not the owner and for a
    vendor that is not verified at present.  Otherwise it clears the
    [verified] flag of the entry and nothing else: name, website, email and
    registration time stay, as do all other entries, the SBOM mappings and
    the owner.  Revoking the same vendor again is rejected. *)
Theorem revokeVendor_spec st env v :
  (msg_sender env <> registryOwner st ->
     revokeVendor env v st = Reverted OnlyRegistryOwner st) /\
  (msg_sender env = registryOwner st -> isVerifiedVendor v st = Ok false ->
     revokeVendor env v st = Reverted VendorNotVerified st) /\
  (msg_sender env = registryOwner st -> isVerifiedVendor v st = Ok true ->
     exists st',
       revokeVendor env v st = Done tt st' [VendorRevoked v (block_timestamp env)] /\
       transact env (RevokeVendor v) st = st' /\
       isVerifiedVendor v st' = Ok false /\
       name (vendors st' @ v) = name (vendors st @ v) /\
       website (vendors st' @ v) = website (vendors st @ v) /\
       contactEmail (vendors st' @ v) = contactEmail (vendors st @ v) /\
       registeredAt (vendors st' @ v) = registeredAt (vendors st @ v) /\
       (forall a, a <> v -> getVendorInfo a st' = getVendorInfo a st) /\
       sbomRecords st' = sbomRecords st /\
       versionHistory st' = versionHistory st /\
       rootHash st' = rootHash st /\
       registryOwner st' = registryOwner st /\
       (forall env', revokeVendor env' v st' = Reverted OnlyRegistryOwner st' \/
                     revokeVendor env' v st' = Reverted VendorNotVerified st')).
Proof.
  unfold isVerifiedVendor, getVendorInfo.
  split; [|split].
  - intros Hne. rewrite revokeVendor_run.
    destruct (N.eqb_spec (msg_sender env) (registryOwner st)); [contradiction|reflexivity].
  - intros Hown [= Hver]. rewrite revokeVendor_run, Hown, N.eqb_refl, Hver. reflexivity.
  - intros Hown [= Hver].
    exists (revokeVendor_commit v st).
    assert (Hok : revokeVendor_ok env v st) by (unfold revokeVendor_ok; auto).
    split; [now apply revokeVendor_commits|].
    split; [unfold transact; simpl; now rewrite revokeVendor_commits|].
    split; [now slots|]. split; [now slots|]. split; [now slots|].
    split; [now slots|]. split; [now slots|].
    split; [intros a Ha; now slots|].
    split; [reflexivity|]. split; [reflexivity|]. split; [reflexivity|].
    split; [reflexivity|].
    intros env'. rewrite revokeVendor_run.
    destruct (msg_sender env' =? registryOwner (revokeVendor_commit v st)); simpl;
      [right|left; reflexivity].
    now slots.
Qed.

(** X3. The registry has no operation that edits a verified vendor's
    entry: registering a verified vendor again is rejected.  After a
    revocation the owner can register the same address again, and that
    replaces name, website, email and registration time by the new ones. *)
Theorem vendor_reregistration st env v st1 log env' n w e :
  reachable st ->
  revokeVendor env v st = Done tt st1 log ->
  msg_sender env' = registryOwner st ->
  n <> EmptyString ->
  registerVendor env' v n w e st = Reverted VendorAlreadyRegistered st /\
  registerVendor env' v n w e st1 =
    Done tt (registerVendor_commit env' v n w e st1)
      [VendorRegistered v n (block_timestamp env')] /\
  getVendorInfo v (registerVendor_commit env' v n w e st1) =
    Ok (mkVendorInfo n w e true (block_timestamp env')).
Proof.
  intros Hreach Hrun Hown Hn.
  apply revokeVendor_done in Hrun as ((_ & Hver) & -> & _).
  destruct (reachable_VendorInv st Hreach) as [Iver Iknown _ _].
  destruct (Iknown v (Iver v Hver)) as (Hv & _).
  split.
  - rewrite registerVendor_run, Hown, N.eqb_refl, Hver. simpl.
    destruct (N.eqb_spec v 0); [contradiction|reflexivity].
  - split.
    + apply registerVendor_commits. unfold registerVendor_ok.
      split; [exact Hown|]. split; [exact Hv|]. split; [now slots|exact Hn].
    + unfold getVendorInfo. now slots.
Qed.

End VendorProperties.

(** * Ownership and authority *)

Section Ownership.

Context `{Primitives}.

(** The three calls guarded by [onlyRegistryOwner]. *)
Lemma admin_call_by_stranger env c st :
  msg_sender env <> registryOwner st ->
  match c with
  | RegisterVendor _ _ _ _ | RevokeVendor _ | TransferOwnership _ =>
      dispatch env c st = Reverted OnlyRegistryOwner st
  | _ => True
  end.
Proof.
  intros Hne. destruct c; simpl; try exact I.
  - rewrite registerVendor_run.
    destruct (N.eqb_spec (msg_sender env) (registryOwner st)); [contradiction|reflexivity].
  - rewrite revokeVendor_run.
    destruct (N.eqb_spec (msg_sender env) (registryOwner st)); [contradiction|reflexivity].
  - rewrite transferOwnership_run.
    destruct (N.eqb_spec (msg_sender env) (registryOwner st)); [contradiction|reflexivity].
Qed.

(** X4. [transferOwnership] reverts for a sender that is not the owner and
    for the zero address.  Otherwise it replaces the owner and changes
    nothing else, and it emits no event.  From then on the former owner
    (if it handed over to someone else) is turned away by every guarded
    call, and the new owner passes the guard. *)
Theorem transferOwnership_spec st env o :
  (msg_sender env <> registryOwner st ->
     transferOwnership env o st = Reverted OnlyRegistryOwner st) /\
  (msg_sender env = registryOwner st -> o = 0 ->
     transferOwnership env o st = Reverted InvalidNewOwner st) /\
  (msg_sender env = registryOwner st -> o <> 0 ->
     exists st',
       transferOwnership env o st = Done tt st' [] /\
       transact env (TransferOwnership o) st = st' /\
       registryOwner st' = o /\
       vendors st' = vendors st /\
       sbomRecords st' = sbomRecords st /\
       versionHistory st' = versionHistory st /\
       rootHash st' = rootHash st /\
       (o <> registryOwner st ->
          forall ts v n w e o',
            registerVendor (mkEnv (registryOwner st) ts) v n w e st' =
              Reverted OnlyRegistryOwner st' /\
            revokeVendor (mkEnv (registryOwner st) ts) v st' =
              Reverted OnlyRegistryOwner st' /\
            transferOwnership (mkEnv (registryOwner st) ts) o' st' =
              Reverted OnlyRegistryOwner st') /\
       (forall ts o', o' <> 0 ->
          transferOwnership (mkEnv o ts) o' st' = Done tt (set_registryOwner o' st') [])).
Proof.
  split; [|split].
  - intros Hne. rewrite transferOwnership_run.
    destruct (N.eqb_spec (msg_sender env) (registryOwner st)); [contradiction|reflexivity].
  - intros Hown ->. now rewrite transferOwnership_run, Hown, N.eqb_refl.
  - intros Hown Ho. exists (set_registryOwner o st).
    assert (Hok : transferOwnership_ok env o st) by (unfold transferOwnership_ok; auto).
    split; [now apply transferOwnership_commits|].
    split; [unfold transact; simpl; now rewrite transferOwnership_commits|].
    do 5 (split; [reflexivity|]).
    split.
    + intros Hne ts v n w e o'.
      assert (Hs : msg_sender (mkEnv (registryOwner st) ts) <>
                   registryOwner (set_registryOwner o st))
        by (simpl; congruence).
      split; [|split].
      * exact (admin_call_by_stranger _ (RegisterVendor v n w e) _ Hs).
      * exact (admin_call_by_stranger _ (RevokeVendor v) _ Hs).
      * exact (admin_call_by_stranger _ (TransferOwnership o') _ Hs).
    + intros ts o' Ho'. apply transferOwnership_commits.
      unfold transferOwnership_ok. simpl. auto.
Qed.

(** X5. A registry deployed by a non-zero account always has a non-zero
    owner: no sequence of transactions leaves it without one. *)
Theorem owner_never_zero env st :
  msg_sender env <> 0 -> steps (constructor env) st -> registryOwner st <> 0.
Proof.
  intros Hdep Hsteps.
  remember (constructor env) as st0 eqn:E.
  induction Hsteps as [st|env' c st st' Hsteps IH Hts].
  - subst. exact Hdep.
  - specialize (IH E).
    destruct (transact_effect env' c st')
      as [->|[(v & n & w & e & -> & Hok & ->)|[(v & -> & Hok & ->)|[(o & -> & Hok & ->)|
          [(h & md & sg & -> & Hok & ->)|(old & new & md & sg & -> & Hok & ->)]]]]];
      try exact IH.
    destruct Hok as (_ & Ho). exact Ho.
Qed.

(** X6. Nobody but the owner changes the vendor table or the ownership:
    a transaction sent by any other account leaves both as they were,
    whatever it calls.  The two SBOM calls leave them alone for every
    sender, and the three guarded calls never touch the SBOM mappings. *)
Theorem vendor_table_authority st env c :
  (msg_sender env <> registryOwner st ->
     vendors (transact env c st) = vendors st /\
     registryOwner (transact env c st) = registryOwner st) /\
  (match c with
   | RegisterSBOM _ _ _ | UpdateSBOM _ _ _ _ =>
       vendors (transact env c st) = vendors st /\
       registryOwner (transact env c st) = registryOwner st
   | _ =>
       sbomRecords (transact env c st) = sbomRecords st /\
       versionHistory (transact env c st) = versionHistory st /\
       rootHash (transact env c st) = rootHash st
   end).
Proof.
  split.
  - intros Hne.
    destruct (transact_effect env c st)
      as [->|[(v & n & w & e & -> & Hok & ->)|[(v & -> & Hok & ->)|[(o & -> & Hok & ->)|
          [(h & md & sg & -> & Hok & ->)|(old & new & md & sg & -> & Hok & ->)]]]]];
      try (split; reflexivity);
      destruct Hok as (Hown & _); contradiction.
  - destruct (transact_effect env c st)
      as [->|[(v & n & w & e & -> & Hok & ->)|[(v & -> & Hok & ->)|[(o & -> & Hok & ->)|
          [(h & md & sg & -> & Hok & ->)|(old & new & md & sg & -> & Hok & ->)]]]]];
      try (repeat split; reflexivity).
    destruct c; repeat split; reflexivity.
Qed.

End Ownership.

Lemma st4_handover_eval :
  transferOwnership admin_env admin2 st4 = Done tt st4_handover [].
Proof. vm_compute. reflexivity. Qed.

(** An instance of X4: account 100 hands the registry of [st4] to account
    200 and can no longer register a vendor. *)
Lemma transferOwnership_spec_witness :
  msg_sender admin_env = registryOwner st4 /\
  admin2 <> 0 /\
  registryOwner st4_handover = admin2 /\
  registerVendor admin_late_env mallory "M" EmptyString EmptyString st4_handover =
    Reverted OnlyRegistryOwner st4_handover.
Proof.
  assert (Hown : msg_sender admin_env = registryOwner st4) by reflexivity.
  assert (Ho : admin2 <> 0) by discriminate.
  split; [exact Hown|]. split; [exact Ho|].
  destruct (@transferOwnership_spec toy st4 admin_env admin2) as (_ & _ & Hok).
  destruct (Hok Hown Ho) as (st' & Hrun & _ & Howner & _ & _ & _ & _ & Hold & _).
  assert (st' = st4_handover) as -> by (rewrite st4_handover_eval in Hrun; congruence).
  split; [exact Howner|].
  assert (Hne : admin2 <> registryOwner st4) by (vm_compute; discriminate).
  destruct (Hold Hne 1004 mallory "M"%string EmptyString EmptyString 0) as (Hreg & _).
  exact Hreg.
Defined.

(** An instance of X5: the registry of the running example, deployed by
    account 100, has an owner after the handover. *)
Lemma owner_never_zero_witness :
  msg_sender admin_env <> 0 /\ registryOwner st4_handover <> 0.
Proof.
  assert (Hdep : msg_sender admin_env <> 0) by discriminate.
  split; [exact Hdep|].
  apply (@owner_never_zero toy admin_env st4_handover Hdep).
  unfold st4_handover, st4, st3, st2, st1, st0.
  repeat (apply steps_call; [|reflexivity]). apply steps_refl.
Defined.

(** An instance of X6: the vendor of the running example, who is not the
    owner, tries to revoke itself; the vendor table stays as it is. *)
Lemma vendor_table_authority_witness :
  msg_sender acme_env <> registryOwner st3 /\
  vendors (run_call acme_env (RevokeVendor acme) st3) = vendors st3.
Proof.
  assert (Hne : msg_sender acme_env <> registryOwner st3) by (vm_compute; discriminate).
  split; [exact Hne|].
  exact (proj1 (proj1 (@vendor_table_authority toy st3 acme_env (RevokeVendor acme)) Hne)).
Defined.

(** * Records and their vendors *)

Section RecordVendors.

Context `{Primitives}.

Lemma registered_dec st h : registered st h \/ ~ registered st h.
Proof.
  unfold registered. destruct (N.eq_dec (timestamp (sbomRecords st @ h)) 0); auto.
Qed.

(** X7. The zero address never becomes a verified vendor and never owns a
    record: in every reachable storage its vendor entry is all zero, and
    the vendor of each registered hash, which is also the signer its
    stored signature recovers to, is not zero.  A signature on which
    [ecrecover] gives the null address is therefore never stored. *)
Theorem zero_address_owns_nothing st :
  reachable st ->
  isVerifiedVendor 0 st = Ok false /\
  getVendorInfo 0 st = Ok zero /\
  (forall h, registered st h ->
     vendor (sbomRecords st @ h) <> 0 /\
     exists signer, verifySignature h st = Ok (true, signer) /\ signer <> 0 /\
       recoverSigner h (signature (sbomRecords st @ h)) = Ok signer).
Proof.
  intros Hreach.
  destruct (reachable_VendorInv st Hreach) as [Iver Iknown Iunknown Irecord].
  assert (Hz : ~ known st 0).
  { intros Hk. destruct (Iknown 0 Hk) as (Hne & _). congruence. }
  unfold isVerifiedVendor, getVendorInfo.
  rewrite (Iunknown 0 Hz). split; [reflexivity|]. split; [reflexivity|].
  intros h Hreg.
  destruct (Iknown _ (Irecord h Hreg)) as (Hv & _).
  split; [exact Hv|].
  exists (vendor (sbomRecords st @ h)).
  split; [now apply verifySignature_registered|]. split; [exact Hv|].
  now destruct (inv_sig st (reachable_Inv st Hreach) h Hreg) as (_ & _ & ?).
Qed.

(** X8. In every reachable storage a vendor entry is either all zero (the
    address was never registered) or carries a non-empty name and a
    non-zero registration time at a non-zero address; a verified vendor is
    always of the second kind.  A revoked vendor is thus told apart from an
    address that was never registered, and entries are never deleted. *)
Theorem vendor_entries st a :
  reachable st ->
  (getVendorInfo a st = Ok zero \/
   (a <> 0 /\ name (vendors st @ a) <> EmptyString /\
    registeredAt (vendors st @ a) <> 0)) /\
  (isVerifiedVendor a st = Ok true ->
   a <> 0 /\ name (vendors st @ a) <> EmptyString /\
   registeredAt (vendors st @ a) <> 0) /\
  (forall st', steps st st' -> name (vendors st @ a) <> EmptyString ->
     name (vendors st' @ a) <> EmptyString).
Proof.
  intros Hreach.
  destruct (reachable_VendorInv st Hreach) as [Iver Iknown Iunknown Irecord].
  unfold getVendorInfo, isVerifiedVendor.
  split; [|split].
  - destruct (string_dec (name (vendors st @ a)) EmptyString) as [E|Hn].
    + left. f_equal. apply Iunknown. unfold known. congruence.
    + right. destruct (Iknown a Hn). auto.
  - intros [= Hver]. pose proof (Iver a Hver) as Hk.
    destruct (Iknown a Hk). auto.
  - intros st' Hsteps. induction Hsteps as [st|env c st st' Hsteps IH Hts]; [auto|].
    intros Hn. specialize (IH Hreach Iver Iknown Iunknown Irecord Hn).
    destruct (transact_effect env c st')
      as [->|[(v & n & w & e & -> & Hok & ->)|[(v & -> & Hok & ->)|[(o & -> & Hok & ->)|
          [(h & md & sg & -> & Hok & ->)|(old & new & md & sg & -> & Hok & ->)]]]]];
      try exact IH.
    + destruct Hok as (_ & _ & _ & Hne).
      destruct (decide (v = a)) as [->|Hva]; now slots.
    + destruct (decide (v = a)) as [->|Hva]; now slots.
Qed.

(** X9. In every reachable storage [verifyCompleteSBOM] answers, for every
    hash, with a signature-valid component equal to its exists component:
    a stored record never fails the signature check.  For a registered
    hash the vendor name it returns is not empty and the vendor-verified
    component is the vendor's present flag; for an unregistered hash the
    answer is [false], [false], [false] and the empty string. *)
Theorem verifyCompleteSBOM_shape st h :
  reachable st ->
  exists e vv nm,
    verifyCompleteSBOM h st = Ok (e, e, vv, nm) /\
    verifySBOM h st = Ok (e, sbomRecords st @ h) /\
    (e = true <-> registered st h) /\
    (e = true ->
       nm <> EmptyString /\
       isVerifiedVendor (vendor (sbomRecords st @ h)) st = Ok vv /\
       getVendorInfo (vendor (sbomRecords st @ h)) st =
         Ok (vendors st @ vendor (sbomRecords st @ h)) /\
       nm = name (vendors st @ vendor (sbomRecords st @ h))) /\
    (e = false -> vv = false /\ nm = EmptyString).
Proof.
  intros Hreach.
  destruct (registered_dec st h) as [Hreg|Hn].
  - exists true, (verified (vendors st @ vendor (sbomRecords st @ h))),
      (name (vendors st @ vendor (sbomRecords st @ h))).
    split; [now apply verifyCompleteSBOM_registered|].
    split.
    { unfold verifySBOM. unfold registered in Hreg.
      destruct (N.eqb_spec (timestamp (sbomRecords st @ h)) 0); [contradiction|reflexivity]. }
    split; [tauto|]. split; [|discriminate].
    intros _. split; [|auto].
    apply (vi_record st (reachable_VendorInv st Hreach) h Hreg).
  - exists false, false, EmptyString.
    destruct (queries_of_unregistered st h Hn) as (Hv & _ & Hc).
    split; [exact Hc|]. split; [exact Hv|].
    split; [split; [discriminate|contradiction]|].
    split; [discriminate|auto].
Qed.

(** X10. What [verifySBOM] returns in a reachable storage: for a registered
    hash, a record whose [hash] field is the hash asked for, with a
    non-zero vendor and timestamp and a 65-byte signature; for any other
    hash, [false] and the all-zero record. *)
Theorem verifySBOM_result st h :
  reachable st ->
  (registered st h ->
     exists rec, verifySBOM h st = Ok (true, rec) /\
       hash rec = h /\ vendor rec <> 0 /\ timestamp rec <> 0 /\
       length (signature rec) = 65%nat) /\
  (~ registered st h -> verifySBOM h st = Ok (false, zero)).
Proof.
  intros Hreach. pose proof (reachable_Inv st Hreach) as HI.
  split.
  - intros Hreg. exists (sbomRecords st @ h).
    destruct (inv_sig st HI h Hreg) as (Hhash & Hlen & _).
    pose proof (reachable_VendorInv st Hreach) as HV.
    destruct (vi_known st HV _ (vi_record st HV h Hreg)) as (Hv & _).
    split; [|auto].
    unfold verifySBOM. unfold registered in Hreg.
    destruct (N.eqb_spec (timestamp (sbomRecords st @ h)) 0); [contradiction|reflexivity].
  - intros Hn. destruct (inv_fresh st HI h Hn) as (_ & _ & Hrec).
    destruct (queries_of_unregistered st h Hn) as (Hv & _). now rewrite Hrec in Hv.
Qed.

End RecordVendors.

(** * The shape of version histories *)

Section Histories.

Context `{Primitives}.

(** X11. In a reachable storage the history of a registered hash lists
    exactly the registered hashes that share its root, each once, with the
    root in first place; it contains the hash asked for, so it is never
    empty; [getVersionCount] is its length; and asking for any hash on the
    list gives the same list. *)
Theorem history_is_the_chain st h :
  reachable st -> registered st h ->
  exists l,
    getVersionHistory h st = Ok l /\
    getVersionCount h st = Ok (N.of_nat (length l)) /\
    (forall x, x ∈ l <-> registered st x /\ rootHash st @ x = rootHash st @ h) /\
    NoDup l /\
    head l = Some (rootHash st @ h) /\
    h ∈ l /\
    (0 < length l)%nat /\
    (forall x, x ∈ l -> getVersionHistory x st = Ok l).
Proof.
  intros Hreach Hreg.
  destruct (reachable_ChainInv st Hreach) as [Cmem Csound Cnodup Chead _ _].
  exists (versionHistory st @ (rootHash st @ h)).
  unfold getVersionHistory, getVersionCount.
  split; [reflexivity|]. split; [reflexivity|].
  split.
  { intros x. split; [apply Csound|].
    intros (Hx & <-). now apply Cmem. }
  split; [apply Cnodup|]. split; [now apply Chead|].
  split; [now apply Cmem|].
  split.
  { pose proof (Chead h Hreg) as Hh. apply head_Some in Hh as (l' & ->). simpl. lia. }
  intros x Hx. destruct (Csound _ _ Hx) as (_ & ->). reflexivity.
Qed.

(** X12. In a reachable storage every registered hash that is not its own
    root was made by an update: its [previousHash] is a registered hash of
    the same chain, owned by the same vendor, and stands before it in the
    history of the chain. *)
Theorem previous_version_precedes st h :
  reachable st -> registered st h -> rootHash st @ h <> h ->
  let p := previousHash (sbomRecords st @ h) in
  registered st p /\
  rootHash st @ p = rootHash st @ h /\
  vendor (sbomRecords st @ p) = vendor (sbomRecords st @ h) /\
  exists l i j,
    getVersionHistory h st = Ok l /\ (i < j)%nat /\
    l !! i = Some p /\ l !! j = Some h.
Proof.
  intros Hreach Hreg Hne p. subst p.
  destruct (reachable_ChainInv st Hreach) as [_ Csound _ _ Cowner Cprev].
  destruct (Cprev h Hreg Hne) as (i & j & Hij & Hi & Hj).
  assert (Hin : previousHash (sbomRecords st @ h) ∈ versionHistory st @ (rootHash st @ h))
    by (apply list_elem_of_lookup; eauto).
  destruct (Csound _ _ Hin) as (Hp & Hpr).
  split; [exact Hp|]. split; [exact Hpr|].
  split; [rewrite (Cowner _ Hp), (Cowner _ Hreg), Hpr; reflexivity|].
  exists (versionHistory st @ (rootHash st @ h)), i, j. auto.
Qed.

(** X13. A chain has one vendor for ever: in a reachable storage every
    hash in the history of a registered hash was recorded by the vendor of
    that hash, and this stays so in every later storage, however the chain
    grows. *)
Theorem chain_has_one_vendor st h st' :
  reachable st -> registered st h -> steps st st' ->
  exists l,
    getVersionHistory h st' = Ok l /\
    forall x, x ∈ l ->
      vendor (sbomRecords st' @ x) = vendor (sbomRecords st @ h).
Proof.
  intros Hreach Hreg Hsteps.
  pose proof (steps_reachable st st' Hreach Hsteps) as Hreach'.
  destruct (steps_keep st st' h Hsteps Hreg) as (Hreg' & Hrec & _).
  destruct (reachable_ChainInv st' Hreach') as [_ Csound _ _ Cowner _].
  exists (versionHistory st' @ (rootHash st' @ h)).
  split; [reflexivity|].
  intros x Hx. destruct (Csound _ _ Hx) as (Hxr & Hroot).
  rewrite (Cowner x Hxr), Hroot, <- (Cowner h Hreg'), Hrec. reflexivity.
Qed.

(** One transaction extends each list of the index at its end, if at all. *)
Lemma transact_history_prefix env c st r :
  exists suffix,
    versionHistory (transact env c st) @ r = versionHistory st @ r ++ suffix.
Proof.
  destruct (transact_cases env c st)
    as [(_ & -> & _)|[(h' & md & sg & -> & Hok & ->)|(old & new & md & sg & -> & Hok & ->)]].
  - exists []. now rewrite app_nil_r.
  - destruct (decide (h' = r)) as [->|Hne].
    + exists [r]. now slots.
    + exists []. slots. now rewrite app_nil_r.
  - destruct (decide (rootHash st @ old = r)) as [<-|Hne].
    + exists [new]. now slots.
    + exists []. slots. now rewrite app_nil_r.
Qed.

(** X14. Histories only grow, and only at the end: over any sequence of
    transactions each list of the version index keeps its former content
    as a prefix.  For a registered hash of a reachable storage the
    history query therefore keeps every version at its position, and the
    version count never goes down. *)
Theorem history_only_grows st st' :
  steps st st' ->
  (forall r, exists suffix,
     versionHistory st' @ r = versionHistory st @ r ++ suffix) /\
  (forall h, registered st h ->
     exists l suffix,
       getVersionHistory h st = Ok l /\
       getVersionHistory h st' = Ok (l ++ suffix) /\
       getVersionCount h st' =
         Ok (N.of_nat (length l) + N.of_nat (length suffix)) /\
       (forall i x, l !! i = Some x -> (l ++ suffix) !! i = Some x)).
Proof.
  intros Hsteps.
  assert (Hprefix : forall r, exists suffix,
            versionHistory st' @ r = versionHistory st @ r ++ suffix).
  { induction Hsteps as [st|env c st st' Hsteps IH Hts]; intros r.
    - exists []. now rewrite app_nil_r.
    - destruct (IH r) as (s1 & E1).
      destruct (transact_history_prefix env c st' r) as (s2 & E2).
      exists (s1 ++ s2). now rewrite E2, E1, app_assoc. }
  split; [exact Hprefix|].
  intros h Hreg.
  destruct (steps_keep st st' h Hsteps Hreg) as (_ & _ & Hroot).
  destruct (Hprefix (rootHash st @ h)) as (suffix & E).
  exists (versionHistory st @ (rootHash st @ h)), suffix.
  unfold getVersionHistory, getVersionCount. rewrite Hroot, E.
  split; [reflexivity|]. split; [reflexivity|].
  split; [rewrite length_app; f_equal; lia|].
  intros i x Hi. now apply lookup_app_l_Some.
Qed.

End Histories.

(** * Events *)

Section Events.

Context `{Primitives}.

(** X15. Each entry point performs all its checks before its first write
    and emits its event only when it commits: a reverted call still holds
    the storage it started from, and a committed call has logged exactly
    one event ([VendorRegistered], [VendorRevoked], [SBOMRegistered] or
    [SBOMUpdated], with the sender and block time of the call), except
    [transferOwnership], which logs nothing. *)
Theorem checks_before_effects env c st :
  (forall r st', dispatch env c st = Reverted r st' -> st' = st) /\
  (forall a st' log, dispatch env c st = Done a st' log ->
     log = emitted env c /\ transact env c st = st') /\
  (forall o a st' log,
     dispatch env (TransferOwnership o) st = Done a st' log -> log = []).
Proof.
  split; [|split].
  - intros r st' Hrun. destruct c as [v n w e|v|o|h md sg|old new md sg]; simpl in Hrun.
    + rewrite registerVendor_run in Hrun.
      repeat match type of Hrun with
             | context [if ?b then _ else _] => destruct b; simpl in Hrun
             end; congruence.
    + rewrite revokeVendor_run in Hrun.
      repeat match type of Hrun with
             | context [if ?b then _ else _] => destruct b; simpl in Hrun
             end; congruence.
    + rewrite transferOwnership_run in Hrun.
      repeat match type of Hrun with
             | context [if ?b then _ else _] => destruct b; simpl in Hrun
             end; congruence.
    + now apply registerSBOM_reverted in Hrun.
    + now apply updateSBOM_reverted in Hrun.
  - intros a st' log Hrun.
    split; [|unfold transact; now rewrite Hrun].
    destruct c as [v n w e|v|o|h md sg|old new md sg]; simpl in Hrun |- *.
    + now apply registerVendor_done in Hrun as (_ & _ & ->).
    + now apply revokeVendor_done in Hrun as (_ & _ & ->).
    + now apply transferOwnership_done in Hrun as (_ & _ & ->).
    + now apply registerSBOM_done in Hrun as (_ & _ & ->).
    + now apply updateSBOM_done in Hrun as (_ & _ & ->).
  - intros o a st' log Hrun. simpl in Hrun.
    now apply transferOwnership_done in Hrun as (_ & _ & ->).
Qed.

Lemma agrees_step env c st a st' log lv :
  agrees lv st -> dispatch env c st = Done a st' log ->
  agrees (fold_left observe log lv) st'.
Proof.
  intros (Er & Eh & Ev) Hrun.
  destruct c as [v n w e|v|o|h md sg|old new md sg]; simpl in Hrun.
  - apply registerVendor_done in Hrun as (_ & -> & ->). simpl.
    split; [exact Er|]. split; [exact Eh|].
    intros a0. destruct (decide (v = a0)) as [->|Hne]; slots; auto.
  - apply revokeVendor_done in Hrun as (_ & -> & ->). simpl.
    split; [exact Er|]. split; [exact Eh|].
    intros a0. destruct (decide (v = a0)) as [->|Hne]; slots; auto.
  - apply transferOwnership_done in Hrun as (_ & -> & ->). simpl.
    split; [exact Er|]. split; [exact Eh|exact Ev].
  - apply registerSBOM_done in Hrun as (_ & -> & ->). simpl.
    rewrite Er, Eh. split; [reflexivity|]. split; [reflexivity|exact Ev].
  - apply updateSBOM_done in Hrun as (_ & -> & ->). simpl.
    rewrite Er, Eh. split; [reflexivity|]. split; [reflexivity|exact Ev].
Qed.

Lemma agrees_trace txs : forall st lv,
  agrees lv st ->
  agrees (fold_left observe (snd (run_trace txs st)) lv) (fst (run_trace txs st)).
Proof.
  induction txs as [|[env c] rest IH]; intros st lv Hag; simpl.
  - exact Hag.
  - destruct (dispatch env c st) as [a st' log|r st'] eqn:Hrun.
    + pose proof (agrees_step env c st a st' log lv Hag Hrun) as Hag'.
      specialize (IH st' _ Hag').
      destruct (run_trace rest st') as [st'' log']. simpl in *.
      now rewrite fold_left_app.
    + now apply IH.
Qed.

(** X16. The events are enough to rebuild the version index and the
    verified flags: for any sequence of transactions after deployment,
    replaying the emitted log from empty tables gives the [rootHash] and
    [versionHistory] mappings of the resulting storage and the [verified]
    flag of every vendor. *)
Theorem log_rebuilds_index env txs :
  let '(st, log) := run_trace txs (constructor env) in
  lv_rootHash (replay log) = rootHash st /\
  lv_versionHistory (replay log) = versionHistory st /\
  (forall a, lv_verified (replay log) @ a = verified (vendors st @ a)) /\
  (forall h, getRootHash h st = Ok (lv_rootHash (replay log) @ h)) /\
  (forall h, getVersionHistory h st =
     Ok (lv_versionHistory (replay log) @ (lv_rootHash (replay log) @ h))) /\
  (forall a, isVerifiedVendor a st = Ok (lv_verified (replay log) @ a)).
Proof.
  assert (H0 : agrees (mkLogView ∅ ∅ ∅) (constructor env)).
  { split; [reflexivity|]. split; [reflexivity|].
    intros a. simpl. now rewrite !mapping_get_empty. }
  pose proof (agrees_trace txs _ _ H0) as Hag.
  destruct (run_trace txs (constructor env)) as [st log]. simpl in Hag.
  destruct Hag as (Er & Eh & Ev). fold (replay log) in Er, Eh, Ev.
  unfold getRootHash, getVersionHistory, isVerifiedVendor.
  rewrite Er, Eh. repeat split; try reflexivity.
  - exact Ev.
  - intros a. now rewrite Ev.
Qed.

End Events.

(** * The byte layout of signatures *)

Lemma sig_v_snoc (body : list byte) (b : byte) :
  length body = 64%nat -> sig_v (body ++ [b]) = Byte.to_N b.
Proof.
  intros Hlen. unfold sig_v.
  rewrite app_nth2 by lia. now rewrite Hlen.
Qed.

Lemma sig_r_app (body tail : list byte) :
  (32 <= length body)%nat -> sig_r (body ++ tail) = sig_r body.
Proof. intros Hlen. unfold sig_r. now rewrite take_app_le. Qed.

Lemma sig_s_app (body tail : list byte) :
  (64 <= length body)%nat -> sig_s (body ++ tail) = sig_s body.
Proof.
  intros Hlen. unfold sig_s.
  rewrite drop_app_le by lia. rewrite take_app_le; [reflexivity|].
  rewrite length_drop. lia.
Qed.

Lemma packed_fields (r s : bytes32) (v : byte) :
  r < 2 ^ 256 -> s < 2 ^ 256 ->
  let sg := encode_bytes32 r ++ encode_bytes32 s ++ [v] in
  length sg = 65%nat /\ sig_r sg = r /\ sig_s sg = s /\ sig_v sg = Byte.to_N v.
Proof.
  assert (Hpow : 256 ^ N.of_nat 32 = 2 ^ 256) by reflexivity.
  intros Hr Hs sg. subst sg. unfold encode_bytes32.
  split; [rewrite !length_app, !be_bytes_length; reflexivity|].
  split; [|split].
  - rewrite sig_r_app by (rewrite be_bytes_length; lia).
    unfold sig_r. rewrite take_ge by (rewrite be_bytes_length; lia).
    rewrite be_value_be_bytes, Hpow. now apply N.mod_small.
  - rewrite app_assoc. rewrite sig_s_app by (rewrite length_app, !be_bytes_length; lia).
    unfold sig_s. rewrite drop_app_length' by (now rewrite be_bytes_length).
    rewrite take_ge by (rewrite be_bytes_length; lia).
    rewrite be_value_be_bytes, Hpow. now apply N.mod_small.
  - rewrite app_assoc. apply sig_v_snoc. now rewrite length_app, !be_bytes_length.
Qed.

Lemma be_bytes_mod (n : nat) (x : N) :
  be_bytes n (x mod 256 ^ N.of_nat n) = be_bytes n x.
Proof.
  rewrite <- (be_value_be_bytes n x).
  rewrite <- (be_bytes_length n x) at 1.
  apply be_bytes_be_value.
Qed.

(** X17. The contract reads a signature as the inverse of the usual
    packing: for [r] and [s] below 2^256 the 65 bytes "[r] in 32 bytes,
    [s] in 32 bytes, then [v]" decode to [r], [s] and [v]; and every
    65-byte signature is the packing of the three values the contract
    reads from it. *)
Theorem signature_layout_round_trip :
  (forall r s v, r < 2 ^ 256 -> s < 2 ^ 256 ->
     let sg := encode_bytes32 r ++ encode_bytes32 s ++ [v] in
     length sg = 65%nat /\ sig_r sg = r /\ sig_s sg = s /\ sig_v sg = Byte.to_N v) /\
  (forall sg, length sg = 65%nat ->
     sg = encode_bytes32 (sig_r sg) ++ encode_bytes32 (sig_s sg) ++ [byte_of_N (sig_v sg)] /\
     sig_r sg < 2 ^ 256 /\ sig_s sg < 2 ^ 256 /\ sig_v sg < 256).
Proof.
  assert (Hpow : 256 ^ N.of_nat 32 = 2 ^ 256) by reflexivity.
  split.
  - intros r s v Hr Hs. now apply packed_fields.
  - intros sg Hlen.
    assert (Hr : length (take 32 sg) = 32%nat) by (rewrite length_take; lia).
    assert (Hs : length (take 32 (drop 32 sg)) = 32%nat)
      by (rewrite length_take, length_drop; lia).
    split.
    + unfold encode_bytes32, sig_r, sig_s, sig_v.
      rewrite <- Hr at 1. rewrite be_bytes_be_value.
      rewrite <- Hs at 2. rewrite be_bytes_be_value.
      rewrite byte_of_N_to_N.
      rewrite <- (take_drop 32 sg) at 1. f_equal.
      rewrite <- (take_drop 32 (drop 32 sg)) at 1. f_equal.
      rewrite drop_drop. simpl.
      assert (Hd : length (drop 64 sg) = 1%nat) by (rewrite length_drop; lia).
      destruct (drop 64 sg) as [|b [|b' t]] eqn:Ed; simpl in Hd; try lia.
      f_equal. rewrite <- (take_drop 64 sg) at 1. rewrite Ed.
      rewrite app_nth2 by (rewrite length_take; lia).
      rewrite length_take. replace (64 - (64 `min` length sg))%nat with 0%nat by lia.
      reflexivity.
    + split; [|split].
      * unfold sig_r. pose proof (be_value_bound (take 32 sg)) as Hb.
        now rewrite Hr, Hpow in Hb.
      * unfold sig_s. pose proof (be_value_bound (take 32 (drop 32 sg))) as Hb.
        now rewrite Hs, Hpow in Hb.
      * unfold sig_v. pose proof (Byte.to_N_bounded (nth 64 sg "000"%byte)). lia.
Qed.

Section VersionByte.

Context `{Primitives}.

(** X18. The version byte has two accepted spellings: a signature ending
    in 0 recovers exactly as the same 64 bytes ending in 27, and one
    ending in 1 as the one ending in 28, and neither is rejected.  Each
    signature accepted in the short spelling is thus also accepted in the
    long one, as a different byte string. *)
Theorem version_byte_aliases (_hash : bytes32) (body : list byte) :
  length body = 64%nat ->
  recoverSigner _hash (body ++ ["000"%byte]) = recoverSigner _hash (body ++ ["027"%byte]) /\
  recoverSigner _hash (body ++ ["001"%byte]) = recoverSigner _hash (body ++ ["028"%byte]) /\
  recoverSigner _hash (body ++ ["000"%byte]) =
    Ok (ecrecover (ethSignedHash _hash) 27 (sig_r body) (sig_s body)) /\
  recoverSigner _hash (body ++ ["001"%byte]) =
    Ok (ecrecover (ethSignedHash _hash) 28 (sig_r body) (sig_s body)).
Proof.
  intros Hlen.
  assert (Hrun : forall b,
            recoverSigner _hash (body ++ [b]) =
            let v := Byte.to_N b in
            let nv := if v <? 27 then v + 27 else v in
            if negb ((nv =? 27) || (nv =? 28)) then Err InvalidSignatureVersion
            else Ok (ecrecover (ethSignedHash _hash) nv (sig_r body) (sig_s body))).
  { intros b. rewrite recoverSigner_run. unfold normalized_v.
    rewrite length_app, Hlen. simpl.
    rewrite sig_v_snoc, sig_r_app, sig_s_app by lia. reflexivity. }
  rewrite !Hrun. repeat split; reflexivity.
Qed.

End VersionByte.

(** An instance of X18: the two spellings of the example signature over
    version 11 recover the same signer. *)
Lemma version_byte_aliases_witness :
  length (be_bytes 32 acme ++ be_bytes 32 11) = 64%nat /\
  @recoverSigner toy 11 ((be_bytes 32 acme ++ be_bytes 32 11) ++ ["000"%byte]) = Ok acme /\
  @recoverSigner toy 11 ((be_bytes 32 acme ++ be_bytes 32 11) ++ ["027"%byte]) = Ok acme.
Proof.
  assert (Hlen : length (be_bytes 32 acme ++ be_bytes 32 11) = 64%nat) by reflexivity.
  split; [exact Hlen|].
  destruct (@version_byte_aliases toy 11 _ Hlen) as (E & _ & E0 & _).
  split; [rewrite E0; reflexivity|rewrite <- E, E0; reflexivity].
Defined.

(** An instance of X17: the example signature decodes to the vendor, the
    hash and 27. *)
Lemma signature_layout_round_trip_witness :
  acme < 2 ^ 256 /\ 11 < 2 ^ 256 /\
  sig_r (toy_sign acme 11) = acme /\ sig_s (toy_sign acme 11) = 11 /\
  sig_v (toy_sign acme 11) = 27.
Proof.
  assert (Hr : acme < 2 ^ 256) by reflexivity.
  assert (Hs : 11 < 2 ^ 256) by reflexivity.
  split; [exact Hr|]. split; [exact Hs|].
  destruct (proj1 signature_layout_round_trip acme 11 "027"%byte Hr Hs)
    as (_ & Er & Es & Ev).
  split; [exact Er|]. split; [exact Es|exact Ev].
Defined.

(** * Instances on the running example *)

Lemma st3_fork_reachable : @reachable toy st3_fork.
Proof. apply reach_call; [apply st3_reachable|reflexivity]. Qed.

Lemma st4_registered_11 : registered st4 11.
Proof. unfold registered. vm_compute. discriminate. Qed.

Lemma st3_fork_registered_12 : registered st3_fork 12.
Proof. unfold registered. vm_compute. discriminate. Qed.

Lemma st3_fork_registered_13 : registered st3_fork 13.
Proof. unfold registered. vm_compute. discriminate. Qed.

(** An instance of X1: the owner registers the vendor of the running
    example. *)
Lemma registerVendor_spec_witness :
  msg_sender admin_env = registryOwner st0 /\
  acme <> 0 /\
  isVerifiedVendor acme st0 = Ok false /\
  "Acme"%string <> EmptyString /\
  registerVendor admin_env acme "Acme" "https://acme.com" "security@acme.com" st0 =
    Done tt st1 [VendorRegistered acme "Acme" 1000] /\
  getVendorInfo acme st1 =
    Ok (mkVendorInfo "Acme" "https://acme.com" "security@acme.com" true 1000).
Proof.
  assert (Hown : msg_sender admin_env = registryOwner st0) by reflexivity.
  assert (Hv : acme <> 0) by discriminate.
  assert (Hver : isVerifiedVendor acme st0 = Ok false) by reflexivity.
  assert (Hn : "Acme"%string <> EmptyString) by discriminate.
  repeat (split; [assumption|]).
  destruct (@registerVendor_spec toy st0 admin_env acme "Acme" "https://acme.com"
              "security@acme.com") as (_ & _ & _ & _ & Hok & _).
  destruct (Hok Hown Hv Hver Hn) as (st' & Hrun & Htx & Hinfo & _).
  assert (st' = st1) as -> by (rewrite <- Htx; reflexivity).
  split; [exact Hrun|exact Hinfo].
Defined.

(** An instance of X2: the revocation of the running example keeps the
    vendor's name. *)
Lemma revokeVendor_spec_witness :
  msg_sender admin_env = registryOwner st3 /\
  isVerifiedVendor acme st3 = Ok true /\
  isVerifiedVendor acme st4 = Ok false /\
  name (vendors st4 @ acme) = name (vendors st3 @ acme).
Proof.
  assert (Hown : msg_sender admin_env = registryOwner st3) by reflexivity.
  assert (Hver : isVerifiedVendor acme st3 = Ok true) by reflexivity.
  split; [exact Hown|]. split; [exact Hver|].
  destruct (@revokeVendor_spec toy st3 admin_env acme) as (_ & _ & Hok).
  destruct (Hok Hown Hver) as (st' & _ & Htx & Hflag & Hname & _).
  assert (st' = st4) as -> by (rewrite <- Htx; reflexivity).
  split; [exact Hflag|exact Hname].
Defined.

(** An instance of X3: registered again after the revocation, the vendor
    carries its new name. *)
Lemma vendor_reregistration_witness :
  @reachable toy st3 /\
  revokeVendor admin_env acme st3 = Done tt st4 [VendorRevoked acme 1000] /\
  msg_sender admin_late_env = registryOwner st3 /\
  "Acme Ltd"%string <> EmptyString /\
  getVendorInfo acme
    (registerVendor_commit admin_late_env acme "Acme Ltd" "https://acme.example"
       "sec@acme.example" st4) =
    Ok (mkVendorInfo "Acme Ltd" "https://acme.example" "sec@acme.example" true 1004).
Proof.
  assert (Hrun : revokeVendor admin_env acme st3 = Done tt st4 [VendorRevoked acme 1000])
    by (vm_compute; reflexivity).
  assert (Hown : msg_sender admin_late_env = registryOwner st3) by reflexivity.
  assert (Hn : "Acme Ltd"%string <> EmptyString) by discriminate.
  split; [apply st3_reachable|]. split; [exact Hrun|]. split; [exact Hown|].
  split; [exact Hn|].
  exact (proj2 (proj2 (@vendor_reregistration toy st3 admin_env acme st4 _ admin_late_env
                         "Acme Ltd" "https://acme.example" "sec@acme.example"
                         st3_reachable Hrun Hown Hn))).
Defined.

(** An instance of X7: version 11 of the running example has a non-zero
    vendor. *)
Lemma zero_address_owns_nothing_witness :
  @reachable toy st3 /\ registered st3 11 /\ vendor (sbomRecords st3 @ 11) <> 0.
Proof.
  split; [apply st3_reachable|]. split; [apply st3_registered_11|].
  destruct (@zero_address_owns_nothing toy st3 st3_reachable) as (_ & _ & Hrec).
  exact (proj1 (Hrec 11 st3_registered_11)).
Defined.

(** An instance of X8: the revoked vendor of [st4] still has its name. *)
Lemma vendor_entries_witness :
  @reachable toy st4 /\
  isVerifiedVendor acme st4 = Ok false /\
  (getVendorInfo acme st4 = Ok zero \/
   (acme <> 0 /\ name (vendors st4 @ acme) <> EmptyString /\
    registeredAt (vendors st4 @ acme) <> 0)).
Proof.
  split; [apply st4_reachable|]. split; [reflexivity|].
  exact (proj1 (@vendor_entries toy st4 acme st4_reachable)).
Defined.

(** An instance of X9: the answer for version 11 after the revocation. *)
Lemma verifyCompleteSBOM_shape_witness :
  @reachable toy st4 /\
  exists e vv nm,
    @verifyCompleteSBOM toy 11 st4 = Ok (e, e, vv, nm) /\ (e = true <-> registered st4 11).
Proof.
  split; [apply st4_reachable|].
  destruct (@verifyCompleteSBOM_shape toy st4 11 st4_reachable)
    as (e & vv & nm & Hc & _ & He & _).
  exists e, vv, nm. auto.
Defined.

(** An instance of X10: the stored record of version 12. *)
Lemma verifySBOM_result_witness :
  @reachable toy st3 /\ registered st3 12 /\
  exists rec, verifySBOM 12 st3 = Ok (true, rec) /\ hash rec = 12 /\ vendor rec <> 0.
Proof.
  split; [apply st3_reachable|]. split; [apply st3_registered_12|].
  destruct (proj1 (@verifySBOM_result toy st3 12 st3_reachable) st3_registered_12)
    as (rec & Hv & Hh & Hn & _).
  exists rec. auto.
Defined.

(** An instance of X11: the history asked for version 12 of the forked
    chain is [11; 12; 13]. *)
Lemma history_is_the_chain_witness :
  @reachable toy st3_fork /\ registered st3_fork 12 /\
  exists l, getVersionHistory 12 st3_fork = Ok l /\ l = [11; 12; 13] /\
            NoDup l /\ head l = Some (rootHash st3_fork @ 12).
Proof.
  split; [apply st3_fork_reachable|]. split; [apply st3_fork_registered_12|].
  destruct (@history_is_the_chain toy st3_fork 12 st3_fork_reachable st3_fork_registered_12)
    as (l & Hl & _ & _ & Hnd & Hhd & _).
  exists l. split; [exact Hl|]. split; [|auto].
  vm_compute in Hl. congruence.
Defined.

(** An instance of X12: version 13 was updated from version 11, which
    stands before it. *)
Lemma previous_version_precedes_witness :
  @reachable toy st3_fork /\ registered st3_fork 13 /\
  rootHash st3_fork @ 13 <> 13 /\
  previousHash (sbomRecords st3_fork @ 13) = 11 /\
  registered st3_fork (previousHash (sbomRecords st3_fork @ 13)).
Proof.
  assert (Hne : rootHash st3_fork @ 13 <> 13) by (vm_compute; discriminate).
  split; [apply st3_fork_reachable|]. split; [apply st3_fork_registered_13|].
  split; [exact Hne|]. split; [reflexivity|].
  exact (proj1 (@previous_version_precedes toy st3_fork 13 st3_fork_reachable
                  st3_fork_registered_13 Hne)).
Defined.

(** An instance of X13: two transactions after [st2] every version on the
    chain of version 11 belongs to the vendor of version 11. *)
Lemma chain_has_one_vendor_witness :
  @reachable toy st2 /\ registered st2 11 /\ @steps toy st2 st4 /\
  exists l, getVersionHistory 11 st4 = Ok l /\
    forall x, x ∈ l -> vendor (sbomRecords st4 @ x) = vendor (sbomRecords st2 @ 11).
Proof.
  split; [apply st2_reachable|]. split; [apply st2_registered_11|].
  split; [apply st2_steps_st4|].
  exact (@chain_has_one_vendor toy st2 11 st4 st2_reachable st2_registered_11
           st2_steps_st4).
Defined.

(** An instance of X14: from [st2] to [st4] the history of version 11
    keeps [11] in front. *)
Lemma history_only_grows_witness :
  @steps toy st2 st4 /\ registered st2 11 /\
  exists l suffix,
    getVersionHistory 11 st2 = Ok l /\ getVersionHistory 11 st4 = Ok (l ++ suffix).
Proof.
  split; [apply st2_steps_st4|]. split; [apply st2_registered_11|].
  destruct (proj2 (@history_only_grows toy st2 st4 st2_steps_st4) 11 st2_registered_11)
    as (l & suffix & Hl & Hl' & _).
  exists l, suffix. auto.
Defined.

(** An instance of X15: the update of the running example commits with
    the one event [SBOMUpdated]. *)
Lemma checks_before_effects_witness :
  @dispatch toy acme_env (UpdateSBOM 11 12 "v2.0" (toy_sign acme 12)) st2 =
    Done tt st3 [SBOMUpdated 11 12 acme 1001] /\
  [SBOMUpdated 11 12 acme 1001] =
    emitted acme_env (UpdateSBOM 11 12 "v2.0" (toy_sign acme 12)) /\
  run_call acme_env (UpdateSBOM 11 12 "v2.0" (toy_sign acme 12)) st2 = st3.
Proof.
  assert (Hrun : @dispatch toy acme_env (UpdateSBOM 11 12 "v2.0" (toy_sign acme 12)) st2 =
                 Done tt st3 [SBOMUpdated 11 12 acme 1001]) by (vm_compute; reflexivity).
  split; [exact Hrun|].
  exact (proj1 (proj2 (@checks_before_effects toy acme_env
                  (UpdateSBOM 11 12 "v2.0" (toy_sign acme 12)) st2)) _ _ _ Hrun).
Defined.

(** * Hex strings *)

Lemma digit_value_hex_digit (n : N) : n < 16 -> Cli.digit_value (Cli.hex_digit n) = Some n.
Proof.
  intros Hn.
  rewrite <- (Nnat.N2Nat.id n).
  assert (Hm : (N.to_nat n < 16)%nat) by lia.
  revert Hm. generalize (N.to_nat n). intros m Hm.
  do 16 (destruct m as [|m]; [reflexivity|]). lia.
Qed.

Lemma bytes_of_hex_of_bytes (l : list byte) :
  Cli.bytes_of_hex (Cli.hex_of_bytes l) = Some l.
Proof.
  induction l as [|b l IH]; [reflexivity|].
  pose proof (Byte.to_N_bounded b) as Hb.
  change (Cli.bytes_of_hex
            (String (Cli.hex_digit (Byte.to_N b / 16))
               (String (Cli.hex_digit (Byte.to_N b mod 16)) (Cli.hex_of_bytes l))) =
          Some (b :: l)).
  cbn [Cli.bytes_of_hex].
  rewrite !digit_value_hex_digit, IH.
  - f_equal. f_equal.
    rewrite <- (byte_of_N_to_N b) at 3. f_equal.
    pose proof (N.div_mod (Byte.to_N b) 16). lia.
  - apply N.mod_lt. discriminate.
  - apply N.Div0.div_lt_upper_bound. lia.
Qed.

Lemma substring_all (s : string) : String.substring 0 (String.length s) s = s.
Proof. induction s as [|c s IH]; [reflexivity|]. simpl. now rewrite IH. Qed.

Lemma getBytes_hexlify (l : list byte) : Cli.getBytes (Cli.hexlify l) = Some l.
Proof.
  unfold Cli.getBytes, Cli.hexlify, Cli.startsWith.
  set (s := Cli.hex_of_bytes l).
  change ("0x" +:+ s) with (String "0" (String "x" s)).
  simpl. rewrite Nat.sub_0_r, substring_all.
  replace (String.prefix EmptyString s) with true by (now destruct s).
  apply bytes_of_hex_of_bytes.
Qed.

Lemma hex_of_bytes_length (l : list byte) :
  String.length (Cli.hex_of_bytes l) = (2 * length l)%nat.
Proof.
  induction l as [|b l IH]; [reflexivity|].
  change (String.length
            (String (Cli.hex_digit (Byte.to_N b / 16))
               (String (Cli.hex_digit (Byte.to_N b mod 16)) (Cli.hex_of_bytes l))) =
          (2 * length (b :: l))%nat).
  cbn [String.length length]. rewrite IH. lia.
Qed.

(** What [ethers] prints for a [bytes32] is 66 characters long, starts
    with ["0x"], and is read back as the value it was printed from. *)
Lemma hexlify32_shape (h : bytes32) :
  String.length (Cli.hexlify32 h) = 66%nat /\
  Cli.startsWith (Cli.hexlify32 h) "0x" = true /\
  Cli.toBytes32 (Cli.hexlify32 h) = Some (h mod 2 ^ 256).
Proof.
  split; [|split].
  - unfold Cli.hexlify32, Cli.hexlify, encode_bytes32.
    change ("0x" +:+ Cli.hex_of_bytes (be_bytes 32 h))
      with (String "0" (String "x" (Cli.hex_of_bytes (be_bytes 32 h)))).
    cbn [String.length]. rewrite hex_of_bytes_length, be_bytes_length. reflexivity.
  - unfold Cli.startsWith, Cli.hexlify32, Cli.hexlify.
    set (s := Cli.hex_of_bytes (encode_bytes32 h)).
    change ("0x" +:+ s) with (String "0" (String "x" s)).
    simpl. now destruct s.
  - unfold Cli.toBytes32, Cli.hexlify32. rewrite getBytes_hexlify.
    unfold encode_bytes32. rewrite be_bytes_length, Nat.eqb_refl.
    now rewrite be_value_be_bytes.
Qed.

(** * Running the client *)

Lemma printed_nil (w : Cli.World) : Cli.printed w [] = w.
Proof. destruct w. unfold Cli.printed. simpl. now rewrite app_nil_r. Qed.

Lemma printed_printed (w : Cli.World) (l1 l2 : list Cli.LogCall) :
  Cli.printed (Cli.printed w l1) l2 = Cli.printed w (l1 ++ l2).
Proof. unfold Cli.printed. simpl. now rewrite app_assoc. Qed.

Lemma runs_ret {A} (a : A) (w : Cli.World) : Cli.runs (mret a) w a [].
Proof. unfold Cli.runs, mret, Cli.Cmd_ret. now rewrite printed_nil. Qed.

Lemma runs_bind {A B} (c : Cli.Cmd A) (f : A -> Cli.Cmd B) w a l b l' :
  Cli.runs c w a l -> Cli.runs (f a) (Cli.printed w l) b l' ->
  Cli.runs (c ≫= f) w b (l ++ l').
Proof.
  unfold Cli.runs, mbind, Cli.Cmd_bind. intros -> ->. now rewrite printed_printed.
Qed.

Lemma throws_bind_l {A B} (c : Cli.Cmd A) (f : A -> Cli.Cmd B) w e l :
  Cli.throws c w e l -> Cli.throws (c ≫= f) w e l.
Proof. unfold Cli.throws, mbind, Cli.Cmd_bind. now intros ->. Qed.

Lemma throws_bind_r {A B} (c : Cli.Cmd A) (f : A -> Cli.Cmd B) w a l e l' :
  Cli.runs c w a l -> Cli.throws (f a) (Cli.printed w l) e l' ->
  Cli.throws (c ≫= f) w e (l ++ l').
Proof.
  unfold Cli.runs, Cli.throws, mbind, Cli.Cmd_bind. intros -> ->.
  now rewrite printed_printed.
Qed.

Lemma runs_try_catch {A} (c : Cli.Cmd A) h w a l :
  Cli.runs c w a l -> Cli.runs (Cli.try_catch c h) w a l.
Proof. unfold Cli.runs, Cli.try_catch. now intros ->. Qed.

Lemma throws_try_catch {A} (c : Cli.Cmd A) h w e l e' l' :
  Cli.throws c w e l -> Cli.throws (h e) (Cli.printed w l) e' l' ->
  Cli.throws (Cli.try_catch c h) w e' (l ++ l').
Proof.
  unfold Cli.runs, Cli.throws, Cli.try_catch. intros -> ->.
  now rewrite printed_printed.
Qed.

Lemma throws_throw {A} (e : Cli.JsError) w : Cli.throws (@Cli.throw A e) w e [].
Proof. unfold Cli.throws, Cli.throw. now rewrite printed_nil. Qed.

Lemma runs_console_log args w : Cli.runs (Cli.console_log args) w tt [args].
Proof. reflexivity. Qed.

(** A message line is told from the other lines by its colour: it is
    among the printed lines exactly when it is among those of its colour. *)
Lemma shade_filter (x : Cli.LogCall) out c :
  x ∈ out -> Cli.has_shade c x = true -> In x (List.filter (Cli.has_shade c) out).
Proof.
  intros Hin Hs. apply filter_In. split; [|exact Hs]. now apply list_elem_of_In.
Qed.

Lemma shade_filter_elem (x : Cli.LogCall) out c :
  In x (List.filter (Cli.has_shade c) out) -> x ∈ out.
Proof. intros Hin. apply filter_In in Hin. now apply list_elem_of_In. Qed.

Ltac of_shade c H :=
  apply (shade_filter _ _ c) in H; [|reflexivity];
  cbn [List.filter Cli.has_shade Cli.style_eqb app In] in H;
  repeat (destruct H as [H|H]; [try discriminate H|]); try contradiction.

Ltac in_shade c :=
  apply (shade_filter_elem _ _ c);
  cbn [List.filter Cli.has_shade Cli.style_eqb app In];
  repeat first [left; reflexivity | right].

Ltac tell c :=
  match goal with
  | |- _ ∉ _ => let H := fresh in intros H; of_shade c H
  | |- _ <-> _ =>
      split;
      [ let H := fresh in intros H; first [ now auto | exfalso; of_shade c H ]
      | let H := fresh in intros H;
        first [ now destruct H | discriminate H | in_shade c ] ]
  end.

Section ClientRuns.

Context `{Primitives} `{Cli.Externals}.

Lemma runs_header t w :
  Cli.runs (Cli.header t) w tt
    [[[Cli.Text Cli.newline; Cli.Chalk Cli.bold_cyan Cli.rule]];
     [[Cli.Chalk Cli.bold_cyan t]];
     [[Cli.Chalk Cli.bold_cyan Cli.rule; Cli.Text Cli.newline]]].
Proof.
  unfold Cli.header.
  eapply (runs_bind _ _ _ _ [_]); [apply runs_console_log|].
  eapply (runs_bind _ _ _ _ [_]); [apply runs_console_log|].
  apply runs_console_log.
Qed.

Lemma runs_keyValue k v w :
  Cli.runs (Cli.keyValue k v) w tt
    [[[Cli.Chalk Cli.gray (k +:+ ":")]; [Cli.Chalk Cli.white v]]].
Proof. reflexivity. Qed.

Lemma runs_call_view {A} (v : View A) w a :
  v (Cli.chain w) = Ok a -> Cli.runs (Cli.call_view v) w a [].
Proof.
  intros Hv. unfold Cli.runs, Cli.call_view. now rewrite Hv, printed_nil.
Qed.

Lemma runs_as_bytes32 (h : bytes32) w :
  Cli.runs (Cli.as_bytes32 (Cli.hexlify32 h)) w (h mod 2 ^ 256) [].
Proof.
  unfold Cli.as_bytes32.
  destruct (hexlify32_shape h) as (_ & _ & ->). apply runs_ret.
Qed.

Lemma runs_hashSBOM path content w :
  Cli.files w !! path = Some content ->
  Cli.runs (Cli.hashSBOM path) w (Cli.hexlify32 (keccak256 (Cli.toUtf8Bytes content))) [].
Proof.
  intros Hf. unfold Cli.runs, Cli.hashSBOM, Cli.hashSBOMSimple, mbind, Cli.Cmd_bind,
    Cli.existsSync, Cli.readFileSync.
  rewrite Hf. rewrite bool_decide_true by eauto. simpl.
  rewrite ?Hf. unfold mret, Cli.Cmd_ret. now rewrite printed_nil.
Qed.

Lemma throws_hashSBOM path w :
  Cli.files w !! path = None ->
  Cli.throws (Cli.hashSBOM path) w (Cli.Error ("File not found: " +:+ path)) [].
Proof.
  intros Hf. unfold Cli.throws, Cli.hashSBOM, Cli.hashSBOMSimple, mbind, Cli.Cmd_bind,
    Cli.existsSync.
  rewrite Hf. rewrite bool_decide_false by (intros [? ?]; discriminate). simpl.
  unfold Cli.throw. now rewrite printed_nil.
Qed.

Lemma loadConfig_run w :
  Cli.loadConfig w = (Cli.loadConfig_outcome (Cli.files w !! Cli.configPath), w).
Proof.
  unfold Cli.loadConfig, Cli.loadConfig_outcome, mbind, Cli.Cmd_bind, Cli.existsSync,
    Cli.readFileSync.
  destruct (Cli.files w !! Cli.configPath) as [content|] eqn:Hf.
  - rewrite bool_decide_true by eauto. simpl. rewrite Hf.
    destruct (Cli.JSON_parse content) as [config|]; [|reflexivity].
    destruct config as [|b|x|s|l|members]; try reflexivity.
    unfold mbind, Cli.Cmd_bind, Cli.get_property, mret, Cli.Cmd_ret.
    destruct (negb (Cli.truthy (Cli.lookup_member "contractAddress" members)));
      [reflexivity|].
    destruct (negb (Cli.truthy (Cli.lookup_member "rpcUrl" members))); reflexivity.
  - rewrite bool_decide_false by (intros [? ?]; discriminate). reflexivity.
Qed.

Lemma runs_getContractReadOnly w cfg :
  Cli.loadConfig_outcome (Cli.files w !! Cli.configPath) = Cli.Returned cfg ->
  Cli.runs Cli.getContractReadOnly w tt [].
Proof.
  intros Hcfg. unfold Cli.runs, Cli.getContractReadOnly, mbind, Cli.Cmd_bind.
  rewrite loadConfig_run. simpl. rewrite Hcfg.
  unfold mret, Cli.Cmd_ret. now rewrite printed_nil.
Qed.

Lemma throws_getContractReadOnly w e :
  Cli.loadConfig_outcome (Cli.files w !! Cli.configPath) = Cli.Thrown e ->
  Cli.throws Cli.getContractReadOnly w e [].
Proof.
  intros Hcfg. unfold Cli.throws, Cli.getContractReadOnly, mbind, Cli.Cmd_bind.
  rewrite loadConfig_run. simpl. rewrite Hcfg. now rewrite printed_nil.
Qed.

Lemma runs_info m w :
  Cli.runs (Cli.info m) w tt [[[Cli.Chalk Cli.blue (Cli.info_mark +:+ m)]]].
Proof. reflexivity. Qed.

Lemma runs_error m w :
  Cli.runs (Cli.error m) w tt [[[Cli.Chalk Cli.red (Cli.error_mark +:+ m)]]].
Proof. reflexivity. Qed.

Lemma runs_success m w :
  Cli.runs (Cli.success m) w tt [[[Cli.Chalk Cli.green (Cli.success_mark +:+ m)]]].
Proof. reflexivity. Qed.

Lemma runs_warning m w :
  Cli.runs (Cli.warning m) w tt [[[Cli.Chalk Cli.yellow (Cli.warning_mark +:+ m)]]].
Proof. reflexivity. Qed.

End ClientRuns.

(** * The [verify] command *)

Lemma verifySBOM_registered st h :
  registered st h -> verifySBOM h st = Ok (true, sbomRecords st @ h).
Proof.
  unfold verifySBOM, registered. intros Hreg.
  destruct (N.eqb_spec (timestamp (sbomRecords st @ h)) 0); [contradiction|reflexivity].
Qed.

Section VerifyCommand.

Context `{Primitives} `{Cli.Externals}.

Ltac step lem := eapply runs_bind; [apply lem|cbn beta iota].

Lemma runs_displayVerification_missing nm sv vv w :
  Cli.runs (Cli.displayVerification (Cli.mkVerification false sv vv nm)) w tt
    [[[Cli.Text Cli.newline; Cli.Chalk Cli.bold_cyan Cli.rule]];
     [[Cli.Chalk Cli.bold_cyan "VERIFICATION RESULTS"]];
     [[Cli.Chalk Cli.bold_cyan Cli.rule; Cli.Text Cli.newline]];
     Cli.line_not_found;
     [[Cli.Chalk Cli.blue (Cli.info_mark +:+ "This SBOM has never been registered")]]].
Proof.
  unfold Cli.displayVerification. cbn [Cli.v_exists negb].
  eapply (runs_bind _ _ _ _ [_; _; _]); [apply runs_header|].
  eapply (runs_bind _ _ _ _ [_]); [apply runs_error|].
  apply runs_info.
Qed.

Lemma runs_displayVerification_found nm sv vv w :
  Cli.runs (Cli.displayVerification (Cli.mkVerification true sv vv nm)) w tt
    [[[Cli.Text Cli.newline; Cli.Chalk Cli.bold_cyan Cli.rule]];
     [[Cli.Chalk Cli.bold_cyan "VERIFICATION RESULTS"]];
     [[Cli.Chalk Cli.bold_cyan Cli.rule; Cli.Text Cli.newline]];
     [[Cli.Chalk Cli.gray "SBOM Exists:"]; [Cli.Chalk Cli.white (Cli.success_mark +:+ "Yes")]];
     [[Cli.Chalk Cli.gray "Signature Valid:"];
      [Cli.Chalk Cli.white (if sv then Cli.success_mark +:+ "Yes"
                            else Cli.error_mark +:+ "No")]];
     [[Cli.Chalk Cli.gray "Vendor Verified:"];
      [Cli.Chalk Cli.white (if vv then Cli.success_mark +:+ "Yes"
                            else Cli.error_mark +:+ "No")]];
     [[Cli.Chalk Cli.gray "Vendor Name:"]; [Cli.Chalk Cli.white nm]];
     [];
     if sv && vv then Cli.line_trusted nm
     else if sv && negb vv then Cli.line_caution nm
     else Cli.line_do_not_trust].
Proof.
  unfold Cli.displayVerification.
  cbn [Cli.v_exists Cli.v_signatureValid Cli.v_vendorVerified Cli.v_vendorName negb].
  eapply (runs_bind _ _ _ _ [_; _; _]); [apply runs_header|].
  eapply (runs_bind _ _ _ _ [_]); [apply runs_keyValue|].
  eapply (runs_bind _ _ _ _ [_]).
  { destruct sv; apply runs_keyValue. }
  eapply (runs_bind _ _ _ _ [_]).
  { destruct vv; apply runs_keyValue. }
  eapply (runs_bind _ _ _ _ [_]); [apply runs_keyValue|].
  eapply (runs_bind _ _ _ _ [_]); [apply runs_console_log|].
  destruct sv, vv; cbn [andb negb].
  - apply runs_success.
  - apply runs_warning.
  - apply runs_error.
  - apply runs_error.
Qed.

(** The verdict lines are told from every other line [verifyCommand]
    prints by their colour and text. *)
Ltac tell_lines :=
  unfold Cli.line_not_found, Cli.line_trusted, Cli.line_caution, Cli.line_do_not_trust;
  split; [tell Cli.red|split; [tell Cli.green|split; [tell Cli.yellow|tell Cli.red]]].

(** [verifyCommand] on a file whose hash is registered. *)
Lemma verifyCommand_registered (w : Cli.World) (path content : string) cfg :
  reachable (Cli.chain w) ->
  Cli.files w !! path = Some content ->
  Cli.loadConfig_outcome (Cli.files w !! Cli.configPath) = Cli.Returned cfg ->
  let digest := keccak256 (Cli.toUtf8Bytes content) in
  let P := vendor (sbomRecords (Cli.chain w) @ (digest mod 2 ^ 256)) in
  let vv := verified (vendors (Cli.chain w) @ P) in
  let nm := name (vendors (Cli.chain w) @ P) in
  registered (Cli.chain w) (digest mod 2 ^ 256) ->
  exists out,
    Cli.runs (Cli.verifyCommand path) w
      (Cli.mkVerifyResult (Cli.mkVerification true true vv nm) (Cli.hexlify32 digest)) out /\
    (Cli.line_not_found ∈ out <-> true = false) /\
    (Cli.line_trusted nm ∈ out <-> true = true /\ vv = true) /\
    (Cli.line_caution nm ∈ out <-> true = true /\ vv = false) /\
    Cli.line_do_not_trust ∉ out.
Proof.
  intros Hreach Hfile Hcfg digest P vv nm Hreg.
  set (h := (digest mod 2 ^ 256)%N) in *.
  subst vv nm.
  assert (Hrun : exists tail,
    Cli.runs (Cli.verifyCommand path) w
      (Cli.mkVerifyResult
         (Cli.mkVerification true true (verified (vendors (Cli.chain w) @ P))
            (name (vendors (Cli.chain w) @ P))) (Cli.hexlify32 digest))
      ([[[Cli.Text Cli.newline; Cli.Chalk Cli.bold_cyan Cli.rule]];
        [[Cli.Chalk Cli.bold_cyan "VERIFYING SBOM"]];
        [[Cli.Chalk Cli.bold_cyan Cli.rule; Cli.Text Cli.newline]]] ++
       [[[Cli.Chalk Cli.blue (Cli.info_mark +:+ ("Reading SBOM file: " +:+ path))]]] ++
       [] ++
       [[[Cli.Chalk Cli.gray ("SBOM Hash" +:+ ":")];
         [Cli.Chalk Cli.white (Cli.hexlify32 digest)]]] ++
       [[]] ++
       [[[Cli.Chalk Cli.blue (Cli.info_mark +:+ "Querying blockchain...")]]] ++
       [] ++ [] ++ [] ++ ([] ++ [] ++ []) ++
       [[]] ++
       [[[Cli.Text Cli.newline; Cli.Chalk Cli.bold_cyan Cli.rule]];
        [[Cli.Chalk Cli.bold_cyan "VERIFICATION RESULTS"]];
        [[Cli.Chalk Cli.bold_cyan Cli.rule; Cli.Text Cli.newline]];
        [[Cli.Chalk Cli.gray "SBOM Exists:"];
         [Cli.Chalk Cli.white (Cli.success_mark +:+ "Yes")]];
        [[Cli.Chalk Cli.gray "Signature Valid:"];
         [Cli.Chalk Cli.white (Cli.success_mark +:+ "Yes")]];
        [[Cli.Chalk Cli.gray "Vendor Verified:"];
         [Cli.Chalk Cli.white (if verified (vendors (Cli.chain w) @ P)
                               then Cli.success_mark +:+ "Yes"
                               else Cli.error_mark +:+ "No")]];
        [[Cli.Chalk Cli.gray "Vendor Name:"];
         [Cli.Chalk Cli.white (name (vendors (Cli.chain w) @ P))]];
        [];
        if true && verified (vendors (Cli.chain w) @ P)
        then Cli.line_trusted (name (vendors (Cli.chain w) @ P))
        else if true && negb (verified (vendors (Cli.chain w) @ P))
        then Cli.line_caution (name (vendors (Cli.chain w) @ P))
        else Cli.line_do_not_trust] ++
       ([[]] ++
        [[[Cli.Text Cli.newline; Cli.Chalk Cli.bold_cyan Cli.rule]];
         [[Cli.Chalk Cli.bold_cyan "SBOM DETAILS"]];
         [[Cli.Chalk Cli.bold_cyan Cli.rule; Cli.Text Cli.newline]]] ++
        [[[Cli.Chalk Cli.gray ("Vendor Address" +:+ ":")];
          [Cli.Chalk Cli.white (Cli.getAddress P)]]] ++
        [[[Cli.Chalk Cli.gray ("Registered At" +:+ ":")];
          [Cli.Chalk Cli.white
             (Cli.toLocaleString (timestamp (sbomRecords (Cli.chain w) @ h)))]]] ++
        [[[Cli.Chalk Cli.gray ("Metadata" +:+ ":")];
          [Cli.Chalk Cli.white (metadata (sbomRecords (Cli.chain w) @ h))]]] ++
        tail) ++
       [[]] ++ [])
    /\ (tail = [] \/ exists v, tail = [[[Cli.Chalk Cli.gray ("Previous Version" +:+ ":")];
                                        [Cli.Chalk Cli.white v]]])).
  { eexists. split.
    - unfold Cli.verifyCommand. apply runs_try_catch.
      eapply runs_bind; [apply runs_header|].
      eapply runs_bind; [apply runs_info|].
      eapply runs_bind; [apply runs_hashSBOM; exact Hfile|].
      eapply runs_bind; [apply runs_keyValue|].
      eapply runs_bind; [apply runs_console_log|].
      eapply runs_bind; [apply runs_info|].
      eapply runs_bind; [eapply runs_getContractReadOnly; exact Hcfg|].
      eapply runs_bind; [apply runs_as_bytes32|].
      eapply runs_bind.
      { apply runs_call_view. apply verifyCompleteSBOM_registered; assumption. }
      cbn beta iota.
      eapply runs_bind.
      { eapply runs_bind; [apply runs_as_bytes32|].
        eapply runs_bind.
        { apply runs_call_view.
          apply verifySBOM_registered; assumption. }
        cbn beta iota. apply runs_ret. }
      eapply runs_bind; [apply runs_console_log|].
      eapply runs_bind; [apply runs_displayVerification_found|].
      eapply runs_bind.
      { eapply runs_bind; [apply runs_console_log|].
        eapply runs_bind; [apply runs_header|].
        eapply runs_bind; [apply runs_keyValue|].
        eapply runs_bind; [apply runs_keyValue|].
        eapply runs_bind; [apply runs_keyValue|].
        instantiate (1 :=
          if negb (String.eqb (Cli.r_previousHash
                                 (Cli.recordView (sbomRecords (Cli.chain w) @ h)))
                              Cli.ZeroHash)
          then [[[Cli.Chalk Cli.gray ("Previous Version" +:+ ":")];
                 [Cli.Chalk Cli.white
                    (Cli.r_previousHash
                       (Cli.recordView (sbomRecords (Cli.chain w) @ h)))]]]
          else []).
        destruct (negb _); [apply runs_keyValue|apply runs_ret]. }
      eapply runs_bind; [apply runs_console_log|].
      apply runs_ret.
    - destruct (negb _); eauto. }
  destruct Hrun as (tail & Hrun & Htail).
  eexists. split; [exact Hrun|].
  destruct (verified (vendors (Cli.chain w) @ P)); cbn [andb negb];
    destruct Htail as [->|[v ->]]; tell_lines.
Qed.

(** X19. [verifyCommand] on an existing file, with a loadable
    configuration, against a reachable registry: it returns (it does not
    throw), leaves files and registry as they were, and the result it
    returns carries the printed hash of the file's bytes and a
    signature-valid flag equal to its exists flag.  The flag is [true]
    exactly when that hash is registered.  Of the four verdicts of
    [displayVerification] it prints NOT FOUND exactly for an unregistered
    hash, TRUSTED exactly for a registered hash of a vendor verified now,
    CAUTION exactly for a registered hash of a vendor not verified now,
    and never DO NOT TRUST. *)
Theorem verifyCommand_verdict (w : Cli.World) (path content : string) cfg :
  reachable (Cli.chain w) ->
  Cli.files w !! path = Some content ->
  Cli.loadConfig_outcome (Cli.files w !! Cli.configPath) = Cli.Returned cfg ->
  let digest := keccak256 (Cli.toUtf8Bytes content) in
  exists e vv nm out,
    Cli.runs (Cli.verifyCommand path) w
      (Cli.mkVerifyResult (Cli.mkVerification e e vv nm) (Cli.hexlify32 digest)) out /\
    (e = true <-> registered (Cli.chain w) (digest mod 2 ^ 256)) /\
    (e = true ->
       let P := vendor (sbomRecords (Cli.chain w) @ (digest mod 2 ^ 256)) in
       vv = verified (vendors (Cli.chain w) @ P) /\
       nm = name (vendors (Cli.chain w) @ P)) /\
    (Cli.line_not_found ∈ out <-> e = false) /\
    (Cli.line_trusted nm ∈ out <-> e = true /\ vv = true) /\
    (Cli.line_caution nm ∈ out <-> e = true /\ vv = false) /\
    Cli.line_do_not_trust ∉ out.
Proof.
  intros Hreach Hfile Hcfg digest.
  set (h := (digest mod 2 ^ 256)%N).
  destruct (registered_dec (Cli.chain w) h) as [Hreg|Hn].
  - exists true, (verified (vendors (Cli.chain w) @ vendor (sbomRecords (Cli.chain w) @ h))),
      (name (vendors (Cli.chain w) @ vendor (sbomRecords (Cli.chain w) @ h))).
    destruct (verifyCommand_registered w path content cfg Hreach Hfile Hcfg Hreg)
      as (out & Hrun & Hlines).
    exists out. split; [exact Hrun|].
    split; [split; [intros _; exact Hreg|reflexivity]|].
    split; [intros _; split; reflexivity|].
    exact Hlines.
  - exists false, false, EmptyString.
    destruct (queries_of_unregistered _ _ Hn) as (_ & _ & Hq).
    eexists. split.
    { unfold Cli.verifyCommand. apply runs_try_catch.
      eapply runs_bind; [apply runs_header|].
      eapply runs_bind; [apply runs_info|].
      eapply runs_bind; [apply runs_hashSBOM; exact Hfile|].
      eapply runs_bind; [apply runs_keyValue|].
      eapply runs_bind; [apply runs_console_log|].
      eapply runs_bind; [apply runs_info|].
      eapply runs_bind; [eapply runs_getContractReadOnly; exact Hcfg|].
      eapply runs_bind; [apply runs_as_bytes32|].
      eapply runs_bind; [apply runs_call_view; exact Hq|].
      cbn beta iota.
      eapply runs_bind; [apply runs_ret|].
      eapply runs_bind; [apply runs_console_log|].
      eapply runs_bind; [apply runs_displayVerification_missing|].
      eapply runs_bind; [apply runs_ret|].
      eapply runs_bind; [apply runs_console_log|].
      apply runs_ret. }
    split; [split; [discriminate|intros Hreg; contradiction]|].
    split; [discriminate|].
    tell_lines.
Qed.

End VerifyCommand.

(** * The [history] command *)

Section HistoryCommand.

Context `{Primitives} `{Cli.Externals}.

Lemma runs_collect_records (l : list bytes32) records st :
  exists recs, forall w, Cli.chain w = st ->
    Cli.runs (Cli.collect_records (map Cli.hexlify32 l) records) w recs [].
Proof.
  revert records. induction l as [|v l IH]; intros records.
  - eexists. intros w _. apply runs_ret.
  - destruct (IH (<[Cli.hexlify32 v :=
                     Cli.recordView (sbomRecords st @ (v mod 2 ^ 256))]> records))
      as [recs Hr].
    exists recs. intros w <-. cbn [map Cli.collect_records].
    change (@nil Cli.LogCall) with (@nil Cli.LogCall ++ ([] ++ [])).
    eapply runs_bind; [apply runs_as_bytes32|].
    eapply runs_bind; [apply runs_call_view; reflexivity|].
    cbn beta iota. apply Hr. reflexivity.
Qed.

Lemma runs_displayHistory_from history index records :
  exists out, forall w, Cli.runs (Cli.displayHistory_from index history records) w tt out.
Proof.
  revert index. induction history as [|h rest IH]; intros index.
  - eexists. intros w. apply runs_ret.
  - cbn [Cli.displayHistory_from].
    destruct (IH (S index)) as [out Hout].
    eexists. intros w.
    eapply runs_bind; [apply runs_console_log|].
    eapply runs_bind; [apply runs_keyValue|].
    eapply runs_bind.
    { instantiate (1 :=
        match records !! h with
        | Some record =>
            [[[Cli.Chalk Cli.gray ("  Metadata" +:+ ":")];
              [Cli.Chalk Cli.white (Cli.r_metadata record)]]] ++
            [[[Cli.Chalk Cli.gray ("  Timestamp" +:+ ":")];
              [Cli.Chalk Cli.white (Cli.toLocaleString (Cli.r_timestamp record))]]] ++
            [[[Cli.Chalk Cli.gray ("  Vendor" +:+ ":")];
              [Cli.Chalk Cli.white (Cli.r_vendor record)]]]
        | None => []
        end).
      destruct (records !! h) as [record|].
      - eapply runs_bind; [apply runs_keyValue|].
        eapply runs_bind; [apply runs_keyValue|].
        apply runs_keyValue.
      - apply runs_ret. }
    eapply runs_bind; [apply runs_console_log|].
    apply Hout.
Qed.

(** X20. [historyCommand] given a hash (an argument that starts with
    [0x] and reads as 32 bytes), with a loadable configuration, against a
    reachable registry.  Whether it goes on to the history is decided by
    [verifySBOM] alone: for an unregistered hash it prints the not-found
    message and returns [found: false] without printing any history,
    whatever the history query would have answered; for a registered hash
    it returns [found: true] with the chain's hashes in registration order,
    printed in hex, with the root first and the hash asked for among them,
    the root's hex as [rootHash], and a [versionCount] of at least one. *)
Theorem historyCommand_by_hash (w : Cli.World) (s : string) (h : bytes32) cfg :
  reachable (Cli.chain w) ->
  Cli.startsWith s "0x" = true ->
  Cli.toBytes32 s = Some h ->
  Cli.loadConfig_outcome (Cli.files w !! Cli.configPath) = Cli.Returned cfg ->
  (~ registered (Cli.chain w) h ->
     Cli.runs (Cli.historyCommand s) w Cli.NotFound
       [[[Cli.Text Cli.newline; Cli.Chalk Cli.bold_cyan Cli.rule]];
        [[Cli.Chalk Cli.bold_cyan "SBOM VERSION HISTORY"]];
        [[Cli.Chalk Cli.bold_cyan Cli.rule; Cli.Text Cli.newline]];
        [[Cli.Chalk Cli.blue (Cli.info_mark +:+ "Using hash: " +:+ s)]];
        [];
        [[Cli.Chalk Cli.blue (Cli.info_mark +:+ "Querying blockchain for version history...")]];
        [];
        [[Cli.Chalk Cli.red (Cli.error_mark +:+ "SBOM not found on blockchain")]];
        [[Cli.Chalk Cli.blue (Cli.info_mark +:+ "This SBOM has never been registered")]]]) /\
  (registered (Cli.chain w) h ->
     exists l out,
       getVersionHistory h (Cli.chain w) = Ok l /\
       Cli.runs (Cli.historyCommand s) w
         (Cli.Found (map Cli.hexlify32 l)
            (Cli.hexlify32 (rootHash (Cli.chain w) @ h)) (length l)) out /\
       head l = Some (rootHash (Cli.chain w) @ h) /\
       h ∈ l /\
       (1 <= length l)%nat).
Proof.
  intros Hreach Hpre Hh Hcfg.
  assert (Harg : forall w', Cli.runs (Cli.as_bytes32 s) w' h []).
  { intros w'. unfold Cli.as_bytes32. rewrite Hh. apply runs_ret. }
  split.
  - intros Hn.
    destruct (queries_of_unregistered _ _ Hn) as (Hq & _ & _).
    unfold Cli.historyCommand. apply runs_try_catch.
    eapply (runs_bind _ _ _ _ [_; _; _]); [apply runs_header|].
    eapply (runs_bind _ _ _ _ [_]).
    { rewrite Hpre.
      eapply (runs_bind _ _ _ _ [_] _ []); [apply runs_info|apply runs_ret]. }
    eapply (runs_bind _ _ _ _ [_]); [apply runs_console_log|].
    eapply (runs_bind _ _ _ _ [_]); [apply runs_info|].
    eapply (runs_bind _ _ _ _ []); [eapply runs_getContractReadOnly; exact Hcfg|].
    eapply (runs_bind _ _ _ _ []); [apply Harg|].
    eapply (runs_bind _ _ _ _ []); [apply runs_call_view; exact Hq|].
    cbn beta iota. cbn [negb].
    eapply (runs_bind _ _ _ _ [_]); [apply runs_console_log|].
    eapply (runs_bind _ _ _ _ [_]); [apply runs_error|].
    eapply (runs_bind _ _ _ _ [_] _ []); [apply runs_info|].
    apply runs_ret.
  - intros Hreg.
    destruct (reachable_ChainInv _ Hreach) as [Cmem _ _ Chead _ _].
    set (l := versionHistory (Cli.chain w) @ (rootHash (Cli.chain w) @ h)).
    destruct (runs_collect_records l ∅ (Cli.chain w)) as [recs Hrecs].
    destruct (runs_displayHistory_from (map Cli.hexlify32 l) 0 recs) as [shown Hshown].
    exists l. eexists.
    split; [reflexivity|].
    split.
    { unfold Cli.historyCommand. apply runs_try_catch.
      eapply runs_bind; [apply runs_header|].
      eapply runs_bind.
      { rewrite Hpre. eapply runs_bind; [apply runs_info|apply runs_ret]. }
      eapply runs_bind; [apply runs_console_log|].
      eapply runs_bind; [apply runs_info|].
      eapply runs_bind; [eapply runs_getContractReadOnly; exact Hcfg|].
      eapply runs_bind; [apply Harg|].
      eapply runs_bind.
      { apply runs_call_view. apply verifySBOM_registered; assumption. }
      cbn beta iota. cbn [negb].
      eapply runs_bind; [apply Harg|].
      eapply runs_bind; [apply runs_call_view; reflexivity|].
      eapply runs_bind; [apply Harg|].
      eapply runs_bind; [apply runs_call_view; reflexivity|].
      eapply runs_bind; [apply Hrecs; reflexivity|].
      eapply runs_bind; [apply runs_console_log|].
      eapply runs_bind.
      { unfold Cli.displayHistory.
        eapply runs_bind; [apply runs_header|].
        eapply runs_bind; [apply runs_console_log|].
        apply Hshown. }
      eapply runs_bind; [apply runs_console_log|].
      eapply runs_bind; [apply runs_info|].
      eapply runs_bind; [apply runs_info|].
      eapply runs_bind; [apply runs_console_log|].
      rewrite length_map. apply runs_ret. }
    split; [apply Chead; assumption|].
    split; [apply Cmem; assumption|].
    pose proof (Cmem h Hreg) as Hin. fold l in Hin.
    destruct l; [inversion Hin|simpl; lia].
Qed.

End HistoryCommand.

(** * Display and configuration helpers *)

Lemma string_length_append (s t : string) :
  String.length (s +:+ t) = (String.length s + String.length t)%nat.
Proof. induction s as [|c s IH]; [reflexivity|]. simpl. now rewrite IH. Qed.

Lemma substring_length (n m : nat) (s : string) :
  String.length (String.substring n m s) = Nat.min m (String.length s - n).
Proof.
  revert n m. induction s as [|c s IH]; intros n m.
  - destruct n, m; reflexivity.
  - destruct n as [|n].
    + destruct m as [|m]; [reflexivity|]. simpl. rewrite IH. now rewrite Nat.sub_0_r.
    + simpl. apply IH.
Qed.

(** X21. [truncateHash] with a length that is not negative: a string no
    longer than the length comes back unchanged; a longer one comes back as
    its first [len] characters, three dots, and its last six characters
    (all of it when it has fewer than six), which is [len + 3 + min 6 n]
    characters and so longer than the input whenever the input has fewer
    than [len + 9] characters and at least six.  A [bytes32] printed in hex
    is cut to 19 characters by the default length of 10. *)
Theorem truncateHash_shape (h : string) (len : Z) :
  let n := String.length h in
  (0 <= len)%Z ->
  ((Z.of_nat n <= len)%Z -> Cli.truncateHash h len = h) /\
  ((len < Z.of_nat n)%Z ->
     Cli.truncateHash h len =
       String.substring 0 (Z.to_nat len) h +:+ "..." +:+
       String.substring (n - 6) (Nat.min 6 n) h /\
     String.length (Cli.truncateHash h len) = (Z.to_nat len + 3 + Nat.min 6 n)%nat /\
     ((6 <= n)%nat -> (Z.of_nat n < len + 9)%Z ->
        (n < String.length (Cli.truncateHash h len))%nat)) /\
  (forall x : bytes32,
     String.length (Cli.truncateHash_default (Cli.hexlify32 x)) = 19%nat).
Proof.
  intros n Hlen.
  assert (Hcut : (len < Z.of_nat n)%Z ->
     Cli.truncateHash h len =
       String.substring 0 (Z.to_nat len) h +:+ "..." +:+
       String.substring (n - 6) (Nat.min 6 n) h).
  { intros Hlt. unfold Cli.truncateHash. fold n.
    destruct (Z.leb_spec (Z.of_nat n) len) as [Hle|_]; [lia|].
    unfold Cli.slice, Cli.clamp. fold n.
    replace (0 <? 0)%Z with false by reflexivity.
    replace (len <? 0)%Z with false by (symmetry; apply Z.ltb_ge; lia).
    replace (-6 <? 0)%Z with true by reflexivity.
    replace (Z.to_nat (Z.min 0 (Z.of_nat n))) with 0%nat by lia.
    replace (Z.to_nat (Z.min len (Z.of_nat n) - Z.min 0 (Z.of_nat n)))
      with (Z.to_nat len) by lia.
    replace (Z.to_nat (Z.max (Z.of_nat n + -6) 0)) with (n - 6)%nat by lia.
    replace (Z.to_nat (Z.of_nat n - Z.max (Z.of_nat n + -6) 0))
      with (Nat.min 6 n) by lia.
    reflexivity. }
  assert (Hsize : (len < Z.of_nat n)%Z ->
     String.length (Cli.truncateHash h len) = (Z.to_nat len + 3 + Nat.min 6 n)%nat).
  { intros Hlt. rewrite (Hcut Hlt).
    rewrite !string_length_append, !substring_length. fold n.
    change (String.length "...") with 3%nat. lia. }
  split; [|split].
  - intros Hle. unfold Cli.truncateHash. fold n.
    destruct (Z.leb_spec (Z.of_nat n) len); [reflexivity|lia].
  - intros Hlt. split; [auto|]. split; [auto|].
    intros H6 H9. rewrite (Hsize Hlt). lia.
  - intros x. destruct (hexlify32_shape x) as (Hx & _).
    unfold Cli.truncateHash_default, Cli.truncateHash. rewrite Hx.
    replace (Z.of_nat 66 <=? 10)%Z with false by reflexivity.
    unfold Cli.slice, Cli.clamp. rewrite Hx.
    rewrite !string_length_append, !substring_length, Hx. reflexivity.
Qed.

Section Configuration.

Context `{Primitives} `{Cli.Externals}.

(** X22. [loadConfig] changes nothing.  A configuration it returns is the parsed file, an
    object whose [contractAddress] and [rpcUrl] are both truthy; without
    the file it throws the error that names the path and the [config]
    command, and a file that does not parse makes it throw the syntax
    error of [JSON.parse]. *)
Theorem loadConfig_result (w : Cli.World) :
  exists r, Cli.loadConfig w = (r, w) /\
    (forall cfg, r = Cli.Returned cfg ->
       exists content members,
         Cli.files w !! Cli.configPath = Some content /\
         Cli.JSON_parse content = Some cfg /\
         cfg = Cli.JObject members /\
         Cli.truthy (Cli.lookup_member "contractAddress" members) = true /\
         Cli.truthy (Cli.lookup_member "rpcUrl" members) = true) /\
    (Cli.files w !! Cli.configPath = None ->
       r = Cli.Thrown
             (Cli.Error ("Configuration file not found: " +:+ Cli.configPath +:+ Cli.newline
                         +:+ "Please run 'sbom-cli config' first."))) /\
    (forall content,
       Cli.files w !! Cli.configPath = Some content ->
       Cli.JSON_parse content = None ->
       r = Cli.Thrown (Cli.SyntaxError (Cli.JSON_parse_error content))).
Proof.
  eexists. split; [apply loadConfig_run|].
  unfold Cli.loadConfig_outcome.
  destruct (Cli.files w !! Cli.configPath) as [content|].
  - split; [|split; [discriminate|]].
    + intros cfg Hr. exists content.
      destruct (Cli.JSON_parse content) as [[|b|x|s|l|members]|]; try discriminate.
      exists members.
      destruct (Cli.truthy (Cli.lookup_member "contractAddress" members));
        [|discriminate].
      destruct (Cli.truthy (Cli.lookup_member "rpcUrl" members)); [|discriminate].
      simpl in Hr. injection Hr as <-. auto.
    + intros c [= <-] ->. reflexivity.
  - split; [discriminate|]. split; [reflexivity|discriminate].
Qed.

(** X23. [verifyCommand] does not swallow an error: it prints a
    [Verification failed] line with the error's message and throws the same
    error again.  On a path with no file it throws [File not found] before
    anything is hashed or asked of the registry; with a file but a
    configuration [loadConfig] refuses, it throws [loadConfig]'s error
    after printing the hash, and no verdict is printed. *)
Theorem verifyCommand_failure (w : Cli.World) (path : string) :
  (Cli.files w !! path = None ->
     Cli.throws (Cli.verifyCommand path) w (Cli.Error ("File not found: " +:+ path))
       [[[Cli.Text Cli.newline; Cli.Chalk Cli.bold_cyan Cli.rule]];
        [[Cli.Chalk Cli.bold_cyan "VERIFYING SBOM"]];
        [[Cli.Chalk Cli.bold_cyan Cli.rule; Cli.Text Cli.newline]];
        [[Cli.Chalk Cli.blue (Cli.info_mark +:+ "Reading SBOM file: " +:+ path)]];
        [];
        [[Cli.Chalk Cli.red
            (Cli.error_mark +:+ "Verification failed: " +:+ "File not found: " +:+ path)]]]) /\
  (forall content e,
     Cli.files w !! path = Some content ->
     Cli.loadConfig_outcome (Cli.files w !! Cli.configPath) = Cli.Thrown e ->
     Cli.throws (Cli.verifyCommand path) w e
       [[[Cli.Text Cli.newline; Cli.Chalk Cli.bold_cyan Cli.rule]];
        [[Cli.Chalk Cli.bold_cyan "VERIFYING SBOM"]];
        [[Cli.Chalk Cli.bold_cyan Cli.rule; Cli.Text Cli.newline]];
        [[Cli.Chalk Cli.blue (Cli.info_mark +:+ "Reading SBOM file: " +:+ path)]];
        [[Cli.Chalk Cli.gray "SBOM Hash:"];
         [Cli.Chalk Cli.white (Cli.hexlify32 (keccak256 (Cli.toUtf8Bytes content)))]];
        [];
        [[Cli.Chalk Cli.blue (Cli.info_mark +:+ "Querying blockchain...")]];
        [];
        [[Cli.Chalk Cli.red (Cli.error_mark +:+ "Verification failed: " +:+ Cli.message e)]]]).
Proof.
  split.
  - intros Hfile. unfold Cli.verifyCommand.
    eapply (throws_try_catch _ _ _ _ [_; _; _; _] _ [_; _]).
    + eapply (throws_bind_r _ _ _ _ [_; _; _] _ [_]); [apply runs_header|].
      eapply (throws_bind_r _ _ _ _ [_] _ []); [apply runs_info|].
      apply throws_bind_l. apply throws_hashSBOM. exact Hfile.
    + eapply (throws_bind_r _ _ _ _ [_] _ [_]); [apply runs_console_log|].
      eapply (throws_bind_r _ _ _ _ [_] _ []); [apply runs_error|].
      apply throws_throw.
  - intros content e Hfile Hcfg. unfold Cli.verifyCommand.
    eapply (throws_try_catch _ _ _ _ [_; _; _; _; _; _; _] _ [_; _]).
    + eapply (throws_bind_r _ _ _ _ [_; _; _] _ [_; _; _; _]); [apply runs_header|].
      eapply (throws_bind_r _ _ _ _ [_] _ [_; _; _]); [apply runs_info|].
      eapply (throws_bind_r _ _ _ _ [] _ [_; _; _]);
        [apply runs_hashSBOM; exact Hfile|].
      eapply (throws_bind_r _ _ _ _ [_] _ [_; _]); [apply runs_keyValue|].
      eapply (throws_bind_r _ _ _ _ [_] _ [_]); [apply runs_console_log|].
      eapply (throws_bind_r _ _ _ _ [_] _ []); [apply runs_info|].
      apply throws_bind_l. apply throws_getContractReadOnly. exact Hcfg.
    + eapply (throws_bind_r _ _ _ _ [_] _ [_]); [apply runs_console_log|].
      eapply (throws_bind_r _ _ _ _ [_] _ []); [apply runs_error|].
      apply throws_throw.
Qed.

End Configuration.

(** * Metadata, signing and transactions *)

Section Transactions.

Context `{Primitives} `{Cli.Externals}.

Lemma runs_extractMetadata path (fs : gmap string string) :
  exists md, forall w, Cli.files w = fs -> Cli.runs (Cli.extractMetadata path) w md [].
Proof.
  unfold Cli.runs, Cli.extractMetadata, Cli.try_catch, mbind, Cli.Cmd_bind,
    Cli.readFileSync.
  destruct (fs !! path) as [content|] eqn:Hfile;
    [|eexists; intros w <-; rewrite printed_nil, Hfile; reflexivity].
  destruct (Cli.JSON_parse content) as [sbom|] eqn:Hparse;
    [|eexists; intros w <-; rewrite printed_nil, Hfile, Hparse; reflexivity].
  destruct sbom as [|b|x|s|l|members];
    try (eexists; intros w <-; rewrite printed_nil, Hfile, Hparse; reflexivity).
  unfold Cli.get_property, mret, Cli.Cmd_ret.
  destruct (Cli.truthy (Cli.lookup_member "spdxVersion" members)) eqn:Hspdx;
    eexists; intros w <-; rewrite printed_nil, Hfile, Hparse, Hspdx; reflexivity.
Qed.

Lemma commits_of_runs {A} (c : Cli.Cmd A) w a l :
  Cli.runs c w a l -> Cli.commits c w a (Cli.chain w) l.
Proof. intros Hc. exact Hc. Qed.

Lemma commits_bind {A B} (c : Cli.Cmd A) (f : A -> Cli.Cmd B) w a l b st' l' :
  Cli.runs c w a l -> Cli.commits (f a) (Cli.printed w l) b st' l' ->
  Cli.commits (c ≫= f) w b st' (l ++ l').
Proof.
  unfold Cli.runs, Cli.commits, mbind, Cli.Cmd_bind. intros -> ->.
  simpl. now rewrite app_assoc.
Qed.

Lemma commits_try_catch {A} (c : Cli.Cmd A) h w a st' l :
  Cli.commits c w a st' l -> Cli.commits (Cli.try_catch c h) w a st' l.
Proof. unfold Cli.commits, Cli.try_catch. now intros ->. Qed.

Lemma commits_wait {B} (tx : Cli.Tx) (f : Cli.Receipt -> Cli.Cmd B) w x st' log b l :
  dispatch (Cli.tx_env tx) (Cli.tx_call tx) (Cli.chain w) = Done x st' log ->
  Cli.runs
    (f (Cli.mkReceipt (Cli.tx_hash tx) (Cli.mined_blockNumber (Cli.tx_mined tx))
          (Cli.mined_gasUsed (Cli.tx_mined tx)) 1))
    (Cli.mkWorld (Cli.files w) st' (Cli.console w)) b l ->
  Cli.commits (Cli.wait tx ≫= f) w b st' l.
Proof.
  unfold Cli.runs, Cli.commits, mbind, Cli.Cmd_bind, Cli.wait.
  intros -> ->. reflexivity.
Qed.

Lemma runs_submit wallet c w x st' log :
  dispatch (mkEnv (Cli.wallet_address wallet)
              (Cli.mined_timestamp (Cli.mine (Cli.wallet_address wallet) c (Cli.chain w))))
    c (Cli.chain w) = Done x st' log ->
  Cli.runs (Cli.submit wallet c) w
    (Cli.mkTx c (Cli.wallet_address wallet)
       (Cli.mine (Cli.wallet_address wallet) c (Cli.chain w))) [].
Proof.
  unfold Cli.runs, Cli.submit, Cli.tx_env. cbn [Cli.tx_from Cli.tx_mined].
  intros ->. now rewrite printed_nil.
Qed.

Lemma throws_submit wallet c w r st' :
  dispatch (mkEnv (Cli.wallet_address wallet)
              (Cli.mined_timestamp (Cli.mine (Cli.wallet_address wallet) c (Cli.chain w))))
    c (Cli.chain w) = Reverted r st' ->
  Cli.throws (Cli.submit wallet c) w (Cli.Error (Cli.call_exception r)) [].
Proof.
  unfold Cli.throws, Cli.submit, Cli.tx_env. cbn [Cli.tx_from Cli.tx_mined].
  intros ->. now rewrite printed_nil.
Qed.

Lemma runs_signHash (d : bytes32) wallet w :
  Cli.runs (Cli.signHash (Cli.hexlify32 d) wallet) w
    (Cli.signMessage wallet (encode_bytes32 d)) [].
Proof.
  unfold Cli.signHash.
  destruct (hexlify32_shape d) as (Hlen & Hpre & _).
  rewrite Hpre, Hlen. cbn [negb orb Nat.eqb].
  unfold Cli.hexlify32. rewrite getBytes_hexlify. apply runs_ret.
Qed.

Lemma runs_getContract wallet w cfg :
  Cli.loadConfig_outcome (Cli.files w !! Cli.configPath) = Cli.Returned cfg ->
  Cli.runs (Cli.getContract wallet) w tt [].
Proof.
  intros Hcfg. unfold Cli.runs, Cli.getContract, mbind, Cli.Cmd_bind.
  rewrite loadConfig_run. simpl. rewrite Hcfg.
  unfold mret, Cli.Cmd_ret. now rewrite printed_nil.
Qed.

Lemma runs_as_bytes s b w :
  Cli.getBytes s = Some b -> Cli.runs (Cli.as_bytes s) w b [].
Proof. intros Hs. unfold Cli.as_bytes. rewrite Hs. apply runs_ret. Qed.

Lemma runs_displayReceipt receipt w :
  Cli.runs (Cli.displayReceipt receipt) w tt
    [ [];
      [[Cli.Chalk Cli.gray "Transaction Hash:"];
       [Cli.Chalk Cli.white (Cli.receipt_hash receipt)]];
      [[Cli.Chalk Cli.gray "Block Number:"];
       [Cli.Chalk Cli.white (Cli.decimal (N.to_nat (Cli.receipt_blockNumber receipt)))]];
      [[Cli.Chalk Cli.gray "Gas Used:"];
       [Cli.Chalk Cli.white (Cli.decimal (N.to_nat (Cli.receipt_gasUsed receipt)))]];
      [[Cli.Chalk Cli.gray "Status:"];
       [Cli.Chalk Cli.white (if Cli.receipt_status receipt =? 1
                             then Cli.success_mark +:+ "Success"
                             else Cli.error_mark +:+ "Failed")]] ].
Proof.
  unfold Cli.displayReceipt.
  eapply (runs_bind _ _ _ _ [_]); [apply runs_console_log|].
  eapply (runs_bind _ _ _ _ [_]); [apply runs_keyValue|].
  eapply (runs_bind _ _ _ _ [_]); [apply runs_keyValue|].
  eapply (runs_bind _ _ _ _ [_]); [apply runs_keyValue|].
  apply runs_keyValue.
Qed.

(** A personal-message signature of a hash is one [recoverSigner] takes
    back to the wallet's address. *)
Lemma personal_signature_recovers wallet (d : bytes32) :
  Cli.personal_signature wallet (encode_bytes32 d) ->
  exists sg,
    Cli.getBytes (Cli.signMessage wallet (encode_bytes32 d)) = Some sg /\
    length sg = 65%nat /\
    recoverSigner (d mod 2 ^ 256) sg = Ok (Cli.wallet_address wallet).
Proof.
  intros (r & s & v & Hr & Hs & Hv & Hsig & Hrec).
  exists (encode_bytes32 r ++ encode_bytes32 s ++ [byte_of_N v]).
  destruct (packed_fields r s (byte_of_N v) Hr Hs) as (Hlen & Hfr & Hfs & Hfv).
  assert (Hv' : Byte.to_N (byte_of_N v) = v)
    by (apply to_N_byte_of_N; destruct Hv; subst; reflexivity).
  split; [rewrite Hsig; apply getBytes_hexlify|].
  split; [exact Hlen|].
  rewrite recoverSigner_run, Hlen. cbn [Nat.eqb negb].
  unfold normalized_v. rewrite Hfr, Hfs, Hfv, Hv'.
  assert (Henc : encode_bytes32 (d mod 2 ^ 256) = encode_bytes32 d)
    by (apply (be_bytes_mod 32 d)).
  unfold ethSignedHash. rewrite Henc.
  destruct Hv; subst v.
  - change (27 <? 27) with false. change ((27 =? 27) || (27 =? 28)) with true.
    cbn [negb]. now rewrite Hrec.
  - change (28 <? 27) with false. change ((28 =? 27) || (28 =? 28)) with true.
    cbn [negb]. now rewrite Hrec.
Qed.

(** X24. [extractMetadata] never throws and changes nothing, whatever the
    path: it returns an object of the four fields [name], [version],
    [timestamp] and [format].  Without the file, or when the file does not
    parse, the fields are the defaults [Unknown], [1.0.0] and [Unknown].
    For a parsed object the name and the version are the object's own
    when truthy, of whatever JSON type, and the defaults otherwise, and the
    format is [SPDX] whenever [spdxVersion] is truthy, [CycloneDX] when it
    is not and [bomFormat] is, and [Unknown] otherwise. *)
Theorem extractMetadata_total (path : string) (w : Cli.World) :
  exists name version format,
    Cli.runs (Cli.extractMetadata path) w (Cli.metadata_object name version format) [] /\
    Cli.truthy (Some name) = true /\
    Cli.truthy (Some version) = true /\
    (format = "SPDX" \/ format = "CycloneDX" \/ format = "Unknown") /\
    (Cli.files w !! path = None ->
       name = Cli.JString "Unknown" /\ version = Cli.JString "1.0.0" /\
       format = "Unknown") /\
    (forall content,
       Cli.files w !! path = Some content -> Cli.JSON_parse content = None ->
       name = Cli.JString "Unknown" /\ version = Cli.JString "1.0.0" /\
       format = "Unknown") /\
    (forall content members,
       Cli.files w !! path = Some content ->
       Cli.JSON_parse content = Some (Cli.JObject members) ->
       name = Cli.or_default (Cli.lookup_member "name" members) "Unknown" /\
       version = Cli.or_default (Cli.lookup_member "version" members) "1.0.0" /\
       format =
         if Cli.truthy (Cli.lookup_member "spdxVersion" members) then "SPDX"
         else if Cli.truthy (Cli.lookup_member "bomFormat" members) then "CycloneDX"
         else "Unknown").
Proof.
  assert (Hdefault : forall v d, d <> EmptyString ->
            Cli.truthy (Some (Cli.or_default v d)) = true).
  { intros v d Hd. unfold Cli.or_default.
    destruct v as [x|].
    - destruct (Cli.truthy (Some x)) eqn:E; [exact E|].
      simpl. destruct d; [contradiction|reflexivity].
    - simpl. destruct d; [contradiction|reflexivity]. }
  unfold Cli.runs, Cli.extractMetadata, Cli.try_catch, mbind, Cli.Cmd_bind,
    Cli.readFileSync.
  rewrite printed_nil.
  destruct (Cli.files w !! path) as [content|] eqn:Hfile.
  - destruct (Cli.JSON_parse content) as [sbom|] eqn:Hparse.
    + destruct sbom as [|b|x|s|l|members];
        try (exists (Cli.JString "Unknown"), (Cli.JString "1.0.0"), "Unknown";
             repeat split; auto; try discriminate; intros; congruence).
      exists (Cli.or_default (Cli.lookup_member "name" members) "Unknown"),
        (Cli.or_default (Cli.lookup_member "version" members) "1.0.0"),
        (if Cli.truthy (Cli.lookup_member "spdxVersion" members) then "SPDX"
         else if Cli.truthy (Cli.lookup_member "bomFormat" members) then "CycloneDX"
         else "Unknown").
      split.
      { unfold Cli.get_property, mret, Cli.Cmd_ret.
        destruct (Cli.truthy (Cli.lookup_member "spdxVersion" members)); reflexivity. }
      split; [apply Hdefault; discriminate|].
      split; [apply Hdefault; discriminate|].
      split.
      { destruct (Cli.truthy (Cli.lookup_member "spdxVersion" members)); auto.
        destruct (Cli.truthy (Cli.lookup_member "bomFormat" members)); auto. }
      split; [discriminate|]. split; [intros; congruence|].
      intros c m Hc Hm. assert (m = members) as -> by congruence. auto.
    + exists (Cli.JString "Unknown"), (Cli.JString "1.0.0"), "Unknown".
      repeat split; auto; try discriminate; intros; congruence.
  - exists (Cli.JString "Unknown"), (Cli.JString "1.0.0"), "Unknown".
    repeat split; auto; try discriminate; intros; congruence.
Qed.

End Transactions.

(** * The [register] command *)

Section RegisterCommand.

Context `{Primitives} `{Cli.Externals}.

(** X25. [registerCommand] by a verified vendor's wallet on a file whose
    hash is not yet registered, with a loadable configuration, against a
    reachable registry, where [signMessage] gives a personal-message
    signature: the command returns, the registry is left as a committed
    [registerSBOM] of the file's hash by the wallet's address leaves it,
    with the metadata string and the decoded signature as sent, and the
    files are untouched.  [verifyCommand] on the same file afterwards
    reports the hash as existing, validly signed and from a verified
    vendor, and prints the TRUSTED verdict with the vendor's name. *)
Theorem registerCommand_then_verify (w : Cli.World) (path content : string) cfg
    (wallet : Cli.Wallet) :
  reachable (Cli.chain w) ->
  Cli.files w !! path = Some content ->
  Cli.loadConfig_outcome (Cli.files w !! Cli.configPath) = Cli.Returned cfg ->
  let digest := keccak256 (Cli.toUtf8Bytes content) in
  let h := digest mod 2 ^ 256 in
  let P := Cli.wallet_address wallet in
  Cli.personal_signature wallet (encode_bytes32 digest) ->
  verified (vendors (Cli.chain w) @ P) = true ->
  ~ registered (Cli.chain w) h ->
  (forall c, 0 < Cli.mined_timestamp (Cli.mine P c (Cli.chain w))) ->
  exists md sg ts result out,
    let st' := register_commit (mkEnv P ts) h md sg (Cli.chain w) in
    Cli.commits (Cli.registerCommand path wallet) w result st' out /\
    Cli.rr_hash result = Cli.hexlify32 digest /\
    Cli.getBytes (Cli.signMessage wallet (encode_bytes32 digest)) = Some sg /\
    reachable st' /\
    verifySBOM h st' = Ok (true, mkSBOMRecord h P ts md 0 sg) /\
    exists shown,
      Cli.runs (Cli.verifyCommand path)
        (Cli.mkWorld (Cli.files w) st' (Cli.console w ++ out))
        (Cli.mkVerifyResult
           (Cli.mkVerification true true true (name (vendors (Cli.chain w) @ P)))
           (Cli.hexlify32 digest)) shown /\
      Cli.line_trusted (name (vendors (Cli.chain w) @ P)) ∈ shown.
Proof.
  intros Hreach Hfile Hcfg digest h P Hsign Hver Hfresh Htime.
  destruct (personal_signature_recovers wallet digest Hsign) as (sg & Hsg & Hlen & Hrec).
  destruct (runs_extractMetadata path (Cli.files w)) as [md Hmd].
  set (mdstr := Cli.JSON_stringify md).
  set (c := RegisterSBOM h mdstr sg).
  set (ts := Cli.mined_timestamp (Cli.mine P c (Cli.chain w))).
  set (env := mkEnv P ts).
  assert (Hok : register_ok env h sg (Cli.chain w)) by (repeat split; assumption).
  pose proof (registerSBOM_commits env h mdstr sg (Cli.chain w) Hok) as Hdone.
  set (st' := register_commit env h mdstr sg (Cli.chain w)) in *.
  assert (Hts : 0 < block_timestamp env) by apply Htime.
  assert (Hreach' : reachable st').
  { replace st' with (transact env c (Cli.chain w)).
    - apply reach_call; assumption.
    - unfold transact. cbn [dispatch c]. subst c. cbn [dispatch]. now rewrite Hdone. }
  assert (Hreg' : registered st' h) by (apply register_commit_registered; assumption).
  assert (Hrecord : sbomRecords st' @ h = mkSBOMRecord h P ts mdstr 0 sg).
  { subst st'. unfold register_commit. slots. reflexivity. }
  exists mdstr, sg, ts. eexists. eexists. cbn zeta. fold env. fold st'.
  split.
  { unfold Cli.registerCommand. apply commits_try_catch.
    eapply commits_bind; [apply runs_header|].
    eapply commits_bind; [apply runs_info|].
    eapply commits_bind; [apply runs_hashSBOM; exact Hfile|].
    eapply commits_bind; [apply runs_keyValue|].
    eapply commits_bind; [apply Hmd; reflexivity|].
    eapply commits_bind; [apply runs_keyValue|].
    eapply commits_bind; [apply runs_info|].
    eapply commits_bind; [apply runs_signHash|].
    eapply commits_bind; [apply runs_keyValue|].
    eapply commits_bind; [apply runs_keyValue|].
    eapply commits_bind; [apply runs_console_log|].
    eapply commits_bind; [apply runs_info|].
    eapply commits_bind; [eapply runs_getContract; exact Hcfg|].
    eapply commits_bind; [apply runs_as_bytes32|].
    eapply commits_bind; [apply runs_as_bytes; exact Hsg|].
    eapply commits_bind; [eapply runs_submit; exact Hdone|].
    eapply commits_bind; [apply runs_info|].
    eapply commits_bind; [apply runs_info|].
    eapply commits_wait; [exact Hdone|].
    eapply runs_bind; [apply runs_console_log|].
    eapply runs_bind; [apply runs_success|].
    eapply runs_bind; [apply runs_displayReceipt|].
    eapply runs_bind; [apply runs_console_log|].
    eapply runs_bind; [apply runs_info|].
    eapply runs_bind; [apply runs_console_log|].
    eapply runs_bind; [apply runs_console_log|].
    apply runs_ret. }
  split; [reflexivity|].
  split; [exact Hsg|].
  split; [exact Hreach'|].
  split; [rewrite (verifySBOM_registered _ _ Hreg'), Hrecord; reflexivity|].
  match goal with
  | |- exists shown, Cli.runs _ ?w' _ _ /\ _ =>
      destruct (verifyCommand_registered w' path content cfg Hreach' Hfile Hcfg Hreg')
        as (shown & Hrun & _ & Htrusted & _)
  end.
  cbn [Cli.chain] in Hrun, Htrusted. fold digest h in Hrun, Htrusted.
  rewrite Hrecord in Hrun, Htrusted. cbn [vendor] in Hrun, Htrusted.
  replace (vendors st') with (vendors (Cli.chain w)) in Hrun, Htrusted by reflexivity.
  rewrite Hver in Hrun, Htrusted.
  exists shown. split; [exact Hrun|]. apply Htrusted. split; reflexivity.
Qed.

(** X26. When the contract would refuse the registration, [registerCommand]
    sends nothing: it throws the call exception of the failing [require]
    and leaves registry and files as they were.  A file whose hash is
    registered already is refused as such whoever asks; a signature that
    recovers to another address than the wallet's is refused as a signer
    mismatch; and a wallet that signs well for an address that is not a
    verified vendor is refused as not verified, in which case the command
    also prints the wallet's address, provided the exception's message
    contains the contract's reason. *)
Theorem registerCommand_refused (w : Cli.World) (path content : string) cfg
    (wallet : Cli.Wallet) (sg : bytes) :
  Cli.files w !! path = Some content ->
  Cli.loadConfig_outcome (Cli.files w !! Cli.configPath) = Cli.Returned cfg ->
  let digest := keccak256 (Cli.toUtf8Bytes content) in
  let h := digest mod 2 ^ 256 in
  let P := Cli.wallet_address wallet in
  Cli.getBytes (Cli.signMessage wallet (encode_bytes32 digest)) = Some sg ->
  (registered (Cli.chain w) h ->
     exists out,
       Cli.throws (Cli.registerCommand path wallet) w
         (Cli.Error (Cli.call_exception SBOMAlreadyRegistered)) out) /\
  (forall Q, ~ registered (Cli.chain w) h -> length sg = 65%nat ->
     recoverSigner h sg = Ok Q -> Q <> P ->
     exists out,
       Cli.throws (Cli.registerCommand path wallet) w
         (Cli.Error (Cli.call_exception SignerMismatch)) out) /\
  (~ registered (Cli.chain w) h -> length sg = 65%nat ->
     recoverSigner h sg = Ok P ->
     verified (vendors (Cli.chain w) @ P) = false ->
     exists out,
       Cli.throws (Cli.registerCommand path wallet) w
         (Cli.Error (Cli.call_exception VendorNotVerifiedForSBOM)) out /\
       (Cli.includes (Cli.call_exception VendorNotVerifiedForSBOM) "Vendor not verified"
          = true ->
        [[Cli.Chalk Cli.blue (Cli.info_mark +:+ "Your address: " +:+ Cli.getAddress P)]]
          ∈ out)).
Proof.
  intros Hfile Hcfg digest h P Hsg.
  assert (Hthrow : forall r,
    (forall md ts, registerSBOM (mkEnv P ts) h md sg (Cli.chain w) =
                   Reverted r (Cli.chain w)) ->
    exists out,
      Cli.throws (Cli.registerCommand path wallet) w
        (Cli.Error (Cli.call_exception r)) out /\
      (Cli.includes (Cli.call_exception r) "Vendor not verified" = true ->
       [[Cli.Chalk Cli.blue (Cli.info_mark +:+ "Your address: " +:+ Cli.getAddress P)]]
         ∈ out)).
  { intros r Hrev.
    destruct (runs_extractMetadata path (Cli.files w)) as [md Hmd].
    destruct (Cli.includes (Cli.call_exception r) "Vendor not verified") eqn:Hhint;
      eexists; (split; [|first [discriminate | intros _]]).
    - unfold Cli.registerCommand. eapply throws_try_catch.
      + eapply throws_bind_r; [apply runs_header|].
        eapply throws_bind_r; [apply runs_info|].
        eapply throws_bind_r; [apply runs_hashSBOM; exact Hfile|].
        eapply throws_bind_r; [apply runs_keyValue|].
        eapply throws_bind_r; [apply Hmd; reflexivity|].
        eapply throws_bind_r; [apply runs_keyValue|].
        eapply throws_bind_r; [apply runs_info|].
        eapply throws_bind_r; [apply runs_signHash|].
        eapply throws_bind_r; [apply runs_keyValue|].
        eapply throws_bind_r; [apply runs_keyValue|].
        eapply throws_bind_r; [apply runs_console_log|].
        eapply throws_bind_r; [apply runs_info|].
        eapply throws_bind_r; [eapply runs_getContract; exact Hcfg|].
        eapply throws_bind_r; [apply runs_as_bytes32|].
        eapply throws_bind_r; [apply runs_as_bytes; exact Hsg|].
        apply throws_bind_l. eapply throws_submit. cbn [dispatch]. apply Hrev.
      + eapply throws_bind_r; [apply runs_console_log|].
        eapply throws_bind_r; [apply runs_error|].
        eapply throws_bind_r.
        { cbn [Cli.message]. rewrite Hhint.
          eapply runs_bind; [apply runs_console_log|].
          eapply runs_bind; [apply runs_info|].
          eapply runs_bind; [apply runs_info|].
          apply runs_info. }
        apply throws_throw.
    - in_shade Cli.blue. 
    - unfold Cli.registerCommand. eapply throws_try_catch.
      + eapply throws_bind_r; [apply runs_header|].
        eapply throws_bind_r; [apply runs_info|].
        eapply throws_bind_r; [apply runs_hashSBOM; exact Hfile|].
        eapply throws_bind_r; [apply runs_keyValue|].
        eapply throws_bind_r; [apply Hmd; reflexivity|].
        eapply throws_bind_r; [apply runs_keyValue|].
        eapply throws_bind_r; [apply runs_info|].
        eapply throws_bind_r; [apply runs_signHash|].
        eapply throws_bind_r; [apply runs_keyValue|].
        eapply throws_bind_r; [apply runs_keyValue|].
        eapply throws_bind_r; [apply runs_console_log|].
        eapply throws_bind_r; [apply runs_info|].
        eapply throws_bind_r; [eapply runs_getContract; exact Hcfg|].
        eapply throws_bind_r; [apply runs_as_bytes32|].
        eapply throws_bind_r; [apply runs_as_bytes; exact Hsg|].
        apply throws_bind_l. eapply throws_submit. cbn [dispatch]. apply Hrev.
      + eapply throws_bind_r; [apply runs_console_log|].
        eapply throws_bind_r; [apply runs_error|].
        eapply throws_bind_r.
        { cbn [Cli.message]. rewrite Hhint. apply runs_ret. }
        apply throws_throw. }
  split; [|split].
  - intros Hreg. destruct (Hthrow SBOMAlreadyRegistered) as (out & Hout & _).
    + intros md ts. rewrite registerSBOM_run. unfold registered in Hreg.
      destruct (N.eqb_spec (timestamp (sbomRecords (Cli.chain w) @ h)) 0);
        [contradiction|reflexivity].
    + exists out. exact Hout.
  - intros Q Hfresh Hlen Hrec HQ. destruct (Hthrow SignerMismatch) as (out & Hout & _).
    + intros md ts. rewrite registerSBOM_run. unfold registered in Hfresh.
      destruct (N.eqb_spec (timestamp (sbomRecords (Cli.chain w) @ h)) 0);
        [|contradiction].
      rewrite Hlen, Hrec. cbn [negb Nat.eqb msg_sender].
      destruct (N.eqb_spec Q P); [contradiction|reflexivity].
    + exists out. exact Hout.
  - intros Hfresh Hlen Hrec Hver. apply Hthrow.
    intros md ts. rewrite registerSBOM_run. unfold registered in Hfresh.
    destruct (N.eqb_spec (timestamp (sbomRecords (Cli.chain w) @ h)) 0);
      [|contradiction].
    rewrite Hlen, Hrec. cbn [negb Nat.eqb msg_sender].
    rewrite N.eqb_refl, Hver. reflexivity.
Qed.

End RegisterCommand.

(** * The [update] command *)

Lemma hexlify32_inj (d1 d2 : bytes32) :
  Cli.hexlify32 d1 = Cli.hexlify32 d2 <-> d1 mod 2 ^ 256 = d2 mod 2 ^ 256.
Proof.
  split.
  - intros Heq.
    destruct (hexlify32_shape d1) as (_ & _ & H1).
    destruct (hexlify32_shape d2) as (_ & _ & H2).
    rewrite Heq in H1. congruence.
  - intros Heq. unfold Cli.hexlify32, encode_bytes32.
    rewrite <- (be_bytes_mod 32 d1), <- (be_bytes_mod 32 d2).
    change (256 ^ N.of_nat 32) with (2 ^ 256). now rewrite Heq.
Qed.

Section UpdateCommand.

Context `{Primitives} `{Cli.Externals}.

(** X27. The two early exits of [updateCommand].  When the two files have
    the same hash it warns and returns [updated: false] before it reads the
    configuration or asks the registry anything.  When the hashes differ
    and the old one is not registered, it throws [Old SBOM not registered]
    itself: nothing is signed or sent, and the registry is as it was. *)
Theorem updateCommand_stops_early (w : Cli.World) (oldFilePath newFilePath : string)
    (oldContent newContent : string) (wallet : Cli.Wallet) :
  Cli.files w !! oldFilePath = Some oldContent ->
  Cli.files w !! newFilePath = Some newContent ->
  let oldDigest := keccak256 (Cli.toUtf8Bytes oldContent) in
  let newDigest := keccak256 (Cli.toUtf8Bytes newContent) in
  (oldDigest mod 2 ^ 256 = newDigest mod 2 ^ 256 ->
     Cli.runs (Cli.updateCommand oldFilePath newFilePath wallet) w Cli.NotUpdated
       [[[Cli.Text Cli.newline; Cli.Chalk Cli.bold_cyan Cli.rule]];
        [[Cli.Chalk Cli.bold_cyan "UPDATING SBOM VERSION"]];
        [[Cli.Chalk Cli.bold_cyan Cli.rule; Cli.Text Cli.newline]];
        [[Cli.Chalk Cli.blue (Cli.info_mark +:+ "Reading old SBOM: " +:+ oldFilePath)]];
        [[Cli.Chalk Cli.gray "Old Hash:"]; [Cli.Chalk Cli.white (Cli.hexlify32 oldDigest)]];
        [[Cli.Chalk Cli.blue (Cli.info_mark +:+ "Reading new SBOM: " +:+ newFilePath)]];
        [[Cli.Chalk Cli.gray "New Hash:"]; [Cli.Chalk Cli.white (Cli.hexlify32 newDigest)]];
        [[Cli.Chalk Cli.yellow
            (Cli.warning_mark +:+ "Files are identical (same hash). No update needed.")]]]) /\
  (forall cfg,
     oldDigest mod 2 ^ 256 <> newDigest mod 2 ^ 256 ->
     Cli.loadConfig_outcome (Cli.files w !! Cli.configPath) = Cli.Returned cfg ->
     ~ registered (Cli.chain w) (oldDigest mod 2 ^ 256) ->
     Cli.throws (Cli.updateCommand oldFilePath newFilePath wallet) w
       (Cli.Error "Old SBOM not registered")
       [[[Cli.Text Cli.newline; Cli.Chalk Cli.bold_cyan Cli.rule]];
        [[Cli.Chalk Cli.bold_cyan "UPDATING SBOM VERSION"]];
        [[Cli.Chalk Cli.bold_cyan Cli.rule; Cli.Text Cli.newline]];
        [[Cli.Chalk Cli.blue (Cli.info_mark +:+ "Reading old SBOM: " +:+ oldFilePath)]];
        [[Cli.Chalk Cli.gray "Old Hash:"]; [Cli.Chalk Cli.white (Cli.hexlify32 oldDigest)]];
        [[Cli.Chalk Cli.blue (Cli.info_mark +:+ "Reading new SBOM: " +:+ newFilePath)]];
        [[Cli.Chalk Cli.gray "New Hash:"]; [Cli.Chalk Cli.white (Cli.hexlify32 newDigest)]];
        [];
        [[Cli.Chalk Cli.blue (Cli.info_mark +:+ "Verifying old SBOM exists...")]];
        [[Cli.Chalk Cli.red (Cli.error_mark +:+ "Old SBOM not found on blockchain!")]];
        [[Cli.Chalk Cli.blue
            (Cli.info_mark +:+ "Please register it first using: sbom-cli register")]];
        [];
        [[Cli.Chalk Cli.red
            (Cli.error_mark +:+ "Update failed: " +:+ "Old SBOM not registered")]]]).
Proof.
  intros Hold Hnew oldDigest newDigest. split.
  - intros Hsame.
    assert (Heq : String.eqb (Cli.hexlify32 oldDigest) (Cli.hexlify32 newDigest) = true)
      by (apply String.eqb_eq, hexlify32_inj; exact Hsame).
    unfold Cli.updateCommand. apply runs_try_catch.
    eapply (runs_bind _ _ _ _ [_; _; _]); [apply runs_header|].
    eapply (runs_bind _ _ _ _ [_]); [apply runs_info|].
    eapply (runs_bind _ _ _ _ []); [apply runs_hashSBOM; exact Hold|].
    eapply (runs_bind _ _ _ _ [_]); [apply runs_keyValue|].
    eapply (runs_bind _ _ _ _ [_]); [apply runs_info|].
    eapply (runs_bind _ _ _ _ []); [apply runs_hashSBOM; exact Hnew|].
    eapply (runs_bind _ _ _ _ [_]); [apply runs_keyValue|].
    unfold oldDigest, newDigest in Heq. rewrite Heq.
    eapply (runs_bind _ _ _ _ [_] _ []); [apply runs_warning|apply runs_ret].
  - intros cfg Hdiff Hcfg Hn.
    assert (Hne : String.eqb (Cli.hexlify32 oldDigest) (Cli.hexlify32 newDigest) = false).
    { apply String.eqb_neq. intros Heq. apply Hdiff. now apply hexlify32_inj. }
    destruct (queries_of_unregistered _ _ Hn) as (Hq & _ & _).
    unfold Cli.updateCommand.
    eapply (throws_try_catch _ _ _ _ [_; _; _; _; _; _; _; _; _; _; _] _ [_; _]).
    + eapply (throws_bind_r _ _ _ _ [_; _; _] _ [_; _; _; _; _; _; _; _]);
        [apply runs_header|].
      eapply (throws_bind_r _ _ _ _ [_] _ [_; _; _; _; _; _; _]); [apply runs_info|].
      eapply (throws_bind_r _ _ _ _ [] _ [_; _; _; _; _; _; _]);
        [apply runs_hashSBOM; exact Hold|].
      eapply (throws_bind_r _ _ _ _ [_] _ [_; _; _; _; _; _]); [apply runs_keyValue|].
      eapply (throws_bind_r _ _ _ _ [_] _ [_; _; _; _; _]); [apply runs_info|].
      eapply (throws_bind_r _ _ _ _ [] _ [_; _; _; _; _]);
        [apply runs_hashSBOM; exact Hnew|].
      eapply (throws_bind_r _ _ _ _ [_] _ [_; _; _; _]); [apply runs_keyValue|].
      unfold oldDigest, newDigest in Hne. rewrite Hne.
      eapply (throws_bind_r _ _ _ _ [_] _ [_; _; _]); [apply runs_console_log|].
      eapply (throws_bind_r _ _ _ _ [_] _ [_; _]); [apply runs_info|].
      eapply (throws_bind_r _ _ _ _ [] _ [_; _]);
        [eapply runs_getContractReadOnly; exact Hcfg|].
      eapply (throws_bind_r _ _ _ _ [] _ [_; _]); [apply runs_as_bytes32|].
      eapply (throws_bind_r _ _ _ _ [] _ [_; _]); [apply runs_call_view; exact Hq|].
      cbn beta iota. cbn [negb].
      eapply (throws_bind_r _ _ _ _ [_] _ [_]); [apply runs_error|].
      eapply (throws_bind_r _ _ _ _ [_] _ []); [apply runs_info|].
      apply throws_throw.
    + eapply (throws_bind_r _ _ _ _ [_] _ [_]); [apply runs_console_log|].
      eapply (throws_bind_r _ _ _ _ [_] _ []); [apply runs_error|].
      eapply (throws_bind_r _ _ _ _ [] _ []).
      { cbn [Cli.message].
        change (Cli.includes "Old SBOM not registered" "Only original vendor") with false.
        apply runs_ret. }
      apply throws_throw.
Qed.

(** X28. [updateCommand] by the wallet of the vendor that registered the
    old file, given a new file with another hash that is not yet
    registered, with a loadable configuration, against a reachable
    registry, where [signMessage] gives a personal-message signature: the
    command returns [updated: true], and the registry is left as a
    committed [updateSBOM] from the old hash to the new one leaves it.
    The version count it reports is one more than the length of the
    chain before, so at least two, and the new hash closes the chain.
    That the vendor is still verified is not asked for. *)
Theorem updateCommand_updates (w : Cli.World) (oldFilePath newFilePath : string)
    (oldContent newContent : string) cfg (wallet : Cli.Wallet) :
  reachable (Cli.chain w) ->
  Cli.files w !! oldFilePath = Some oldContent ->
  Cli.files w !! newFilePath = Some newContent ->
  Cli.loadConfig_outcome (Cli.files w !! Cli.configPath) = Cli.Returned cfg ->
  let oldDigest := keccak256 (Cli.toUtf8Bytes oldContent) in
  let newDigest := keccak256 (Cli.toUtf8Bytes newContent) in
  let old := oldDigest mod 2 ^ 256 in
  let new := newDigest mod 2 ^ 256 in
  let P := Cli.wallet_address wallet in
  let chain_before := versionHistory (Cli.chain w) @ (rootHash (Cli.chain w) @ old) in
  registered (Cli.chain w) old ->
  vendor (sbomRecords (Cli.chain w) @ old) = P ->
  ~ registered (Cli.chain w) new ->
  Cli.personal_signature wallet (encode_bytes32 newDigest) ->
  (forall c, 0 < Cli.mined_timestamp (Cli.mine P c (Cli.chain w))) ->
  exists md sg ts txHash out,
    let st' := update_commit (mkEnv P ts) old new md sg (Cli.chain w) in
    Cli.commits (Cli.updateCommand oldFilePath newFilePath wallet) w
      (Cli.Updated (Cli.hexlify32 oldDigest) (Cli.hexlify32 newDigest) txHash
         (S (length chain_before))) st' out /\
    reachable st' /\
    getVersionHistory new st' = Ok (chain_before ++ [new]) /\
    (2 <= S (length chain_before))%nat /\
    verifySBOM new st' = Ok (true, mkSBOMRecord new P ts md old sg).
Proof.
  intros Hreach Hold Hnew Hcfg oldDigest newDigest old new P chain_before
    Hreg Hown Hfresh Hsign Htime.
  destruct (personal_signature_recovers wallet newDigest Hsign) as (sg & Hsg & Hlen & Hrec).
  destruct (runs_extractMetadata newFilePath (Cli.files w)) as [md Hmd].
  set (mdstr := Cli.JSON_stringify md).
  set (c := UpdateSBOM old new mdstr sg).
  set (ts := Cli.mined_timestamp (Cli.mine P c (Cli.chain w))).
  set (env := mkEnv P ts).
  assert (Hok : update_ok env old new sg (Cli.chain w)) by (repeat split; assumption).
  pose proof (updateSBOM_commits env old new mdstr sg (Cli.chain w) Hok) as Hdone.
  set (st' := update_commit env old new mdstr sg (Cli.chain w)) in *.
  assert (Hts : 0 < block_timestamp env) by apply Htime.
  assert (Hreach' : reachable st').
  { replace st' with (transact env c (Cli.chain w)).
    - apply reach_call; assumption.
    - unfold transact. subst c. cbn [dispatch]. now rewrite Hdone. }
  assert (Hreg' : registered st' new) by (apply update_commit_registered; assumption).
  assert (Hrecord : sbomRecords st' @ new = mkSBOMRecord new P ts mdstr old sg).
  { subst st'. unfold update_commit. slots. reflexivity. }
  assert (Hhistory : getVersionHistory new st' = Ok (chain_before ++ [new])).
  { subst st'. unfold getVersionHistory, update_commit. slots. reflexivity. }
  assert (Hdiff : old <> new) by (intros Heq; apply Hfresh; now rewrite <- Heq).
  assert (Hne : String.eqb (Cli.hexlify32 oldDigest) (Cli.hexlify32 newDigest) = false).
  { apply String.eqb_neq. intros Heq. apply Hdiff. now apply hexlify32_inj. }
  exists mdstr, sg, ts. eexists. eexists. cbn zeta. fold env. fold st'.
  split.
  { unfold Cli.updateCommand. apply commits_try_catch.
    eapply commits_bind; [apply runs_header|].
    eapply commits_bind; [apply runs_info|].
    eapply commits_bind; [apply runs_hashSBOM; exact Hold|].
    eapply commits_bind; [apply runs_keyValue|].
    eapply commits_bind; [apply runs_info|].
    eapply commits_bind; [apply runs_hashSBOM; exact Hnew|].
    eapply commits_bind; [apply runs_keyValue|].
    unfold oldDigest, newDigest in Hne. rewrite Hne.
    eapply commits_bind; [apply runs_console_log|].
    eapply commits_bind; [apply runs_info|].
    eapply commits_bind; [eapply runs_getContractReadOnly; exact Hcfg|].
    eapply commits_bind; [apply runs_as_bytes32|].
    eapply commits_bind.
    { apply runs_call_view. apply verifySBOM_registered. exact Hreg. }
    cbn beta iota. cbn [negb].
    eapply commits_bind; [apply runs_success|].
    eapply commits_bind; [apply Hmd; reflexivity|].
    eapply commits_bind; [apply runs_keyValue|].
    eapply commits_bind; [apply runs_info|].
    eapply commits_bind; [apply runs_signHash|].
    eapply commits_bind; [apply runs_keyValue|].
    eapply commits_bind; [apply runs_console_log|].
    eapply commits_bind; [apply runs_info|].
    eapply commits_bind; [eapply runs_getContract; exact Hcfg|].
    eapply commits_bind; [apply runs_as_bytes32|].
    eapply commits_bind; [apply runs_as_bytes32|].
    eapply commits_bind; [apply runs_as_bytes; exact Hsg|].
    eapply commits_bind; [eapply runs_submit; exact Hdone|].
    eapply commits_bind; [apply runs_info|].
    eapply commits_bind; [apply runs_info|].
    eapply commits_wait; [exact Hdone|].
    eapply runs_bind; [apply runs_console_log|].
    eapply runs_bind; [apply runs_success|].
    eapply runs_bind; [apply runs_displayReceipt|].
    eapply runs_bind; [apply runs_console_log|].
    eapply runs_bind; [apply runs_as_bytes32|].
    eapply runs_bind; [apply runs_call_view; exact Hhistory|].
    cbn zeta. rewrite length_map, length_app. cbn [length].
    replace (length chain_before + 1)%nat with (S (length chain_before)) by lia.
    eapply runs_bind; [apply runs_info|].
    eapply runs_bind; [apply runs_console_log|].
    eapply runs_bind; [apply runs_info|].
    eapply runs_bind; [apply runs_console_log|].
    eapply runs_bind; [apply runs_console_log|].
    apply runs_ret. }
  split; [exact Hreach'|].
  split; [exact Hhistory|].
  split.
  { destruct (reachable_ChainInv _ Hreach) as [Cmem _ _ _ _ _].
    pose proof (Cmem old Hreg) as Hin. fold chain_before in Hin.
    destruct chain_before; [inversion Hin|simpl; lia]. }
  rewrite (verifySBOM_registered _ _ Hreg'), Hrecord. reflexivity.
Qed.

End UpdateCommand.

(** * The sample client at work *)

Example toy_sbom_digest : toy_keccak256 (list_byte_of_string toy_sbom) = 11.
Proof. vm_compute. reflexivity. Qed.

Example toy_config_loads :
  @Cli.loadConfig_outcome toy_externals
    (Cli.files toy_world !! @Cli.configPath toy_externals) = Cli.Returned toy_config.
Proof. vm_compute. reflexivity. Qed.

Example toy_verify_result :
  fst (@Cli.verifyCommand toy toy_externals "app.cdx.json" toy_world) =
  Cli.Returned
    (Cli.mkVerifyResult (Cli.mkVerification true true false "Acme")
       "0x000000000000000000000000000000000000000000000000000000000000000b").
Proof. vm_compute. reflexivity. Qed.

Example toy_history_result :
  fst (@Cli.historyCommand toy toy_externals
         "0x000000000000000000000000000000000000000000000000000000000000000c" toy_world) =
  Cli.Returned
    (Cli.Found
       ["0x000000000000000000000000000000000000000000000000000000000000000b";
        "0x000000000000000000000000000000000000000000000000000000000000000c"]
       "0x000000000000000000000000000000000000000000000000000000000000000b" 2).
Proof. vm_compute. reflexivity. Qed.

Lemma verifyCommand_verdict_witness :
  exists e vv nm out,
    Cli.runs (@Cli.verifyCommand toy toy_externals "app.cdx.json") toy_world
      (Cli.mkVerifyResult (Cli.mkVerification e e vv nm)
         (Cli.hexlify32 (@keccak256 toy (@Cli.toUtf8Bytes toy_externals toy_sbom)))) out /\
    Cli.line_do_not_trust ∉ out.
Proof.
  destruct (@verifyCommand_verdict toy toy_externals toy_world "app.cdx.json" toy_sbom
              toy_config st4_reachable eq_refl toy_config_loads)
    as (e & vv & nm & out & Hrun & _ & _ & _ & _ & _ & Hno).
  exists e, vv, nm, out. split; [exact Hrun|exact Hno].
Defined.

Lemma verifyCommand_failure_witness :
  Cli.throws (@Cli.verifyCommand toy toy_externals "missing.json") toy_world
    (Cli.Error "File not found: missing.json")
    [[[Cli.Text Cli.newline; Cli.Chalk Cli.bold_cyan Cli.rule]];
     [[Cli.Chalk Cli.bold_cyan "VERIFYING SBOM"]];
     [[Cli.Chalk Cli.bold_cyan Cli.rule; Cli.Text Cli.newline]];
     [[Cli.Chalk Cli.blue (Cli.info_mark +:+ "Reading SBOM file: " +:+ "missing.json")]];
     [];
     [[Cli.Chalk Cli.red
         (Cli.error_mark +:+ "Verification failed: " +:+ "File not found: "
          +:+ "missing.json")]]].
Proof.
  exact (proj1 (@verifyCommand_failure toy toy_externals toy_world "missing.json") eq_refl).
Defined.

Lemma historyCommand_by_hash_witness :
  exists l out,
    @getVersionHistory 12 st4 = Ok l /\
    Cli.runs
      (@Cli.historyCommand toy toy_externals
         "0x000000000000000000000000000000000000000000000000000000000000000c")
      toy_world
      (Cli.Found (map Cli.hexlify32 l) (Cli.hexlify32 (rootHash st4 @ 12)) (length l)) out /\
    (1 <= length l)%nat.
Proof.
  assert (Hreg : registered st4 12) by (unfold registered; vm_compute; discriminate).
  destruct (proj2 (@historyCommand_by_hash toy toy_externals toy_world
                     "0x000000000000000000000000000000000000000000000000000000000000000c"
                     12 toy_config st4_reachable eq_refl eq_refl toy_config_loads) Hreg)
    as (l & out & Hl & Hrun & _ & _ & Hlen).
  exists l, out. split; [exact Hl|]. split; [exact Hrun|exact Hlen].
Defined.

Lemma truncateHash_shape_witness :
  Cli.truncateHash "0x1234567890abcdef" 10 = "0x12345678...abcdef" /\
  String.length (Cli.truncateHash "0x1234567890abcdef" 10) = 19%nat.
Proof.
  assert (H10 : (0 <= 10)%Z) by lia.
  assert (Hlt : (10 < Z.of_nat (String.length "0x1234567890abcdef"))%Z)
    by (vm_compute; reflexivity).
  destruct (proj1 (proj2 (truncateHash_shape "0x1234567890abcdef" 10 H10)) Hlt)
    as (Heq & Hsize & _).
  split; [exact Heq|exact Hsize].
Defined.

Example toy_config_loads_fresh :
  @Cli.loadConfig_outcome toy_externals
    (Cli.files toy_world_fresh !! @Cli.configPath toy_externals) = Cli.Returned toy_config.
Proof. vm_compute. reflexivity. Qed.

Example toy_config_loads_late :
  @Cli.loadConfig_outcome toy_externals
    (Cli.files toy_world_late !! @Cli.configPath toy_externals) = Cli.Returned toy_config.
Proof. vm_compute. reflexivity. Qed.

Lemma toy_wallet_signs (content : string) :
  @Cli.personal_signature toy toy_wallet
    (encode_bytes32 (@keccak256 toy (@Cli.toUtf8Bytes toy_externals content))).
Proof.
  set (d := @keccak256 toy (@Cli.toUtf8Bytes toy_externals content)).
  assert (Hpow : 256 ^ N.of_nat 32 = 2 ^ 256) by reflexivity.
  assert (Hv : be_value (encode_bytes32 d) = d mod 2 ^ 256).
  { unfold encode_bytes32. now rewrite be_value_be_bytes, Hpow. }
  exists acme, (d mod 2 ^ 256), 27.
  split; [reflexivity|].
  split; [apply N.mod_lt; discriminate|].
  split; [now left|].
  split.
  - cbn [Cli.signMessage toy_wallet]. rewrite Hv. reflexivity.
  - cbn [ecrecover keccak256 toy toy_ecrecover toy_keccak256 Cli.wallet_address toy_wallet].
    unfold toy_ecrecover, toy_keccak256.
    replace (be_value (skipn 28 (eth_prefix ++ encode_bytes32 d))) with (d mod 2 ^ 256)
      by (rewrite <- Hv; reflexivity).
    now rewrite N.eqb_refl.
Qed.

Lemma registerCommand_then_verify_witness :
  exists md sg ts result out,
    Cli.commits (@Cli.registerCommand toy toy_externals "app.cdx.json" toy_wallet)
      toy_world_fresh result
      (@register_commit
         (mkEnv acme ts)
         (@keccak256 toy (@Cli.toUtf8Bytes toy_externals toy_sbom) mod 2 ^ 256)
         md sg st1) out.
Proof.
  assert (Hver : verified (vendors st1 @ acme) = true) by (vm_compute; reflexivity).
  assert (Hfresh : ~ registered st1
            (@keccak256 toy (@Cli.toUtf8Bytes toy_externals toy_sbom) mod 2 ^ 256)).
  { unfold registered. vm_compute. intros Hne. now apply Hne. }
  destruct (@registerCommand_then_verify toy toy_externals toy_world_fresh
              "app.cdx.json" toy_sbom toy_config toy_wallet
              st1_reachable eq_refl toy_config_loads_fresh
              (toy_wallet_signs toy_sbom) Hver Hfresh (fun _ => eq_refl))
    as (md & sg & ts & result & out & Hrun & _).
  exists md, sg, ts, result, out. exact Hrun.
Defined.

Lemma registerCommand_refused_witness :
  exists out,
    Cli.throws (@Cli.registerCommand toy toy_externals "app.cdx.json" toy_wallet)
      toy_world_late
      (Cli.Error (@Cli.call_exception toy_externals SBOMAlreadyRegistered)) out.
Proof.
  assert (Hsg : Cli.getBytes
            (Cli.signMessage toy_wallet
               (encode_bytes32 (@keccak256 toy (@Cli.toUtf8Bytes toy_externals toy_sbom))))
          = Some (toy_sign acme 11)) by (vm_compute; reflexivity).
  assert (Hreg : registered st4
            (@keccak256 toy (@Cli.toUtf8Bytes toy_externals toy_sbom) mod 2 ^ 256)).
  { unfold registered. vm_compute. discriminate. }
  exact (proj1 (@registerCommand_refused toy toy_externals toy_world_late
                  "app.cdx.json" toy_sbom toy_config toy_wallet (toy_sign acme 11)
                  eq_refl toy_config_loads_late Hsg) Hreg).
Defined.

Lemma updateCommand_stops_early_witness :
  exists out,
    Cli.runs (@Cli.updateCommand toy toy_externals "app.cdx.json" "app.cdx.json" toy_wallet)
      toy_world_late Cli.NotUpdated out.
Proof.
  eexists.
  exact (proj1 (@updateCommand_stops_early toy toy_externals toy_world_late
                  "app.cdx.json" "app.cdx.json" toy_sbom toy_sbom toy_wallet
                  eq_refl eq_refl) eq_refl).
Defined.

Lemma updateCommand_updates_witness :
  exists md sg ts txHash out,
    Cli.commits
      (@Cli.updateCommand toy toy_externals "app.cdx.json" "app-next.cdx.json" toy_wallet)
      toy_world_late
      (Cli.Updated
         (Cli.hexlify32 (@keccak256 toy (@Cli.toUtf8Bytes toy_externals toy_sbom)))
         (Cli.hexlify32 (@keccak256 toy (@Cli.toUtf8Bytes toy_externals toy_sbom_next)))
         txHash
         (S (length (versionHistory st4 @
                       (rootHash st4 @
                          (@keccak256 toy (@Cli.toUtf8Bytes toy_externals toy_sbom)
                           mod 2 ^ 256))))))
      (@update_commit (mkEnv acme ts)
         (@keccak256 toy (@Cli.toUtf8Bytes toy_externals toy_sbom) mod 2 ^ 256)
         (@keccak256 toy (@Cli.toUtf8Bytes toy_externals toy_sbom_next) mod 2 ^ 256)
         md sg st4) out.
Proof.
  assert (Hreg : registered st4
            (@keccak256 toy (@Cli.toUtf8Bytes toy_externals toy_sbom) mod 2 ^ 256)).
  { unfold registered. vm_compute. discriminate. }
  assert (Hown : vendor (sbomRecords st4 @
                  (@keccak256 toy (@Cli.toUtf8Bytes toy_externals toy_sbom) mod 2 ^ 256))
                 = acme) by (vm_compute; reflexivity).
  assert (Hfresh : ~ registered st4
            (@keccak256 toy (@Cli.toUtf8Bytes toy_externals toy_sbom_next) mod 2 ^ 256)).
  { unfold registered. vm_compute. intros Hne. now apply Hne. }
  destruct (@updateCommand_updates toy toy_externals toy_world_late
              "app.cdx.json" "app-next.cdx.json" toy_sbom toy_sbom_next toy_config
              toy_wallet st4_reachable eq_refl eq_refl toy_config_loads_late
              Hreg Hown Hfresh (toy_wallet_signs toy_sbom_next) (fun _ => eq_refl))
    as (md & sg & ts & txHash & out & Hrun & _).
  exists md, sg, ts, txHash, out. exact Hrun.
Defined.

Example toy_update_result :
  fst (@Cli.updateCommand toy toy_externals "app.cdx.json" "app-next.cdx.json" toy_wallet
         toy_world_late) =
  Cli.Returned
    (Cli.Updated "0x000000000000000000000000000000000000000000000000000000000000000b"
       "0x000000000000000000000000000000000000000000000000000000000000000d" "0xfeed" 3).
Proof. vm_compute. reflexivity. Qed.

Example mallory_register_refused :
  fst (@Cli.registerCommand toy toy_externals "app-next.cdx.json" mallory_wallet
         toy_world_late) =
  Cli.Thrown (Cli.Error "Vendor not verified - please register as vendor first").
Proof. vm_compute. reflexivity. Qed.
